(** * Invoice-AI- publishing scripts: a shallow embedding

    The repository ships two scripts that publish the working directory to
    a GitHub repository through PyGithub:

    - [push_to_github.py]: one tree, one commit, one ref update
      (Strategy A);
    - [push_to_github_v2.py]: one create-file request per file
      (Strategy B).

    Both hold, textually identical, [should_ignore] and [collect_files].

    Conventions of the embedding.

    - A Python [str] that is a file name, a path, a message or a printed
      line is a [string]: the sequence of the bytes of its UTF-8 form.
      Substring tests, [lstrip], [replace], [split], comparison and ASCII
      lower-casing act on that form as they act on the code points.
    - Python [bytes] are [list byte]; a decoded file content is the list
      of its code points ([text]).
    - A computation maps a world to an outcome and a world.  The world
      holds the lines printed, the trace of the calls made to GitHub with
      their answers, and the state of the remote, an arbitrary state
      machine given as a record of handlers.  The outcome is a value,
      [sys.exit], or an exception that nothing caught.
    - The file system is a tree of named entries; reading a file gives its
      bytes or raises.  In the runs of [main] the set [read_gitignore()]
      returns is an input; [read_gitignore] itself, with the text-mode
      reading and the [strip] it relies on, is modelled on its own
      ([GitIgnore]) and composed with the collector there.

    The definitions come first: strings, paths, the mapping, the codecs,
    the GitHub objects, the run-time, the collector, the two scripts, then
    the views that read a run, small remotes and directories to run the
    scripts on, and the ignore file.  The properties follow. *)

From Stdlib Require Import List String Ascii Strings.Byte NArith ZArith Lia.
From Stdlib Require Import Bool Permutation Sorted DecimalString.
From Stdlib Require OrderedTypeEx.
Import ListNotations.
Local Open Scope string_scope.

(** ** Python string operations used by the scripts *)

Module PyStr.

(** [s.startswith(p)] *)
Definition startswith (s p : string) : bool := String.prefix p s.

(** [pattern in s] *)
Fixpoint contains (pattern s : string) {struct s} : bool :=
  String.prefix pattern s ||
  match s with
  | EmptyString => false
  | String _ s' => contains pattern s'
  end.

(** Membership of a character in a set of characters given as a string. *)
Fixpoint char_in (c : ascii) (chars : string) : bool :=
  match chars with
  | EmptyString => false
  | String d chars' => Ascii.eqb c d || char_in c chars'
  end.

(** [s.lstrip(chars)]: drops every leading character that belongs to
    [chars]; [chars] is a set of characters, not a prefix. *)
Fixpoint lstrip (chars s : string) : string :=
  match s with
  | EmptyString => EmptyString
  | String c s' => if char_in c chars then lstrip chars s' else s
  end.

(** [s.replace(old, new)] for a non-empty [old]: occurrences are replaced
    left to right, without overlap.  [skip] counts the characters of the
    occurrence being replaced that are still to be dropped. *)
Fixpoint replace_from (old new s : string) (skip : nat) : string :=
  match s with
  | EmptyString => EmptyString
  | String c s' =>
      match skip with
      | S k => replace_from old new s' k
      | O =>
          if String.prefix old s
          then new ++ replace_from old new s' (String.length old - 1)
          else String c (replace_from old new s' 0)
      end
  end.

Definition replace (old new s : string) : string := replace_from old new s 0.

(** [s.split(sep)] for a one-character separator. *)
Fixpoint split (sep : ascii) (s : string) : list string :=
  match s with
  | EmptyString => [EmptyString]
  | String c s' =>
      let r := split sep s' in
      if Ascii.eqb c sep then EmptyString :: r
      else match r with
           | h :: t => String c h :: t
           | [] => [String c EmptyString]
           end
  end.

(** [sep.join(parts)] *)
Fixpoint join (sep : string) (parts : list string) : string :=
  match parts with
  | [] => EmptyString
  | [p] => p
  | p :: ps => p ++ sep ++ join sep ps
  end.

(** [s.lower()] on the ASCII letters; a byte of a multi-byte UTF-8 sequence
    is at least 128 and is left as it is. *)
Definition lower_char (c : ascii) : ascii :=
  let n := N_of_ascii c in
  if ((65 <=? n) && (n <=? 90))%N then ascii_of_N (n + 32) else c.

Fixpoint lower (s : string) : string :=
  match s with
  | EmptyString => EmptyString
  | String c s' => String (lower_char c) (lower s')
  end.

(** [s[:n]] *)
Definition take (n : nat) (s : string) : string := String.substring 0 n s.

(** [str(n)] for a non-negative integer. *)
Definition of_nat (n : nat) : string := NilEmpty.string_of_uint (Nat.to_uint n).

(** What "[p] is a substring of [s]" means. *)
Definition Substring (p s : string) : Prop :=
  exists pre post, s = pre ++ p ++ post.

End PyStr.

(** ** [pathlib]: relative POSIX paths

  A relative path is the list of its segments.  The scripts only build
  paths from what [os.walk(".")] yields: a directory string that starts
  with [.] and a file name, which holds no [/]. *)

Module PathLib.

Definition Path := list string.

(** [Path(s)]: the segments of [s], without the empty ones and the [.]
    ones. *)
Definition of_string (s : string) : Path :=
  filter (fun p => negb (String.eqb p EmptyString || String.eqb p "."))
         (PyStr.split "/" s).

(** [p / name] *)
Definition truediv (p : Path) (name : string) : Path :=
  (p ++ of_string name)%list.

(** [str(p)] *)
Definition str (p : Path) : string :=
  match p with
  | [] => "."
  | _ => PyStr.join "/" p
  end.

(** [p.name]: the final segment. *)
Definition name (p : Path) : string := last p EmptyString.

End PathLib.

(** ** A [dict] with string keys

  Insertion-ordered, as Python's: assigning to a key that is present
  replaces the value in place, assigning to a new key appends. *)

Module Dict.

Definition t (V : Type) := list (string * V).

Fixpoint set {V} (d : t V) (k : string) (v : V) : t V :=
  match d with
  | [] => [(k, v)]
  | (k', v') :: d' =>
      if String.eqb k' k then (k', v) :: d' else (k', v') :: set d' k v
  end.

Fixpoint get {V} (d : t V) (k : string) : option V :=
  match d with
  | [] => None
  | (k', v') :: d' => if String.eqb k' k then Some v' else get d' k
  end.

Definition keys {V} (d : t V) : list string := map fst d.

(** [not d] *)
Definition is_empty {V} (d : t V) : bool :=
  match d with [] => true | _ => false end.

End Dict.

(** ** Codecs: [bytes.decode("utf-8")] and [base64.b64encode] *)

Module Codec.

Definition bytes := list byte.

(** A decoded Python [str]: its code points. *)
Definition text := list N.

Definition between (lo hi n : N) : bool := ((lo <=? n) && (n <=? hi))%N.

(** A continuation byte, [10xxxxxx]. *)
Definition is_cont (b : byte) : bool := between 0x80 0xBF (Byte.to_N b).

(** The six payload bits of a continuation byte. *)
Definition payload (b : byte) : N := N.land (Byte.to_N b) 0x3F.

(** [content.decode("utf-8")], strict: [None] stands for
    [UnicodeDecodeError].  Over-long forms, surrogates and code points above
    U+10FFFF are refused, through the range allowed for the second byte. *)
Fixpoint decode_utf8 (bs : bytes) : option text :=
  match bs with
  | [] => Some []
  | b0 :: r0 =>
      let n0 := Byte.to_N b0 in
      if (n0 <? 0x80)%N then option_map (cons n0) (decode_utf8 r0)
      else if between 0xC2 0xDF n0 then
        match r0 with
        | b1 :: r1 =>
            if is_cont b1
            then option_map
                   (cons (N.lor (N.shiftl (N.land n0 0x1F) 6) (payload b1)))
                   (decode_utf8 r1)
            else None
        | _ => None
        end
      else if between 0xE0 0xEF n0 then
        match r0 with
        | b1 :: b2 :: r2 =>
            let lo := if (n0 =? 0xE0)%N then 0xA0%N else 0x80%N in
            let hi := if (n0 =? 0xED)%N then 0x9F%N else 0xBF%N in
            if between lo hi (Byte.to_N b1) && is_cont b2
            then option_map
                   (cons (N.lor (N.shiftl (N.land n0 0x0F) 12)
                            (N.lor (N.shiftl (payload b1) 6) (payload b2))))
                   (decode_utf8 r2)
            else None
        | _ => None
        end
      else if between 0xF0 0xF4 n0 then
        match r0 with
        | b1 :: b2 :: b3 :: r3 =>
            let lo := if (n0 =? 0xF0)%N then 0x90%N else 0x80%N in
            let hi := if (n0 =? 0xF4)%N then 0x8F%N else 0xBF%N in
            if between lo hi (Byte.to_N b1) && is_cont b2 && is_cont b3
            then option_map
                   (cons (N.lor (N.shiftl (N.land n0 0x07) 18)
                            (N.lor (N.shiftl (payload b1) 12)
                               (N.lor (N.shiftl (payload b2) 6) (payload b3)))))
                   (decode_utf8 r3)
            else None
        | _ => None
        end
      else None
  end.

(** The base64 alphabet: the character of a six-bit value. *)
Definition b64_alphabet : string :=
  "ABCDEFGHIJKLMNOPQRSTUVWXYZabcdefghijklmnopqrstuvwxyz0123456789+/".

Definition b64_char (n : N) : byte :=
  match String.get (N.to_nat n) b64_alphabet with
  | Some c => byte_of_ascii c
  | None => "="%byte
  end.

(** [base64.b64encode(content)] *)
Fixpoint b64encode (bs : bytes) : bytes :=
  match bs with
  | [] => []
  | [a] =>
      let a := Byte.to_N a in
      [b64_char (N.shiftr a 2); b64_char (N.shiftl (N.land a 3) 4);
       "="%byte; "="%byte]
  | [a; b] =>
      let a := Byte.to_N a in
      let b := Byte.to_N b in
      [b64_char (N.shiftr a 2);
       b64_char (N.lor (N.shiftl (N.land a 3) 4) (N.shiftr b 4));
       b64_char (N.shiftl (N.land b 15) 2); "="%byte]
  | a :: b :: c :: rest =>
      let a := Byte.to_N a in
      let b := Byte.to_N b in
      let c := Byte.to_N c in
      b64_char (N.shiftr a 2)
      :: b64_char (N.lor (N.shiftl (N.land a 3) 4) (N.shiftr b 4))
      :: b64_char (N.lor (N.shiftl (N.land b 15) 2) (N.shiftr c 6))
      :: b64_char (N.land c 63)
      :: b64encode rest
  end.

(** An ASCII byte. *)
Definition is_ascii (b : byte) : Prop := (Byte.to_N b < 0x80)%N.

(** The bytes of a string literal. *)
Definition bytes_of_string (s : string) : bytes := list_byte_of_string s.

(** The code points of an ASCII string literal. *)
Definition text_of_string (s : string) : text :=
  map Byte.to_N (list_byte_of_string s).

End Codec.

(** ** The PyGithub objects the scripts handle, and the calls they make *)

Module GitHub.

Import Codec.

(** [GitTree], identified by its [sha]. *)
Record GitTree := { tree_sha : string }.

(** [GitCommit]: [sha] and [tree]. *)
Record GitCommit := { git_commit_sha : string; git_commit_tree : GitTree }.

(** [Commit]: [branch.commit]; its [commit] attribute is the [GitCommit]. *)
Record Commit := { commit_sha : string; commit_commit : GitCommit }.

(** [Branch]: what [repo.get_branch(name)] returns. *)
Record Branch := { branch_name : string; branch_commit : Commit }.

(** [GitRef]: what [repo.get_git_ref(ref)] returns. *)
Record GitRef := { ref_name : string }.

(** [InputGitTreeElement(path=, mode=, type=, content=)] *)
Record InputGitTreeElement := {
  element_path : string;
  element_mode : string;
  element_type : string;
  element_content : text
}.

(** The calls that reach GitHub, with the arguments the scripts pass. *)
Inductive call :=
| GetUser (token : string)
| GetRepo (repo_name : string)
| GetBranch (branch : string)
| CreateGitTree (tree_elements : list InputGitTreeElement)
    (base_tree : option GitTree)
| CreateGitCommit (message : string) (tree : GitTree) (parents : list Commit)
| GetGitRef (ref : string)
| EditGitRef (ref : GitRef) (sha : string)
| CreateGitRef (ref sha : string)
| CreateFile (path message : string) (content : text) (branch : string).

(** The calls that write to the repository. *)
Definition is_write (c : call) : bool :=
  match c with
  | CreateGitTree _ _ | CreateGitCommit _ _ _ | EditGitRef _ _
  | CreateGitRef _ _ | CreateFile _ _ _ _ => true
  | GetUser _ | GetRepo _ | GetBranch _ | GetGitRef _ => false
  end.

(** The calls that open the session: who the token belongs to, and the
    repository. *)
Definition is_connect (c : call) : bool :=
  match c with
  | GetUser _ | GetRepo _ => true
  | _ => false
  end.

(** The exceptions a run can meet: PyGithub's [GithubException], and any
    other subclass of [Exception] ([OSError] from [open], a network error
    below PyGithub, ...).  [msg] is [str(e)]. *)
Inductive exn :=
| GithubException (msg : string)
| OtherException (msg : string).

Definition exn_str (e : exn) : string :=
  match e with GithubException m | OtherException m => m end.

Definition is_github (e : exn) : bool :=
  match e with GithubException _ => true | OtherException _ => false end.

(** How a call ended: with the object it returned, or with an exception. *)
Inductive reply :=
| Login (login : string)
| RepoFound (full_name : string)
| BranchFound (b : Branch)
| TreeCreated (t : GitTree)
| CommitCreated (c : GitCommit)
| RefFound (r : GitRef)
| Done
| Raised (e : exn).

(** The trace of a run: each call with how it ended. *)
Definition trace := list (call * reply).

End GitHub.

(** ** The run-time: exceptions, [sys.exit], [print] and remote calls *)

Module Py.

Import GitHub.

(** How a computation ends: with a value, in [sys.exit(code)], or with an
    exception that nothing caught. *)
Inductive outcome (A : Type) :=
| Ok (a : A)
| Exit (code : Z)
| Raise (e : exn).
Arguments Ok {A} a.
Arguments Exit {A} code.
Arguments Raise {A} e.

Section Monad.

(** The state of the remote. *)
Context {St : Type}.

Record World := {
  stdout : list string;
  calls : trace;
  remote : St
}.

Definition M (A : Type) : Type := World -> outcome A * World.

Definition ret {A} (a : A) : M A := fun w => (Ok a, w).

Definition bind {A B} (m : M A) (k : A -> M B) : M B :=
  fun w =>
    match m w with
    | (Ok a, w') => k a w'
    | (Exit c, w') => (Exit c, w')
    | (Raise e, w') => (Raise e, w')
    end.

(** [raise e] *)
Definition raise {A} (e : exn) : M A := fun w => (Raise e, w).

(** [sys.exit(code)] *)
Definition sys_exit {A} (code : Z) : M A := fun w => (Exit code, w).

(** [print(line)] *)
Definition print (line : string) : M unit :=
  fun w =>
    (Ok tt, {| stdout := stdout w ++ [line];
               calls := calls w;
               remote := remote w |}).

(** [try: body  except cls as e: handler(e)], where [catches e] tells
    whether [e] is an instance of [cls]. *)
Definition try_except {A} (catches : exn -> bool) (body : M A)
    (handler : exn -> M A) : M A :=
  fun w =>
    match body w with
    | (Raise e, w') => if catches e then handler e w' else (Raise e, w')
    | r => r
    end.

(** [except GithubException] *)
Definition try_github {A} := @try_except A is_github.

(** [except Exception] and the bare [except:], for the exceptions of this
    model. *)
Definition try_any {A} := @try_except A (fun _ => true).

(** A call to GitHub: answered by the remote, which either raises or
    returns, and recorded with its answer; [as_reply] tells which kind of
    object the call returns. *)
Definition invoke {A} (c : call) (as_reply : A -> reply)
    (handler : St -> (exn + A) * St) : M A :=
  fun w =>
    let '(r, s) := handler (remote w) in
    match r with
    | inl e =>
        (Raise e,
         {| stdout := stdout w;
            calls := (calls w ++ [(c, Raised e)])%list;
            remote := s |})
    | inr a =>
        (Ok a,
         {| stdout := stdout w;
            calls := (calls w ++ [(c, as_reply a)])%list;
            remote := s |})
    end.

(** The world a run starts in: nothing printed, nothing called. *)
Definition init (s : St) : World :=
  {| stdout := []; calls := []; remote := s |}.

(** [for x in xs: body(x)] *)
Fixpoint for_each {A} (xs : list A) (body : A -> M unit) : M unit :=
  match xs with
  | [] => ret tt
  | x :: xs' => bind (body x) (fun _ => for_each xs' body)
  end.

(** A [for] loop that updates a local variable [s]. *)
Fixpoint for_fold {A S} (xs : list A) (s : S) (body : S -> A -> M S) : M S :=
  match xs with
  | [] => ret s
  | x :: xs' => bind (body s x) (fun s' => for_fold xs' s' body)
  end.

End Monad.

Arguments World St : clear implicits.
Arguments M St A : clear implicits.

(** The remote: one handler per call. *)
Record GithubApi (St : Type) := {
  get_user : string -> St -> (exn + string) * St;
  get_repo : string -> St -> (exn + string) * St;
  get_branch : string -> St -> (exn + Branch) * St;
  create_git_tree :
    list InputGitTreeElement -> option GitTree -> St -> (exn + GitTree) * St;
  create_git_commit :
    string -> GitTree -> list Commit -> St -> (exn + GitCommit) * St;
  get_git_ref : string -> St -> (exn + GitRef) * St;
  edit_git_ref : GitRef -> string -> St -> (exn + unit) * St;
  create_git_ref : string -> string -> St -> (exn + GitRef) * St;
  create_file :
    string -> string -> Codec.text -> string -> St -> (exn + unit) * St
}.
Arguments get_user {St}.
Arguments get_repo {St}.
Arguments get_branch {St}.
Arguments create_git_tree {St}.
Arguments create_git_commit {St}.
Arguments get_git_ref {St}.
Arguments edit_git_ref {St}.
Arguments create_git_ref {St}.
Arguments create_file {St}.

Declare Scope py_scope.
Notation "x <- c ;; k" := (bind c (fun x => k))
  (at level 61, c at next level, right associativity) : py_scope.
Notation "c ;; k" := (bind c (fun _ => k))
  (at level 61, right associativity) : py_scope.
Notation "' pat <- c ;; k" :=
  (bind c (fun x => match x with pat => k end))
  (at level 61, pat pattern, c at next level, right associativity) : py_scope.

End Py.

(** ** The working directory, as [os.walk] and [open] see it *)

Module FileSystem.

Import Codec.

(** What [open(path, "rb").read()] gives: the content, or an exception
    (permission denied, file gone, ...) with its message. *)
Inductive read_result :=
| ReadOk (content : bytes)
| ReadError (message : string).

(** An entry of a directory has a name; an entry that is not a directory is
    a file.  A directory lists its entries in the order [os.scandir] gives
    them.  Names are not empty and hold no [/]; directories are real ones
    (no symbolic link) and can be listed.  The name of the directory the
    script runs in is not used. *)
#[warnings="-register-all"]
Inductive node :=
| File (name : string) (r : read_result)
| Dir (name : string) (entries : list node).

Definition node_name (n : node) : string :=
  match n with File name _ | Dir name _ => name end.

Definition is_dir (n : node) : bool :=
  match n with Dir _ _ => true | File _ _ => false end.

(** The [dirs] of a directory. *)
Definition dirnames (entries : list node) : list string :=
  map node_name (filter is_dir entries).

(** The [filenames] of a directory, each with what reading it will give. *)
Fixpoint filenames (entries : list node) : list (string * read_result) :=
  match entries with
  | [] => []
  | File name r :: rest => (name, r) :: filenames rest
  | Dir _ _ :: rest => filenames rest
  end.

(** [os.path.join(top, name)] for a [top] that does not end with [/] and a
    relative [name]. *)
Definition path_join (top name : string) : string := top ++ "/" ++ name.

(** [os.walk(top)], top-down, consumed by a loop whose body starts with
    [dirs[:] = [d for d in dirs if keep d]]: the generator then only
    descends into the directories that are kept. *)
Fixpoint walk (keep : string -> bool) (top : string) (n : node)
  : list (string * list string * list (string * read_result)) :=
  match n with
  | File _ _ => []
  | Dir _ entries =>
      (top, dirnames entries, filenames entries)
      :: flat_map
           (fun child =>
              match child with
              | Dir name _ =>
                  if keep name then walk keep (path_join top name) child
                  else []
              | File _ _ => []
              end)
           entries
  end.

End FileSystem.

(** ** The file collector, shared by the two scripts *)

Module Collector.

Import Codec GitHub Py FileSystem.
Local Open Scope py_scope.

(** [should_ignore(path, ignore_patterns)]; the set [ignore_patterns] is
    given as the list of its elements in iteration order. *)
Fixpoint should_ignore (path : PathLib.Path) (ignore_patterns : list string)
  : bool :=
  match ignore_patterns with
  | [] => false
  | pattern :: rest =>
      if PyStr.contains pattern (PathLib.str path)
         || String.eqb (PathLib.name path) pattern
      then true
      else should_ignore path rest
  end.

(** [not d.startswith(".") and d not in ["venv", "__pycache__"]] *)
Definition keep_dir (d : string) : bool :=
  negb (PyStr.startswith d ".")
  && negb (existsb (String.eqb d) ["venv"; "__pycache__"]).

(** [str(filepath).replace("\\", "/").lstrip("./")] *)
Definition github_path_of (filepath : PathLib.Path) : string :=
  PyStr.lstrip "./" (PyStr.replace "\" "/" (PathLib.str filepath)).

(** [with open(filepath, "rb") as f: content = f.read()] *)
Definition open_read {St} (r : read_result) : M St bytes :=
  match r with
  | ReadOk content => ret content
  | ReadError message => raise (OtherException message)
  end.

Section CollectFiles.

Context {St : Type}.

(** The body of the inner loop of [collect_files], for one [filename] of
    the directory [root]; [files] is the mapping built so far. *)
Definition collect_file (ignore_patterns : list string) (root : string)
    (files : Dict.t bytes) (entry : string * read_result)
  : M St (Dict.t bytes) :=
  let '(filename, r) := entry in
  let filepath := PathLib.truediv (PathLib.of_string root) filename in
  if should_ignore filepath ignore_patterns then ret files
  else
    try_any
      (content <- open_read r ;;
       let github_path := github_path_of filepath in
       let files := Dict.set files github_path content in
       print ("  + " ++ github_path) ;;
       ret files)
      (fun e =>
         print ("  ! Skipped " ++ PathLib.str filepath ++ ": " ++ exn_str e) ;;
         ret files).

(** [collect_files()], run in the directory [cwd]; [ignore_patterns] is
    what [read_gitignore()] returned. *)
Definition collect_files (ignore_patterns : list string) (cwd : node)
  : M St (Dict.t bytes) :=
  for_fold (walk keep_dir "." cwd) []
    (fun files '(root, _, filenames) =>
       for_fold filenames files (collect_file ignore_patterns root)).

End CollectFiles.

(** The files the loop of [collect_files] comes to, in order, each with its
    [filepath] and what reading it gives. *)
Definition visited (cwd : node) : list (PathLib.Path * read_result) :=
  flat_map
    (fun '(root, _, filenames) =>
       map (fun '(filename, r) =>
              (PathLib.truediv (PathLib.of_string root) filename, r))
           filenames)
    (walk keep_dir "." cwd).

End Collector.

(** ** What a run is given *)

Module Env.

Record t := {
  (** [os.getenv("GITHUB_TOKEN")] *)
  GITHUB_TOKEN : option string;
  (** what [read_gitignore()] returns *)
  ignore_patterns : list string;
  (** the directory the script runs in *)
  cwd : FileSystem.node
}.

(** The token when [not token] is false: set, and not empty. *)
Definition token (env : t) : option string :=
  match GITHUB_TOKEN env with
  | Some EmptyString | None => None
  | Some tok => Some tok
  end.

End Env.

(** The line feed of the Python literals. *)
Definition nl : string := String (ascii_of_nat 10) EmptyString.

(** ** [push_to_github.py]: Strategy A, one tree and one commit *)

Module PushV1.

Import Codec GitHub Py FileSystem Collector.
Local Open Scope py_scope.

Section Script.

Context {St : Type}.

(** The remote. *)
Variable api : GithubApi St.

(** [content.decode("utf-8", errors="replace")]: the lossy decoder of the
    Python library. *)
Variable decode_replace : bytes -> text.

Definition url : string := "https://github.com/oswin26/Invoice-AI-.git".

(** [get_repo_url()] *)
Definition get_repo_url : M St (string * string) :=
  let parts :=
    PyStr.split "/"
      (PyStr.replace ".git" EmptyString
         (PyStr.replace "https://github.com/" EmptyString url)) in
  match parts with
  | [owner; repo_name] => ret (owner, repo_name)
  | _ => print ("ERROR: Invalid URL format: " ++ url) ;; sys_exit 1
  end.

Definition commit_msg : string :=
  "🚀 Deploy Invoice AI to Streamlit Cloud" ++ nl ++ nl
  ++ "- Added vision.py (Streamlit app)" ++ nl
  ++ "- Added Dockerfile for containerization" ++ nl
  ++ "- Added GitHub Actions CI workflow" ++ nl
  ++ "- Added Streamlit config and deployment files".

(** The tree elements, one per entry of [files], in the order of the
    mapping. *)
Definition tree_elements_of (files : Dict.t bytes)
  : list InputGitTreeElement :=
  map (fun '(filepath, content) =>
         {| element_path := filepath;
            element_mode := "100644";
            element_type := "blob";
            element_content := decode_replace content |})
      files.

(** "Get main branch": gives [base_tree] and, when a branch was found,
    [main_branch]. *)
Definition resolve_branch : M St (option GitTree * option Branch) :=
  try_github
    (main_branch <-
       invoke (GetBranch "main") BranchFound (get_branch api "main") ;;
     let base_tree :=
       git_commit_tree (commit_commit (branch_commit main_branch)) in
     print "✅ Using existing 'main' branch" ;;
     ret (Some base_tree, Some main_branch))
    (fun _ =>
       try_github
         (main_branch <-
            invoke (GetBranch "master") BranchFound
                   (get_branch api "master") ;;
          let base_tree :=
            git_commit_tree (commit_commit (branch_commit main_branch)) in
          print "✅ Using existing 'master' branch" ;;
          ret (Some base_tree, Some main_branch))
         (fun _ =>
            print "✅ Repo is empty, creating initial commit" ;;
            ret (None, None))).

(** "Create tree" *)
Definition create_tree (tree_elements : list InputGitTreeElement)
    (base_tree : option GitTree) : M St GitTree :=
  match base_tree with
  | Some bt =>
      invoke (CreateGitTree tree_elements (Some bt)) TreeCreated
             (create_git_tree api tree_elements (Some bt))
  | None =>
      invoke (CreateGitTree tree_elements None) TreeCreated
             (create_git_tree api tree_elements None)
  end.

(** [parent_commit]: [[main_branch.commit]] when [base_tree is not None];
    a [main_branch] that is not bound would raise inside the [try], and the
    bare [except] leaves the empty list. *)
Definition parents_of (base_tree : option GitTree)
    (main_branch : option Branch) : list Commit :=
  match base_tree with
  | Some _ =>
      match main_branch with
      | Some b => [branch_commit b]
      | None => []
      end
  | None => []
  end.

(** "Update ref" *)
Definition update_ref (sha : string) : M St unit :=
  try_github
    (r <- invoke (GetGitRef "heads/main") RefFound
                 (get_git_ref api "heads/main") ;;
     invoke (EditGitRef r sha) (fun _ => Done) (edit_git_ref api r sha) ;;
     print "✅ Updated main branch to latest commit")
    (fun _ =>
       try_github
         (r <- invoke (GetGitRef "heads/master") RefFound
                      (get_git_ref api "heads/master") ;;
          invoke (EditGitRef r sha) (fun _ => Done)
                 (edit_git_ref api r sha) ;;
          print "✅ Updated master branch to latest commit")
         (fun _ =>
            invoke (CreateGitRef "refs/heads/main" sha) RefFound
                   (create_git_ref api "refs/heads/main" sha) ;;
            print "✅ Created main branch with new commit")).

(** [main()], from "Create tree elements" on: what is done with a
    mapping that is not empty. *)
Definition publish (owner repo_name : string) (files : Dict.t bytes)
  : M St unit :=
  print ("✅ Found " ++ PyStr.of_nat (List.length files)
         ++ " file(s) to commit") ;;
  print (nl ++ "🔄 Creating Git tree...") ;;
  let tree_elements := tree_elements_of files in
  '(base_tree, main_branch) <- resolve_branch ;;
  tree <- create_tree tree_elements base_tree ;;
  print ("✅ Tree created: " ++ PyStr.take 7 (tree_sha tree)) ;;
  let parent_commit := parents_of base_tree main_branch in
  commit <- invoke (CreateGitCommit commit_msg tree parent_commit)
                   CommitCreated
                   (create_git_commit api commit_msg tree parent_commit) ;;
  print ("✅ Commit created: " ++ PyStr.take 7 (git_commit_sha commit)) ;;
  update_ref (git_commit_sha commit) ;;
  print (nl ++ "✅ SUCCESS! Repo pushed.") ;;
  print ("📍 Repository: https://github.com/" ++ owner ++ "/" ++ repo_name) ;;
  print (nl ++ "Next steps:") ;;
  print "1. Go to https://streamlit.io/cloud" ;;
  print "2. Click 'New app'" ;;
  print ("3. Select repo: " ++ owner ++ "/" ++ repo_name
         ++ ", branch: main, file: vision.py") ;;
  print "4. Add secret: GOOGLE_API_KEY = <your_api_key>" ;;
  print "5. Click 'Deploy'".

(** [main()] *)
Definition main (env : Env.t) : M St unit :=
  match Env.token env with
  | None =>
      print "ERROR: GITHUB_TOKEN env var not set." ;;
      print "Set it with: $env:GITHUB_TOKEN='your_token_here'" ;;
      print "Get a token at: https://github.com/settings/tokens/new" ;;
      sys_exit 1
  | Some token =>
      '(owner, repo_name) <- get_repo_url ;;
      print (nl ++ "📦 Pushing to: https://github.com/" ++ owner ++ "/"
             ++ repo_name) ;;
      try_github
        (login <- invoke (GetUser token) Login (get_user api token) ;;
         print ("✅ Authenticated as: " ++ login))
        (fun e =>
           print ("ERROR: Authentication failed: " ++ exn_str e) ;;
           sys_exit 1) ;;
      try_github
        (full_name <- invoke (GetRepo repo_name) RepoFound
                        (get_repo api repo_name) ;;
         print ("✅ Found repo: " ++ full_name))
        (fun _ =>
           print ("ERROR: Repo " ++ owner ++ "/" ++ repo_name
                  ++ " not found or not accessible.") ;;
           print "Make sure the repo exists and your token has 'repo' scope." ;;
           sys_exit 1) ;;
      print (nl ++ "📂 Collecting files...") ;;
      files <- collect_files (Env.ignore_patterns env) (Env.cwd env) ;;
      if Dict.is_empty files then
        print "ERROR: No files to commit." ;;
        sys_exit 1
      else publish owner repo_name files
  end.

End Script.

End PushV1.

(** ** [push_to_github_v2.py]: Strategy B, one request per file *)

Module PushV2.

Import Codec GitHub Py FileSystem Collector.
Local Open Scope py_scope.

(** [a < b] on [bytes]: lexicographic, by byte value. *)
Fixpoint bytes_ltb (a b : bytes) : bool :=
  match a, b with
  | _, [] => false
  | [], _ :: _ => true
  | x :: a', y :: b' =>
      if (Byte.to_N x <? Byte.to_N y)%N then true
      else if (Byte.to_N x =? Byte.to_N y)%N then bytes_ltb a' b'
      else false
  end.

(** [a < b] on the [(filepath, content)] tuples: the first components that
    differ decide. *)
Definition item_ltb (a b : string * bytes) : bool :=
  if String.eqb (fst a) (fst b) then bytes_ltb (snd a) (snd b)
  else String.ltb (fst a) (fst b).

(** [sorted(items)], as a stable insertion sort that only uses [<]. *)
Fixpoint insert (x : string * bytes) (l : list (string * bytes))
  : list (string * bytes) :=
  match l with
  | [] => [x]
  | y :: l' => if item_ltb y x then y :: insert x l' else x :: l
  end.

Fixpoint sorted (l : list (string * bytes)) : list (string * bytes) :=
  match l with
  | [] => []
  | x :: l' => insert x (sorted l')
  end.

Definition commit_msg : string := "🚀 Deploy Invoice AI to Streamlit Cloud".

(** [bytes.decode("utf-8")] as a computation: raises on invalid input. *)
Definition decode {St} (content : bytes) : M St text :=
  match decode_utf8 content with
  | Some t => ret t
  | None => raise (OtherException "'utf-8' codec can't decode bytes")
  end.

(** The test of the [except GithubException as e] branch:
    ["409" in str(e) or "exists" in str(e).lower()]. *)
Definition looks_like_conflict (e : exn) : bool :=
  PyStr.contains "409" (exn_str e)
  || PyStr.contains "exists" (PyStr.lower (exn_str e)).

Section Script.

Context {St : Type}.

(** The remote. *)
Variable api : GithubApi St.

(** "Decode if possible, else encode as base64": [file_content] and
    [encoding]. *)
Definition prepare_content (content : bytes) : M St (text * option string) :=
  try_any
    (file_content <- decode content ;;
     ret (file_content, None))
    (fun _ =>
       file_content <- decode (b64encode content) ;;
       ret (file_content, Some "base64")).

(** The body of the loop of [main], for one item of [sorted(files.items())]. *)
Definition create_one (item : string * bytes) : M St unit :=
  let '(filepath, content) := item in
  try_github
    ('(file_content, encoding) <- prepare_content content ;;
     invoke (CreateFile filepath commit_msg file_content "main")
            (fun _ => Done)
            (create_file api filepath commit_msg file_content "main") ;;
     print ("  ✅ " ++ filepath))
    (fun e =>
       if looks_like_conflict e
       then print ("  ~ " ++ filepath ++ " (already exists)")
       else print ("  ❌ " ++ filepath ++ ": " ++ exn_str e)).

(** [for filepath, content in sorted(files.items()): ...] *)
Definition create_files (files : Dict.t bytes) : M St unit :=
  for_each (sorted files) create_one.

(** [main()], from "Create files one by one" on: what is done with a
    mapping that is not empty. *)
Definition publish (owner repo_name : string) (files : Dict.t bytes)
  : M St unit :=
  print ("✅ Found " ++ PyStr.of_nat (List.length files) ++ " file(s)") ;;
  print (nl ++ "📝 Creating files in repo...") ;;
  create_files files ;;
  print (nl ++ "✅ SUCCESS! Repo pushed.") ;;
  print ("📍 Repository: https://github.com/" ++ owner ++ "/" ++ repo_name) ;;
  print (nl ++ "📋 Next steps for Streamlit Cloud:") ;;
  print "1. Go to https://streamlit.io/cloud" ;;
  print "2. Sign in with GitHub" ;;
  print "3. Click 'New app'" ;;
  print ("4. Select repo: " ++ owner ++ "/" ++ repo_name
         ++ ", branch: main, file: vision.py") ;;
  print "5. Before clicking Deploy, go to Settings → Secrets" ;;
  print "   Add: GOOGLE_API_KEY = <your_google_api_key>" ;;
  print "6. Click 'Deploy'" ;;
  print "7. Wait 1-2 minutes for deployment".

(** [main()] *)
Definition main (env : Env.t) : M St unit :=
  match Env.token env with
  | None =>
      print "ERROR: GITHUB_TOKEN env var not set." ;;
      sys_exit 1
  | Some token =>
      let owner := "oswin26" in
      let repo_name := "Invoice-AI-" in
      print (nl ++ "📦 Pushing to: https://github.com/" ++ owner ++ "/"
             ++ repo_name) ;;
      try_github
        (login <- invoke (GetUser token) Login (get_user api token) ;;
         print ("✅ Authenticated as: " ++ login))
        (fun e =>
           print ("ERROR: Auth failed: " ++ exn_str e) ;;
           sys_exit 1) ;;
      try_github
        (full_name <- invoke (GetRepo repo_name) RepoFound
                        (get_repo api repo_name) ;;
         print ("✅ Found repo: " ++ full_name))
        (fun _ =>
           print "ERROR: Repo not found." ;;
           sys_exit 1) ;;
      print (nl ++ "📂 Collecting files...") ;;
      files <- collect_files (Env.ignore_patterns env) (Env.cwd env) ;;
      if Dict.is_empty files then
        print "ERROR: No files to commit." ;;
        sys_exit 1
      else publish owner repo_name files
  end.

End Script.

End PushV2.

(** ** Reading a run: what was collected, what was sent, how it ended *)

Module Views.

Import Codec GitHub Py FileSystem Collector.

(** The files [collect_files] stores, in order: those it comes to that no
    rule ignores and that can be read. *)
Definition stored (ignore_patterns : list string) (cwd : node)
  : list (PathLib.Path * bytes) :=
  flat_map
    (fun '(filepath, r) =>
       if should_ignore filepath ignore_patterns then []
       else match r with
            | ReadOk content => [(filepath, content)]
            | ReadError _ => []
            end)
    (visited cwd).

(** The mapping these files give. *)
Definition collected (ignore_patterns : list string) (cwd : node)
  : Dict.t bytes :=
  fold_left
    (fun files '(filepath, content) =>
       Dict.set files (github_path_of filepath) content)
    (stored ignore_patterns cwd) [].

(** A read that succeeds; the files of a directory that can be read. *)
Definition is_read_ok (r : read_result) : bool :=
  match r with ReadOk _ => true | ReadError _ => false end.

Definition keep_readable (fns : list (string * read_result))
  : list (string * read_result) :=
  filter (fun e => is_read_ok (snd e)) fns.

Definition readable (n : node) : bool :=
  match n with
  | File _ (ReadError _) => false
  | _ => true
  end.

(** The directory without the files that cannot be read. *)
Fixpoint remove_unreadable (n : node) : node :=
  match n with
  | File name r => File name r
  | Dir name entries =>
      Dir name
        (flat_map
           (fun child =>
              if readable child then [remove_unreadable child] else [])
           entries)
  end.

(** The files of one directory, with their paths. *)
Definition with_paths (root : string)
    (filenames : list (string * read_result))
  : list (PathLib.Path * read_result) :=
  map (fun '(filename, r) =>
         (PathLib.truediv (PathLib.of_string root) filename, r))
      filenames.

(** A world after some more lines were printed. *)
Definition printing {St} (lines : list string) (w : World St) : World St :=
  {| stdout := (stdout w ++ lines)%list;
     calls := calls w;
     remote := remote w |}.

(** What one file does to the mapping, and what it prints. *)
Definition visit_files (ignore_patterns : list string) (files : Dict.t bytes)
    (v : PathLib.Path * read_result) : Dict.t bytes :=
  let '(filepath, r) := v in
  if should_ignore filepath ignore_patterns then files
  else match r with
       | ReadOk content => Dict.set files (github_path_of filepath) content
       | ReadError _ => files
       end.

Definition visit_lines (ignore_patterns : list string)
    (v : PathLib.Path * read_result) : list string :=
  let '(filepath, r) := v in
  if should_ignore filepath ignore_patterns then []
  else match r with
       | ReadOk _ => ["  + " ++ github_path_of filepath]
       | ReadError message =>
           ["  ! Skipped " ++ PathLib.str filepath ++ ": " ++ message]
       end.

(** No two of the files stored share a key. *)
Definition distinct_keys (ignore_patterns : list string) (cwd : node)
  : Prop :=
  NoDup (map (fun e => github_path_of (fst e)) (stored ignore_patterns cwd)).

(** The lines [collect_files] prints. *)
Definition collect_lines (ignore_patterns : list string) (cwd : node)
  : list string :=
  flat_map (visit_lines ignore_patterns) (visited cwd).

(** What Strategy B sends for a content: the decoded text, or the base64
    form of the bytes when they are not UTF-8. *)
Definition request_content (content : bytes) : text :=
  match decode_utf8 content with
  | Some t => t
  | None => map Byte.to_N (b64encode content)
  end.

(** The value of the local variable [encoding] for a content. *)
Definition encoding_of (content : bytes) : option string :=
  match decode_utf8 content with
  | Some _ => None
  | None => Some "base64"
  end.

(** The request a file gives rise to. *)
Definition request_of (item : string * bytes) : call :=
  CreateFile (fst item) PushV2.commit_msg (request_content (snd item)) "main".

(** The exit status of the process: the argument of [sys.exit], 1 after an
    exception that nothing caught, 0 otherwise. *)
Definition exit_status {A} (r : outcome A) : Z :=
  match r with
  | Ok _ => 0
  | Exit code => code
  | Raise _ => 1
  end.

(** The calls of a trace that write to the repository. *)
Definition writes (t : trace) : list call :=
  filter is_write (map fst t).

(** The entries of a trace that [f] selects, with what it reads in them. *)
Fixpoint pick {A} (f : call * reply -> option A) (t : trace) : list A :=
  match t with
  | [] => []
  | cr :: t' =>
      match f cr with
      | Some a => a :: pick f t'
      | None => pick f t'
      end
  end.

(** A selection that reads nothing in the calls [skip] accepts. *)
Definition blind {A} (skip : call -> bool) (f : call * reply -> option A)
  : Prop :=
  forall c r, skip c = true -> f (c, r) = None.

(** The paths of the create-file requests of a trace, in order. *)
Definition attempted_paths : trace -> list string :=
  pick (fun cr =>
          match fst cr with
          | CreateFile path _ _ _ => Some path
          | _ => None
          end).

(** The create-commit requests of a trace: the parents of each. *)
Definition commit_requests : trace -> list (list Commit) :=
  pick (fun cr =>
          match fst cr with
          | CreateGitCommit _ _ parents => Some parents
          | _ => None
          end).

(** The commits a trace created. *)
Definition commits_created : trace -> list GitCommit :=
  pick (fun cr =>
          match cr with
          | (CreateGitCommit _ _ _, CommitCreated c) => Some c
          | _ => None
          end).

(** The base trees of the create-tree requests of a trace. *)
Definition tree_bases : trace -> list (option GitTree) :=
  pick (fun cr =>
          match fst cr with
          | CreateGitTree _ base => Some base
          | _ => None
          end).

(** The trees a trace created. *)
Definition trees_created : trace -> list GitTree :=
  pick (fun cr =>
          match cr with
          | (CreateGitTree _ _, TreeCreated t) => Some t
          | _ => None
          end).

(** The branches a trace asked for, in order, each with the answer. *)
Definition branch_lookups : trace -> list (string * reply) :=
  pick (fun cr =>
          match fst cr with
          | GetBranch name => Some (name, snd cr)
          | _ => None
          end).

(** The branch a trace resolved: the first one a lookup returned. *)
Definition resolved_branch (t : trace) : option Branch :=
  head (pick (fun cr =>
                match cr with
                | (GetBranch _, BranchFound b) => Some b
                | _ => None
                end) t).

(** The calls that move a branch. *)
Definition is_ref_call (c : call) : bool :=
  match c with
  | GetGitRef _ | EditGitRef _ _ | CreateGitRef _ _ => true
  | _ => false
  end.

(** The trace shows that the repository was found. *)
Definition repository_found (t : trace) : bool :=
  existsb
    (fun cr =>
       match cr with
       | (GetRepo _, RepoFound _) => true
       | _ => false
       end) t.

(** A run that ended before it had anything to publish: the process exits
    with a status that is not zero, only the session was opened, and when
    the repository was found the mapping was empty and said so. *)
Definition ended_early {St} (files : Dict.t bytes)
    (run : outcome unit * World St) : Prop :=
  exit_status (fst run) <> 0%Z
  /\ Forall (fun cr => is_connect (fst cr) = true) (calls (snd run))
  /\ (repository_found (calls (snd run)) = true ->
      files = []
      /\ fst run = Exit 1
      /\ last (stdout (snd run)) EmptyString = "ERROR: No files to commit.").

(** A world in which the session was opened: the user and the repository
    were found, and nothing else was called. *)
Definition opened {St} (w : World St) : Prop :=
  exists token login repo_name full_name,
    calls w = [(GetUser token, Login login);
               (GetRepo repo_name, RepoFound full_name)].

(** The tree of the tip of a branch. *)
Definition tree_of (b : Branch) : GitTree :=
  git_commit_tree (commit_commit (branch_commit b)).

(** How the branch resolution of Strategy A can go, read in the trace of a
    run: which branches were looked up, with which answers, and on which
    base the tree was then requested. *)
Inductive resolution (t : trace) : Prop :=
| not_reached :
    branch_lookups t = [] -> tree_bases t = [] -> commit_requests t = [] ->
    resolution t
| primary_found (b : Branch) :
    branch_lookups t = [("main", BranchFound b)] ->
    tree_bases t = [Some (tree_of b)] ->
    resolution t
| secondary_found (m : string) (b : Branch) :
    branch_lookups t = [("main", Raised (GithubException m));
                        ("master", BranchFound b)] ->
    tree_bases t = [Some (tree_of b)] ->
    resolution t
| empty_repository (m m' : string) :
    branch_lookups t = [("main", Raised (GithubException m));
                        ("master", Raised (GithubException m'))] ->
    tree_bases t = [None] ->
    commit_requests t = map (fun _ => []) (trees_created t) ->
    resolution t
| primary_crashed (m : string) :
    branch_lookups t = [("main", Raised (OtherException m))] ->
    tree_bases t = [] -> commit_requests t = [] ->
    resolution t
| secondary_crashed (m m' : string) :
    branch_lookups t = [("main", Raised (GithubException m));
                        ("master", Raised (OtherException m'))] ->
    tree_bases t = [] -> commit_requests t = [] ->
    resolution t.

(** The parents the new commit is to have: the tip of the branch that was
    resolved, or none. *)
Definition expected_parents (t : trace) : list Commit :=
  match resolved_branch t with
  | Some b => [branch_commit b]
  | None => []
  end.

(** What a trace shows of the commit of a run: one request per tree that
    was created, at most one, with the expected parents. *)
Definition one_commit (t : trace) : Prop :=
  commit_requests t = map (fun _ => expected_parents t) (trees_created t)
  /\ List.length (trees_created t) <= 1
  /\ List.length (commits_created t) <= List.length (commit_requests t).

End Views.

(** ** The statements of the specification that need words of their own *)

Module Spec.

Import Codec GitHub Py FileSystem.

(** A rule matches a path: it is a substring of the string form of the
    path, or it is the final segment. *)
Definition rule_matches (rule : string) (path : PathLib.Path) : Prop :=
  PyStr.Substring rule (PathLib.str path) \/ PathLib.name path = rule.

(** [s] without the prefix [p], when it starts with it. *)
Definition strip_prefix (p s : string) : string :=
  if String.prefix p s
  then String.substring (String.length p)
         (String.length s - String.length p) s
  else s.

(** The key the specification gives a file: its path relative to the root,
    separators replaced by forward slashes, a leading [./] stripped, and
    nothing else removed. *)
Definition relative_key (root filename : string) : string :=
  strip_prefix "./" (PyStr.replace "\" "/" (path_join root filename)).

(** The three outcomes of a create-file request. *)
Inductive file_outcome :=
| Created
| AlreadyExists
| Failed (e : exn).

(** The message holds ["409"], or holds ["exists"] in some mix of upper
    and lower case. *)
Definition conflict_message (msg : string) : Prop :=
  PyStr.Substring "409" msg
  \/ exists t, PyStr.Substring t msg /\ PyStr.lower t = "exists".

(** How the answer to a create-file request is classified. *)
Inductive classified : reply -> file_outcome -> Prop :=
| classified_created : classified Done Created
| classified_exists (e : exn) :
    conflict_message (exn_str e) -> classified (Raised e) AlreadyExists
| classified_failed (e : exn) :
    ~ conflict_message (exn_str e) -> classified (Raised e) (Failed e).

(** The line that reports an outcome. *)
Definition outcome_line (path : string) (o : file_outcome) : string :=
  match o with
  | Created => "  ✅ " ++ path
  | AlreadyExists => "  ~ " ++ path ++ " (already exists)"
  | Failed e => "  ❌ " ++ path ++ ": " ++ exn_str e
  end.

(** A request and its answer are reported by a line: the line of the
    outcome the answer is classified as. *)
Definition reported (cr : call * reply) (line : string) : Prop :=
  exists path message content branch o,
    fst cr = CreateFile path message content branch
    /\ classified (snd cr) o
    /\ line = outcome_line path o.

(** A call that ended in an exception that is not GitHub's. *)
Definition aborted (cr : call * reply) : Prop :=
  exists msg, snd cr = Raised (OtherException msg).

(** [a < b] on strings, as a relation. *)
Definition string_lt (a b : string) : Prop := String.ltb a b = true.

(** The list of keys, sorted ascending: insertion sort on strings. *)
Fixpoint insert_string (x : string) (l : list string) : list string :=
  match l with
  | [] => [x]
  | y :: l' => if String.ltb y x then y :: insert_string x l' else x :: l
  end.

Fixpoint sort_strings (l : list string) : list string :=
  match l with
  | [] => []
  | x :: l' => insert_string x (sort_strings l')
  end.

End Spec.

(** ** A small repository host and a working directory, to run the scripts on *)

Module Mock.

Import Codec GitHub Py FileSystem.

(** The host: a counter to name new objects, the commits it knows, the
    branches with their tips, the paths present on the default branch, and
    the paths it refuses to write. *)
Record state := {
  counter : nat;
  objects : list (string * GitCommit);
  heads : list (string * Commit);
  present : list string;
  denied : list string
}.

Fixpoint lookup {V} (k : string) (l : list (string * V)) : option V :=
  match l with
  | [] => None
  | (k', v) :: l' => if String.eqb k' k then Some v else lookup k l'
  end.

Definition not_found {A} (s : state) : (exn + A) * state :=
  (inl (GithubException "404 Not Found"), s).

Definition mock_get_user (token : string) (s : state)
  : (exn + string) * state :=
  if String.eqb token "ghp_valid" then (inr "oswin26", s)
  else (inl (GithubException "401 Bad credentials"), s).

Definition mock_get_repo (repo_name : string) (s : state)
  : (exn + string) * state :=
  (inr ("oswin26/" ++ repo_name), s).

Definition mock_get_branch (name : string) (s : state)
  : (exn + Branch) * state :=
  match lookup name (heads s) with
  | Some c => (inr {| branch_name := name; branch_commit := c |}, s)
  | None => not_found s
  end.

Definition mock_create_git_tree (elements : list InputGitTreeElement)
    (base : option GitTree) (s : state) : (exn + GitTree) * state :=
  (inr {| tree_sha := "tree" ++ PyStr.of_nat (counter s) |},
   {| counter := S (counter s); objects := objects s; heads := heads s;
      present := present s; denied := denied s |}).

Definition mock_create_git_commit (message : string) (tree : GitTree)
    (parents : list Commit) (s : state) : (exn + GitCommit) * state :=
  let c := {| git_commit_sha := "commit" ++ PyStr.of_nat (counter s);
              git_commit_tree := tree |} in
  (inr c,
   {| counter := S (counter s);
      objects := (git_commit_sha c, c) :: objects s;
      heads := heads s; present := present s; denied := denied s |}).

Definition mock_get_git_ref (ref : string) (s : state)
  : (exn + GitRef) * state :=
  match lookup (Spec.strip_prefix "heads/" ref) (heads s) with
  | Some _ => (inr {| ref_name := ref |}, s)
  | None => not_found s
  end.

Definition set_head (name sha : string) (s : state)
  : (exn + unit) * state :=
  match lookup sha (objects s) with
  | Some c =>
      (inr tt,
       {| counter := counter s; objects := objects s;
          heads := (name, {| commit_sha := sha; commit_commit := c |})
                   :: heads s;
          present := present s; denied := denied s |})
  | None => (inl (GithubException "422 Object does not exist"), s)
  end.

Definition mock_edit_git_ref (r : GitRef) (sha : string) (s : state)
  : (exn + unit) * state :=
  set_head (Spec.strip_prefix "heads/" (ref_name r)) sha s.

Definition mock_create_git_ref (ref sha : string) (s : state)
  : (exn + GitRef) * state :=
  match set_head (Spec.strip_prefix "refs/heads/" ref) sha s with
  | (inr _, s') => (inr {| ref_name := ref |}, s')
  | (inl e, s') => (inl e, s')
  end.

Definition mock_create_file (path message : string) (content : text)
    (branch : string) (s : state) : (exn + unit) * state :=
  if existsb (String.eqb path) (denied s)
  then (inl (GithubException "403 Resource not accessible"), s)
  else if existsb (String.eqb path) (present s)
  then (inl (GithubException "422 path already Exists"), s)
  else (inr tt,
        {| counter := counter s; objects := objects s; heads := heads s;
           present := path :: present s; denied := denied s |}).

Definition api : GithubApi state := {|
  get_user := mock_get_user;
  get_repo := mock_get_repo;
  get_branch := mock_get_branch;
  create_git_tree := mock_create_git_tree;
  create_git_commit := mock_create_git_commit;
  get_git_ref := mock_get_git_ref;
  edit_git_ref := mock_edit_git_ref;
  create_git_ref := mock_create_git_ref;
  create_file := mock_create_file
|}.

(** A repository with no branch. *)
Definition empty_repo : state :=
  {| counter := 0; objects := []; heads := []; present := [];
     denied := [] |}.

Definition tip : Commit :=
  {| commit_sha := "c0ffee1";
     commit_commit := {| git_commit_sha := "c0ffee1";
                         git_commit_tree := {| tree_sha := "7ee5" |} |} |}.

(** A repository whose [master] branch has one commit. *)
Definition master_repo : state :=
  {| counter := 1; objects := [("c0ffee1", commit_commit tip)];
     heads := [("master", tip)]; present := []; denied := [] |}.

(** A repository that holds [vision.py] and refuses [Dockerfile]. *)
Definition partial_repo : state :=
  {| counter := 1; objects := [("c0ffee1", commit_commit tip)];
     heads := [("main", tip)]; present := ["vision.py"];
     denied := ["Dockerfile"] |}.

(** A lossy decoder for the runs: one replacement character for a content
    that is not UTF-8. *)
Definition decode_replace (content : bytes) : text :=
  match decode_utf8 content with
  | Some t => t
  | None => [0xFFFD%N]
  end.

(** A working directory. *)
Definition project : node :=
  Dir "."
    [File "vision.py" (ReadOk (bytes_of_string "import streamlit as st"));
     File ".gitignore" (ReadOk (bytes_of_string "secrets.env"));
     Dir ".git" [File "HEAD" (ReadOk (bytes_of_string "ref: refs/heads/main"))];
     File "secrets.env" (ReadOk (bytes_of_string "GOOGLE_API_KEY=x"));
     File "Dockerfile" (ReadOk (bytes_of_string "FROM python:3.11"));
     Dir "assets"
       [File "logo.png" (ReadOk [x89; "P"; "N"; "G"; xff]%byte);
        File "locked.bin" (ReadError "[Errno 13] Permission denied");
        Dir "__pycache__" [File "x.pyc" (ReadOk [])]]].

Definition env : Env.t :=
  {| Env.GITHUB_TOKEN := Some "ghp_valid";
     Env.ignore_patterns := ["secrets.env"];
     Env.cwd := project |}.

(** A directory where every file is ignored. *)
Definition env_nothing : Env.t :=
  {| Env.GITHUB_TOKEN := Some "ghp_valid";
     Env.ignore_patterns := ["secrets.env"];
     Env.cwd := Dir "." [File "secrets.env" (ReadOk []);
                         Dir "venv" [File "pyvenv.cfg" (ReadOk [])]] |}.

End Mock.

(** ** Reading the ignore file: lines and [strip] *)

Module PyText.

(** The white space of [str.strip()], by code point: U+0009 to U+000D,
    U+001C to U+0020, U+0085, U+00A0, U+1680, U+2000 to U+200A, U+2028,
    U+2029, U+202F, U+205F and U+3000; here by the bytes of the UTF-8 form,
    which has one, two or three of them. *)
Definition ws1 (a : ascii) : bool :=
  let a := N_of_ascii a in
  (((9 <=? a) && (a <=? 13)) || ((28 <=? a) && (a <=? 32)))%N.

Definition ws2 (a b : ascii) : bool :=
  let a := N_of_ascii a in
  let b := N_of_ascii b in
  ((a =? 0xC2) && ((b =? 0x85) || (b =? 0xA0)))%N.

Definition ws3 (a b c : ascii) : bool :=
  let a := N_of_ascii a in
  let b := N_of_ascii b in
  let c := N_of_ascii c in
  (((a =? 0xE1) && (b =? 0x9A) && (c =? 0x80))
   || ((a =? 0xE2) && (b =? 0x80)
       && (((0x80 <=? c) && (c <=? 0x8A))
           || (c =? 0xA8) || (c =? 0xA9) || (c =? 0xAF)))
   || ((a =? 0xE2) && (b =? 0x81) && (c =? 0x9F))
   || ((a =? 0xE3) && (b =? 0x80) && (c =? 0x80)))%N.

(** [s.lstrip()] *)
Fixpoint lstrip (s : string) : string :=
  match s with
  | EmptyString => EmptyString
  | String a r1 =>
      if ws1 a then lstrip r1
      else
        match r1 with
        | EmptyString => s
        | String b r2 =>
            if ws2 a b then lstrip r2
            else
              match r2 with
              | EmptyString => s
              | String c r3 => if ws3 a b c then lstrip r3 else s
              end
        end
  end.

(** The string read backwards. *)
Fixpoint rev (s : string) : string :=
  match s with
  | EmptyString => EmptyString
  | String a r => rev r ++ String a EmptyString
  end.

(** [s.rstrip()], on the string read backwards: the last byte of a white
    space comes first. *)
Fixpoint rstrip_rev (s : string) : string :=
  match s with
  | EmptyString => EmptyString
  | String c r1 =>
      if ws1 c then rstrip_rev r1
      else
        match r1 with
        | EmptyString => s
        | String b r2 =>
            if ws2 b c then rstrip_rev r2
            else
              match r2 with
              | EmptyString => s
              | String a r3 => if ws3 a b c then rstrip_rev r3 else s
              end
        end
  end.

(** [s.rstrip()] *)
Definition rstrip (s : string) : string := rev (rstrip_rev (rev s)).

(** [s.strip()] *)
Definition strip (s : string) : string := rstrip (lstrip s).

(** The line feed and the carriage return. *)
Definition LF : ascii := ascii_of_nat 10.
Definition CR : ascii := ascii_of_nat 13.

(** [for line in f], for a file opened in text mode with the content [s]:
    a line ends after a line feed, after a carriage return, or after a
    carriage return and a line feed, each read as one line feed; the last
    line ends with the content. *)
Fixpoint readlines (s : string) : list string :=
  match s with
  | EmptyString => []
  | String c r =>
      if Ascii.eqb c LF then String LF EmptyString :: readlines r
      else if Ascii.eqb c CR then
        match r with
        | String d r' =>
            if Ascii.eqb d LF then String LF EmptyString :: readlines r'
            else String LF EmptyString :: readlines r
        | EmptyString => [String LF EmptyString]
        end
      else
        match readlines r with
        | [] => [String c EmptyString]
        | line :: rest => String c line :: rest
        end
  end.

End PyText.

(** ** [read_gitignore] *)

Module GitIgnore.

Import Codec GitHub Py FileSystem.

(** [ignore_patterns.add(line)]: the set as the list of its elements. *)
Definition set_add (x : string) (set : list string) : list string :=
  if existsb (String.eqb x) set then set else (set ++ [x])%list.

(** The body of the loop over the lines. *)
Definition add_line (ignore_patterns : list string) (line : string)
  : list string :=
  let line := PyText.strip line in
  if negb (String.eqb line EmptyString) && negb (PyStr.startswith line "#")
  then set_add line ignore_patterns
  else ignore_patterns.

(** The set the loop builds from the lines of the file. *)
Definition patterns_of (lines : list string) : list string :=
  fold_left add_line lines [].

(** The entry [.gitignore] of the directory the script runs in. *)
Definition gitignore_entry (cwd : node) : option node :=
  match cwd with
  | Dir _ entries =>
      find (fun e => String.eqb (node_name e) ".gitignore") entries
  | File _ _ => None
  end.

(** [read_gitignore()], run in the directory [cwd], with UTF-8 as the
    encoding of text files.  No guard surrounds [open] and the loop: a
    [.gitignore] that is a directory, that cannot be read or that is not
    UTF-8 raises. *)
Definition read_gitignore {St} (cwd : node) : M St (list string) :=
  match gitignore_entry cwd with
  | None => ret []
  | Some (Dir _ _) =>
      raise (OtherException "[Errno 21] Is a directory: '.gitignore'")
  | Some (File _ (ReadError message)) => raise (OtherException message)
  | Some (File _ (ReadOk content)) =>
      match decode_utf8 content with
      | None => raise (OtherException "'utf-8' codec can't decode bytes")
      | Some _ =>
          ret (patterns_of (PyText.readlines (string_of_list_byte content)))
      end
  end.

(** [collect_files()] as the scripts have it: the rules are read, then the
    directory is walked. *)
Definition collect_files_here {St} (cwd : node)
  : M St (Dict.t bytes) :=
  bind (read_gitignore cwd)
       (fun ignore_patterns => Collector.collect_files ignore_patterns cwd).

End GitIgnore.

(** ** Words for the properties of the ignore file *)

Module TextViews.

Import PyText.

(** The string starts with a white space. *)
Definition starts_ws (s : string) : bool :=
  match s with
  | EmptyString => false
  | String a r1 =>
      ws1 a
      || match r1 with
         | EmptyString => false
         | String b r2 =>
             ws2 a b
             || match r2 with
                | EmptyString => false
                | String c _ => ws3 a b c
                end
         end
  end.

(** The string read backwards starts with a white space: the string ends
    with one. *)
Definition starts_ws_rev (s : string) : bool :=
  match s with
  | EmptyString => false
  | String c r1 =>
      ws1 c
      || match r1 with
         | EmptyString => false
         | String b r2 =>
             ws2 b c
             || match r2 with
                | EmptyString => false
                | String a _ => ws3 a b c
                end
         end
  end.

(** The string ends with a white space. *)
Definition ends_ws (s : string) : bool := starts_ws_rev (rev s).

(** A line gives a rule when its stripped form is neither empty nor a
    comment. *)
Definition gives_rule (line p : string) : Prop :=
  strip line = p /\ p <> EmptyString /\ PyStr.startswith p "#" = false.

(** A rule as [read_gitignore] keeps them: not empty, not a comment, with
    no white space at either end. *)
Definition trimmed_rule (p : string) : Prop :=
  p <> EmptyString
  /\ PyStr.startswith p "#" = false
  /\ starts_ws p = false
  /\ ends_ws p = false.

End TextViews.

(** ** Words for the walk *)

Module WalkViews.

Import Codec FileSystem.

(** A name as a directory lists them: not empty, not [.], without [/]. *)
Definition good_name (name : string) : bool :=
  negb (String.eqb name EmptyString)
  && negb (String.eqb name ".")
  && negb (PyStr.char_in "/" name).

(** Every entry below the node has such a name. *)
Fixpoint well_named (n : node) : bool :=
  match n with
  | File _ _ => true
  | Dir _ entries =>
      forallb (fun e => good_name (node_name e) && well_named e) entries
  end.

(** [dir_at n dirs entries]: going down from the directory [n] through the
    directories named [dirs], one comes to a directory that lists
    [entries]. *)
Inductive dir_at : node -> list string -> list node -> Prop :=
| dir_here (name : string) (entries : list node) :
    dir_at (Dir name entries) [] entries
| dir_below (name : string) (entries : list node) (d : string)
    (below : list node) (dirs : list string) (found : list node) :
    In (Dir d below) entries ->
    dir_at (Dir d below) dirs found ->
    dir_at (Dir name entries) (d :: dirs) found.

(** The file [filename], read as [r], lies in the directory reached from
    [n] through [dirs]. *)
Definition file_at (n : node) (dirs : list string) (filename : string)
    (r : read_result) : Prop :=
  exists entries, dir_at n dirs entries /\ In (File filename r) entries.

(** The string [os.walk] gives for the directory reached through [dirs]. *)
Definition root_of (top : string) (dirs : list string) : string :=
  fold_left path_join dirs top.

End WalkViews.

(** ** Words for the runs of [main] *)

Module RunViews.

Import Codec GitHub Py FileSystem Collector Views.

(** The last call of a trace, with its answer. *)
Fixpoint last_call (t : trace) : option (call * reply) :=
  match t with
  | [] => None
  | [cr] => Some cr
  | _ :: t' => last_call t'
  end.

(** The calls of a trace that look up, edit or create a ref, with their
    answers. *)
Definition ref_calls (t : trace) : trace :=
  filter (fun cr => is_ref_call (fst cr)) t.

(** The refs a trace moved: those an edit or a creation that returned was
    for, each with the sha it was given. *)
Definition refs_moved : trace -> list (string * string) :=
  pick (fun cr =>
          match cr with
          | (EditGitRef r sha, Done) => Some (ref_name r, sha)
          | (CreateGitRef ref sha, RefFound _) => Some (ref, sha)
          | _ => None
          end).

(** The elements of the create-tree requests of a trace. *)
Definition tree_requests : trace -> list (list InputGitTreeElement) :=
  pick (fun cr =>
          match fst cr with
          | CreateGitTree tree_elements _ => Some tree_elements
          | _ => None
          end).


(** How a run reads when it ended in [sys.exit]. *)
Inductive exited (env : Env.t) (files : Dict.t bytes) : trace -> Prop :=
| no_token :
    Env.token env = None -> exited env files []
| bad_credentials (token m : string) :
    Env.token env = Some token ->
    exited env files [(GetUser token, Raised (GithubException m))]
| no_repository (token login m : string) :
    Env.token env = Some token ->
    exited env files
      [(GetUser token, Login login);
       (GetRepo "Invoice-AI-", Raised (GithubException m))]
| nothing_to_publish (token login full_name : string) :
    Env.token env = Some token ->
    files = [] ->
    exited env files
      [(GetUser token, Login login);
       (GetRepo "Invoice-AI-", RepoFound full_name)].

(** The calls of Strategy A whose [GithubException] nothing catches. *)
Definition uncaught_v1 (c : call) : bool :=
  match c with
  | CreateGitTree _ _ | CreateGitCommit _ _ _ | CreateGitRef _ _ => true
  | _ => false
  end.

(** How one attempt to move the ref [ref] to [sha] reads at the head of the
    ref calls [rc]: the ref is looked up and, when it is found, edited;
    [next] tells what follows an attempt that GitHub refused. *)
Definition attempt (sha ref : string) (next : trace -> Prop) (rc : trace)
  : Prop :=
  match rc with
  | (GetGitRef n, RefFound r) :: (EditGitRef r' sha', answer) :: rest =>
      n = ref /\ r' = r /\ sha' = sha
      /\ match answer with
         | Done => rest = []
         | Raised (GithubException _) => next rest
         | Raised (OtherException _) => rest = []
         | _ => False
         end
  | (GetGitRef n, Raised (GithubException _)) :: rest => n = ref /\ next rest
  | (GetGitRef n, Raised (OtherException _)) :: rest => n = ref /\ rest = []
  | _ => False
  end.

(** The ref calls of an update to [sha]: [heads/main] is tried, then
    [heads/master], then [refs/heads/main] is created. *)
Definition ref_update (sha : string) : trace -> Prop :=
  attempt sha "heads/main"
    (attempt sha "heads/master"
       (fun rest =>
          exists answer,
            rest = [(CreateGitRef "refs/heads/main" sha, answer)])).

(** The calls of a trace made once the session was opened. *)
Definition requests (t : trace) : list call :=
  filter (fun c => negb (is_connect c)) (map fst t).

(** The line that announces success. *)
Definition success_line : string := nl ++ "✅ SUCCESS! Repo pushed.".

End RunViews.

(** ** More remotes and environments to run the scripts on *)

Module Scenes.
Import Codec GitHub Py FileSystem.

(** A repository that refuses every file of the working directory. *)
Definition locked_repo : Mock.state :=
  {| Mock.counter := 1;
     Mock.objects := [("c0ffee1", commit_commit Mock.tip)];
     Mock.heads := [("main", Mock.tip)];
     Mock.present := [];
     Mock.denied := ["Dockerfile"; "assets/logo.png"; "gitignore";
                     "vision.py"] |}.

(** No token, and an empty one. *)
Definition env_no_token : Env.t :=
  {| Env.GITHUB_TOKEN := None;
     Env.ignore_patterns := ["secrets.env"];
     Env.cwd := Mock.project |}.

Definition env_empty_token : Env.t :=
  {| Env.GITHUB_TOKEN := Some EmptyString;
     Env.ignore_patterns := ["secrets.env"];
     Env.cwd := Mock.project |}.

Definition env_bad_token : Env.t :=
  {| Env.GITHUB_TOKEN := Some "ghp_revoked";
     Env.ignore_patterns := ["secrets.env"];
     Env.cwd := Mock.project |}.



(** A remote that refuses to move [heads/main]. *)
Definition protected_api : GithubApi Mock.state := {|
  get_user := Mock.mock_get_user;
  get_repo := Mock.mock_get_repo;
  get_branch := Mock.mock_get_branch;
  create_git_tree := Mock.mock_create_git_tree;
  create_git_commit := Mock.mock_create_git_commit;
  get_git_ref := Mock.mock_get_git_ref;
  edit_git_ref :=
    fun r sha s =>
      if String.eqb (ref_name r) "heads/main"
      then (inl (GithubException "422 Update is not a fast forward"), s)
      else Mock.mock_edit_git_ref r sha s;
  create_git_ref := Mock.mock_create_git_ref;
  create_file := Mock.mock_create_file
|}.

(** A repository with both branches. *)
Definition two_branches : Mock.state :=
  {| Mock.counter := 1;
     Mock.objects := [("c0ffee1", commit_commit Mock.tip)];
     Mock.heads := [("main", Mock.tip); ("master", Mock.tip)];
     Mock.present := [];
     Mock.denied := [] |}.

End Scenes.

(** * Properties *)

(** ** Strings *)

Module PyStrFacts.

Import PyStr.

Lemma append_nil_r (s : string) : s ++ EmptyString = s.
Proof. induction s as [|c s IH]; simpl; [reflexivity | now rewrite IH]. Qed.

Lemma append_assoc (a b c : string) : (a ++ b) ++ c = a ++ b ++ c.
Proof. induction a as [|x a IH]; simpl; [reflexivity | now rewrite IH]. Qed.

Lemma prefix_iff (p s : string) :
  String.prefix p s = true <-> exists t, s = p ++ t.
Proof.
  revert s; induction p as [|c p IH]; intros s.
  - destruct s; simpl; split; intros; eauto.
  - destruct s as [|d s]; simpl.
    + split; [discriminate | intros [t Ht]; discriminate].
    + destruct (ascii_dec c d) as [->|Hcd].
      * rewrite IH. split; intros [t Ht].
        -- exists t; now rewrite Ht.
        -- exists t; now injection Ht.
      * split; [discriminate | intros [t Ht]].
        injection Ht as Hd _. congruence.
Qed.

(** [pattern in s] holds exactly when [pattern] is a substring of [s]. *)
Lemma contains_iff (p s : string) :
  contains p s = true <-> Substring p s.
Proof.
  unfold Substring.
  induction s as [|c s IH].
  - cbn [contains]. rewrite orb_false_r, prefix_iff. split.
    + intros [t Ht]. exists EmptyString, t. exact Ht.
    + intros (pre & post & H). destruct pre; [|discriminate].
      exists post. exact H.
  - cbn [contains]. rewrite orb_true_iff, IH, prefix_iff. split.
    + intros [[t Ht] | (pre & post & H)].
      * exists EmptyString, t. exact Ht.
      * exists (String c pre), post. simpl. now rewrite H.
    + intros (pre & post & H). destruct pre as [|d pre].
      * left. exists post. exact H.
      * right. simpl in H. injection H as _ H. eauto.
Qed.

Lemma lower_app (a b : string) : lower (a ++ b) = lower a ++ lower b.
Proof. induction a as [|c a IH]; simpl; [reflexivity | now rewrite IH]. Qed.

Lemma lower_app_inv (a b s : string) :
  lower s = a ++ b ->
  exists s1 s2, s = s1 ++ s2 /\ lower s1 = a /\ lower s2 = b.
Proof.
  revert s; induction a as [|c a IH]; intros s H.
  - exists EmptyString, s. auto.
  - destruct s as [|d s]; simpl in H; [discriminate|].
    injection H as Hc H. destruct (IH _ H) as (s1 & s2 & -> & H1 & H2).
    exists (String d s1), s2. simpl. now rewrite Hc, H1, H2.
Qed.

(** A substring of the lower-cased string is the lower-cased form of a
    substring of the string. *)
Lemma contains_lower_iff (p s : string) :
  contains p (lower s) = true <->
  exists t, Substring t s /\ lower t = p.
Proof.
  rewrite contains_iff. unfold Substring. split.
  - intros (pre & post & H).
    destruct (lower_app_inv _ _ _ H) as (s1 & s23 & -> & H1 & H23).
    destruct (lower_app_inv _ _ _ H23) as (s2 & s3 & -> & H2 & H3).
    exists s2. split; [exists s1, s3; reflexivity | exact H2].
  - intros (t & (pre & post & ->) & <-).
    exists (lower pre), (lower post). now rewrite !lower_app.
Qed.

Lemma lstrip_no_leading (chars s : string) (c : ascii) (s' : string) :
  lstrip chars s = String c s' -> char_in c chars = false.
Proof.
  induction s as [|d s IH]; simpl; [discriminate|].
  destruct (char_in d chars) eqn:E; [exact IH|].
  intros H; injection H as <- _. exact E.
Qed.

Lemma lstrip_id (chars : string) (c : ascii) (s : string) :
  char_in c chars = false -> lstrip chars (String c s) = String c s.
Proof. intros H; simpl; now rewrite H. Qed.

End PyStrFacts.

(** ** The mapping *)

Module DictFacts.

Lemma keys_set {V} (d : Dict.t V) (k k' : string) (v : V) :
  In k (Dict.keys (Dict.set d k' v)) <-> k = k' \/ In k (Dict.keys d).
Proof.
  induction d as [|[k0 v0] d IH]; simpl.
  - intuition.
  - destruct (String.eqb k0 k') eqn:E; simpl.
    + apply String.eqb_eq in E. subst k0. intuition.
    + rewrite IH. intuition.
Qed.

Lemma NoDup_keys_set {V} (d : Dict.t V) (k : string) (v : V) :
  NoDup (Dict.keys d) -> NoDup (Dict.keys (Dict.set d k v)).
Proof.
  induction d as [|[k0 v0] d IH]; simpl; intros H.
  - constructor; [intros [] | constructor].
  - inversion H as [|? ? Hn Hd]; subst.
    destruct (String.eqb k0 k) eqn:E; simpl.
    + constructor; assumption.
    + constructor; [|now apply IH].
      unfold Dict.keys in *. fold (Dict.keys (Dict.set d k v)).
      rewrite keys_set. intros [->|Hin]; [|contradiction].
      now rewrite String.eqb_refl in E.
Qed.

Lemma set_not_empty {V} (d : Dict.t V) (k : string) (v : V) :
  Dict.is_empty (Dict.set d k v) = false.
Proof.
  destruct d as [|[k0 v0] d]; simpl; [reflexivity|].
  now destruct (String.eqb k0 k).
Qed.

Lemma get_set {V} (d : Dict.t V) (k k' : string) (v : V) :
  Dict.get (Dict.set d k v) k' =
  if String.eqb k k' then Some v else Dict.get d k'.
Proof.
  induction d as [|[k0 v0] d IH]; simpl.
  - reflexivity.
  - destruct (String.eqb k0 k) eqn:E0; simpl.
    + apply String.eqb_eq in E0. subst k0.
      now destruct (String.eqb k k').
    + rewrite IH. destruct (String.eqb k0 k') eqn:E1; [|reflexivity].
      apply String.eqb_eq in E1. subst k'. now rewrite String.eqb_sym, E0.
Qed.

End DictFacts.

(** ** Running loops *)

Module PyFacts.

Import GitHub Py Views.

Section Runs.

Context {St : Type}.

Lemma printing_nil (w : World St) : printing [] w = w.
Proof. destruct w; unfold printing; simpl. now rewrite app_nil_r. Qed.

Lemma printing_app (l1 l2 : list string) (w : World St) :
  printing l2 (printing l1 w) = printing (l1 ++ l2) w.
Proof. unfold printing; simpl. now rewrite app_assoc. Qed.

Lemma print_run (line : string) (w : World St) :
  print line w = (Ok tt, printing [line] w).
Proof. reflexivity. Qed.

(** A loop whose body neither raises nor exits folds its local variable
    over the list and prints the lines of each turn. *)
Lemma for_fold_pure {A S} (f : S -> A -> S) (out : A -> list string)
    (body : S -> A -> M St S) :
  (forall s x w, body s x w = (Ok (f s x), printing (out x) w)) ->
  forall xs s w,
    for_fold xs s body w =
    (Ok (fold_left f xs s), printing (flat_map out xs) w).
Proof.
  intros Hbody. induction xs as [|x xs IH]; intros s w; simpl.
  - unfold ret. now rewrite printing_nil.
  - unfold bind. rewrite Hbody, IH, printing_app. reflexivity.
Qed.

End Runs.

End PyFacts.

(** ** The collector as a function *)

Module CollectorFacts.

Import Codec GitHub Py FileSystem Collector Views PyFacts.

Lemma fold_left_flat_map {A B S} (g : S -> B -> S) (h : A -> list B)
    (l : list A) (acc : S) :
  fold_left (fun s a => fold_left g (h a) s) l acc =
  fold_left g (flat_map h l) acc.
Proof.
  revert acc; induction l as [|a l IH]; intros acc; simpl.
  - reflexivity.
  - now rewrite fold_left_app, IH.
Qed.

Lemma fold_left_pointwise {A S} (f g : S -> A -> S) (l : list A) (acc : S) :
  (forall s a, f s a = g s a) -> fold_left f l acc = fold_left g l acc.
Proof.
  intros H. revert acc; induction l as [|a l IH]; intros acc; simpl.
  - reflexivity.
  - now rewrite H, IH.
Qed.

Lemma flat_map_flat_map {A B C} (f : B -> list C) (h : A -> list B)
    (l : list A) :
  flat_map (fun a => flat_map f (h a)) l = flat_map f (flat_map h l).
Proof.
  induction l as [|a l IH]; simpl; [reflexivity|].
  now rewrite flat_map_app, IH.
Qed.

Section Runs.

Context {St : Type}.

Lemma collect_file_run (pats : list string) (root : string)
    (files : Dict.t bytes) (filename : string) (r : read_result)
    (w : World St) :
  collect_file pats root files (filename, r) w =
  (Ok (visit_files pats files
         (PathLib.truediv (PathLib.of_string root) filename, r)),
   printing
     (visit_lines pats
        (PathLib.truediv (PathLib.of_string root) filename, r)) w).
Proof.
  unfold collect_file, visit_files, visit_lines.
  destruct (should_ignore _ pats).
  - unfold ret. now rewrite printing_nil.
  - destruct r as [content | message]; reflexivity.
Qed.

Lemma collect_dir_run (pats : list string) (root : string)
    (filenames : list (string * read_result)) (files : Dict.t bytes)
    (w : World St) :
  for_fold filenames files (collect_file pats root) w =
  (Ok (fold_left (visit_files pats) (with_paths root filenames) files),
   printing (flat_map (visit_lines pats) (with_paths root filenames)) w).
Proof.
  revert files w. induction filenames as [|[filename r] fns IH];
    intros files w; cbn [for_fold with_paths map flat_map fold_left].
  - unfold ret. now rewrite printing_nil.
  - unfold bind. rewrite collect_file_run.
    fold (with_paths root fns). rewrite IH, printing_app. reflexivity.
Qed.

Lemma visited_with_paths (cwd : node) :
  visited cwd =
  flat_map (fun '(root, _, filenames) => with_paths root filenames)
           (walk keep_dir "." cwd).
Proof. reflexivity. Qed.

Lemma fold_visit_stored (pats : list string)
    (l : list (PathLib.Path * read_result)) (acc : Dict.t bytes) :
  fold_left (visit_files pats) l acc =
  fold_left
    (fun files '(filepath, content) =>
       Dict.set files (github_path_of filepath) content)
    (flat_map
       (fun '(filepath, r) =>
          if should_ignore filepath pats then []
          else match r with
               | ReadOk content => [(filepath, content)]
               | ReadError _ => []
               end) l)
    acc.
Proof.
  revert acc; induction l as [|[fp r] l IH]; intros acc; simpl.
  - reflexivity.
  - rewrite fold_left_app, IH.
    destruct (should_ignore fp pats); [reflexivity|].
    destruct r; reflexivity.
Qed.

(** [collect_files] always returns: it gives the mapping [collected],
    prints [collect_lines], and makes no call. *)
Lemma collect_files_run (pats : list string) (cwd : node) (w : World St) :
  collect_files pats cwd w =
  (Ok (collected pats cwd), printing (collect_lines pats cwd) w).
Proof.
  unfold collect_files, collected, stored, collect_lines.
  rewrite <- fold_visit_stored, visited_with_paths.
  rewrite <- fold_left_flat_map, <- flat_map_flat_map.
  rewrite (for_fold_pure
             (fun files '(root, _, filenames) =>
                fold_left (visit_files pats) (with_paths root filenames)
                          files)
             (fun '(root, _, filenames) =>
                flat_map (visit_lines pats) (with_paths root filenames))).
  - f_equal.
    + f_equal.
      apply fold_left_pointwise. intros files [[root dirs] fns]. reflexivity.
    + f_equal. apply flat_map_ext. intros [[root dirs] fns]. reflexivity.
  - intros files [[root dirs] fns] w'. apply collect_dir_run.
Qed.

End Runs.

Lemma stored_iff (pats : list string) (cwd : node)
    (filepath : PathLib.Path) (content : bytes) :
  In (filepath, content) (stored pats cwd) <->
  In (filepath, ReadOk content) (visited cwd)
  /\ should_ignore filepath pats = false.
Proof.
  unfold stored. rewrite in_flat_map. split.
  - intros ([fp r] & Hin & H).
    destruct (should_ignore fp pats) eqn:E; [contradiction|].
    destruct r as [c|m]; [|contradiction].
    destruct H as [H|[]]. injection H as -> ->. auto.
  - intros [Hin E]. exists (filepath, ReadOk content). split; [exact Hin|].
    rewrite E. now left.
Qed.

Lemma keys_fold_set (l : list (PathLib.Path * bytes)) (acc : Dict.t bytes)
    (k : string) :
  In k (Dict.keys
          (fold_left
             (fun files '(filepath, content) =>
                Dict.set files (github_path_of filepath) content) l acc)) <->
  In k (Dict.keys acc)
  \/ exists filepath content,
       In (filepath, content) l /\ github_path_of filepath = k.
Proof.
  revert acc; induction l as [|[fp c] l IH]; intros acc; simpl.
  - split; [auto | intros [H | (? & ? & [] & _)]; exact H].
  - rewrite IH, DictFacts.keys_set. split.
    + intros [[-> | H] | (fp' & c' & Hin & Hk)].
      * right. exists fp, c. auto.
      * now left.
      * right. exists fp', c'. auto.
    + intros [H | (fp' & c' & [Heq | Hin] & Hk)].
      * left. now right.
      * injection Heq as -> ->. left. left. now symmetry.
      * right. exists fp', c'. auto.
Qed.

(** The keys of the mapping are the keys of the files that were stored. *)
Lemma keys_collected (pats : list string) (cwd : node) (k : string) :
  In k (Dict.keys (collected pats cwd)) <->
  exists filepath content,
    In (filepath, ReadOk content) (visited cwd)
    /\ should_ignore filepath pats = false
    /\ github_path_of filepath = k.
Proof.
  unfold collected. rewrite keys_fold_set. simpl. split.
  - intros [[] | (fp & c & Hin & Hk)].
    apply stored_iff in Hin. exists fp, c. tauto.
  - intros (fp & c & Hin & E & Hk). right. exists fp, c.
    split; [apply stored_iff; auto | exact Hk].
Qed.

Lemma NoDup_keys_collected (pats : list string) (cwd : node) :
  NoDup (Dict.keys (collected pats cwd)).
Proof.
  unfold collected.
  assert (H : NoDup (Dict.keys (@nil (string * bytes)))) by constructor.
  revert H. generalize (@nil (string * bytes)).
  induction (stored pats cwd) as [|[fp c] l IH]; intros acc H; simpl.
  - exact H.
  - apply IH. now apply DictFacts.NoDup_keys_set.
Qed.

Lemma get_fold_other (l : list (PathLib.Path * bytes)) (acc : Dict.t bytes)
    (k : string) :
  (forall e, In e l -> github_path_of (fst e) <> k) ->
  Dict.get
    (fold_left
       (fun files '(filepath, content) =>
          Dict.set files (github_path_of filepath) content) l acc) k
  = Dict.get acc k.
Proof.
  revert acc; induction l as [|[fp c] l IH]; intros acc H; simpl.
  - reflexivity.
  - rewrite IH by (intros e He; apply H; now right).
    rewrite DictFacts.get_set.
    destruct (String.eqb (github_path_of fp) k) eqn:E; [|reflexivity].
    apply String.eqb_eq in E. now destruct (H (fp, c) (or_introl eq_refl)).
Qed.

(** Without a shared key, a file stored is found under its key. *)
Lemma get_fold_in (l : list (PathLib.Path * bytes)) (acc : Dict.t bytes)
    (filepath : PathLib.Path) (content : bytes) :
  NoDup (map (fun e => github_path_of (fst e)) l) ->
  In (filepath, content) l ->
  Dict.get
    (fold_left
       (fun files '(filepath, content) =>
          Dict.set files (github_path_of filepath) content) l acc)
    (github_path_of filepath)
  = Some content.
Proof.
  revert acc; induction l as [|[fp c] l IH]; intros acc Hnd Hin;
    [destruct Hin|].
  cbn [map fst] in Hnd. inversion Hnd as [|? ? Hnot Hnd']; subst.
  cbn [fold_left]. destruct Hin as [Heq | Hin].
  - injection Heq as -> ->. rewrite get_fold_other.
    + rewrite DictFacts.get_set. now rewrite String.eqb_refl.
    + intros e He Hk. apply Hnot. rewrite <- Hk.
      now apply (in_map (fun e => github_path_of (fst e))).
  - now apply IH.
Qed.

(** A value of the mapping is the content of a file stored under its key. *)
Lemma get_fold_some (l : list (PathLib.Path * bytes)) (acc : Dict.t bytes)
    (k : string) (v : bytes) :
  Dict.get
    (fold_left
       (fun files '(filepath, content) =>
          Dict.set files (github_path_of filepath) content) l acc) k
  = Some v ->
  Dict.get acc k = Some v
  \/ exists filepath, In (filepath, v) l /\ github_path_of filepath = k.
Proof.
  revert acc; induction l as [|[fp c] l IH]; intros acc H; simpl in *.
  - now left.
  - destruct (IH _ H) as [Hacc | (fp' & Hin & Hk)].
    + rewrite DictFacts.get_set in Hacc.
      destruct (String.eqb (github_path_of fp) k) eqn:E.
      * injection Hacc as ->. apply String.eqb_eq in E.
        right. exists fp. auto.
      * now left.
    + right. exists fp'. auto.
Qed.

Lemma get_collected_stored (pats : list string) (cwd : node)
    (filepath : PathLib.Path) (content : bytes) :
  distinct_keys pats cwd ->
  In (filepath, content) (stored pats cwd) ->
  Dict.get (collected pats cwd) (github_path_of filepath) = Some content.
Proof. intros Hnd Hin. now apply get_fold_in. Qed.

Lemma get_collected_some (pats : list string) (cwd : node)
    (k : string) (v : bytes) :
  Dict.get (collected pats cwd) k = Some v ->
  exists filepath,
    In (filepath, v) (stored pats cwd) /\ github_path_of filepath = k.
Proof.
  intros H. destruct (get_fold_some _ _ _ _ H) as [Hnil | Hex];
    [discriminate Hnil | exact Hex].
Qed.

End CollectorFacts.

(** ** The ignore rules *)

Module IgnoreFacts.

Import Codec GitHub Py FileSystem Collector Views CollectorFacts Spec.

Lemma should_ignore_iff (path : PathLib.Path) (pats : list string) :
  should_ignore path pats = true <->
  exists rule, In rule pats /\ rule_matches rule path.
Proof.
  unfold rule_matches. induction pats as [|p pats IH]; simpl.
  - split; [discriminate | intros (r & [] & _)].
  - destruct (PyStr.contains p (PathLib.str path)
              || String.eqb (PathLib.name path) p) eqn:E.
    + split; [intros _ | reflexivity]. exists p. split; [now left|].
      apply orb_true_iff in E. destruct E as [E|E].
      * left. now apply PyStrFacts.contains_iff.
      * right. now apply String.eqb_eq.
    + rewrite IH. apply orb_false_iff in E. destruct E as [E1 E2].
      split.
      * intros (r & Hin & H). exists r. auto.
      * intros (r & [->|Hin] & H); [|exists r; auto].
        exfalso. destruct H as [H|H].
        -- apply PyStrFacts.contains_iff in H. congruence.
        -- apply String.eqb_eq in H. congruence.
Qed.

Lemma should_ignore_false_iff (path : PathLib.Path) (pats : list string) :
  should_ignore path pats = false <->
  ~ exists rule, In rule pats /\ rule_matches rule path.
Proof.
  rewrite <- should_ignore_iff.
  destruct (should_ignore path pats); split; congruence.
Qed.

(** C1. A path is excluded exactly when some ignore rule is a substring of
    its string form or equals its final segment.  In [collect_files], which
    both scripts share, a key is in the mapping exactly when it is the key
    of a file that the walk reaches (directory exclusions), that can be read
    (read success) and that no rule matches. *)
Theorem should_ignore_substring_or_name :
  (forall (path : PathLib.Path) (ignore_patterns : list string),
      should_ignore path ignore_patterns = true <->
      exists rule, In rule ignore_patterns /\ rule_matches rule path)
  /\ (forall St (ignore_patterns : list string) (cwd : node) (w : World St),
         exists files w',
           collect_files ignore_patterns cwd w = (Ok files, w')
           /\ forall k,
               In k (Dict.keys files) <->
               exists filepath content,
                 In (filepath, ReadOk content) (visited cwd)
                 /\ (~ exists rule,
                        In rule ignore_patterns
                        /\ rule_matches rule filepath)
                 /\ github_path_of filepath = k).
Proof.
  split.
  - exact should_ignore_iff.
  - intros St pats cwd w.
    exists (collected pats cwd), (printing (collect_lines pats cwd) w).
    split; [apply collect_files_run|].
    intros k. rewrite keys_collected.
    split; intros (fp & c & Hin & H & Hk); exists fp, c;
      (split; [exact Hin | split; [|exact Hk]]);
      now apply should_ignore_false_iff.
Qed.

(** C10. The ignore predicate is monotone in the rule set, and so is the
    collection: with more rules, the files stored and the keys of the
    mapping are among those stored and mapped with fewer rules; and when
    no two files stored share a key, every entry of the mapping, key and
    content, is an entry of the mapping collected with fewer rules. *)
Theorem should_ignore_monotone (P Q : list string) (HPQ : incl P Q) :
  (forall path : PathLib.Path,
      should_ignore path P = true -> should_ignore path Q = true)
  /\ (forall cwd : node,
         incl (stored Q cwd) (stored P cwd)
         /\ incl (Dict.keys (collected Q cwd)) (Dict.keys (collected P cwd))
         /\ (distinct_keys P cwd ->
             forall k v,
               Dict.get (collected Q cwd) k = Some v ->
               Dict.get (collected P cwd) k = Some v)).
Proof.
  assert (Hmono : forall path,
             should_ignore path P = true -> should_ignore path Q = true).
  { intros path H. apply should_ignore_iff in H.
    destruct H as (r & Hin & H). apply should_ignore_iff.
    exists r. split; [now apply HPQ | exact H]. }
  assert (Hfalse : forall path,
             should_ignore path Q = false -> should_ignore path P = false).
  { intros path H. destruct (should_ignore path P) eqn:E; [|reflexivity].
    apply Hmono in E. congruence. }
  split; [exact Hmono|]. intros cwd.
  assert (Hincl : incl (stored Q cwd) (stored P cwd)).
  { intros [fp c] H. apply stored_iff in H. apply stored_iff.
    destruct H as [Hin H]. auto. }
  split; [exact Hincl|]. split.
  - intros k H. apply keys_collected in H. apply keys_collected.
    destruct H as (fp & c & Hin & H & Hk). exists fp, c. auto.
  - intros Hnd k v H.
    destruct (get_collected_some _ _ _ _ H) as (fp & Hin & <-).
    apply get_collected_stored; [exact Hnd | now apply Hincl].
Qed.

Lemma should_ignore_monotone_witness :
  should_ignore ["secrets.env"] [".env"; "venv"] = true
  /\ incl (Dict.keys (collected [".env"; "venv"] Mock.project))
          (Dict.keys (collected [".env"] Mock.project)).
Proof.
  destruct (should_ignore_monotone [".env"] [".env"; "venv"]) as (H1 & H2).
  - intros x [<-|[]]. now left.
  - split.
    + apply H1. vm_compute. reflexivity.
    + apply (proj1 (proj2 (H2 Mock.project))).
Defined.

End IgnoreFacts.

(** ** Files that cannot be read *)

Module ReadFacts.

Import Codec GitHub Py FileSystem Collector Views CollectorFacts Spec.

(** Induction on a directory tree, with the property known of every entry
    of a directory. *)
Lemma node_tree_ind (P : node -> Prop)
    (HFile : forall name r, P (File name r))
    (HDir : forall name entries, Forall P entries -> P (Dir name entries)) :
  forall n, P n.
Proof.
  fix IH 1. intros [name r | name entries].
  - apply HFile.
  - apply HDir. induction entries as [|x l IHl].
    + constructor.
    + constructor; [apply IH | exact IHl].
Qed.

Lemma dirnames_remove (entries : list node) :
  dirnames
    (flat_map
       (fun child => if readable child then [remove_unreadable child] else [])
       entries) =
  dirnames entries.
Proof.
  unfold dirnames.
  induction entries as [|[name r | name es] entries IH]; simpl.
  - reflexivity.
  - destruct r; simpl; exact IH.
  - now rewrite IH.
Qed.

Lemma filenames_remove (entries : list node) :
  filenames
    (flat_map
       (fun child => if readable child then [remove_unreadable child] else [])
       entries) =
  keep_readable (filenames entries).
Proof.
  unfold keep_readable.
  induction entries as [|[name r | name es] entries IH]; simpl.
  - reflexivity.
  - destruct r; simpl; now rewrite IH.
  - exact IH.
Qed.

(** Walking the directory without its unreadable files gives the same
    directories, each without its unreadable files. *)
Lemma walk_remove (keep : string -> bool) (n : node) :
  forall top,
    walk keep top (remove_unreadable n) =
    map (fun '(root, dirs, fns) => (root, dirs, keep_readable fns))
        (walk keep top n).
Proof.
  induction n as [name r | name entries IH] using node_tree_ind;
    intros top.
  - reflexivity.
  - cbn [remove_unreadable walk map].
    rewrite dirnames_remove, filenames_remove. f_equal.
    induction IH as [|child entries Hc _ IHl]; [reflexivity|].
    cbn [flat_map]. rewrite map_app, <- IHl.
    destruct child as [cname r | cname ces].
    + destruct r; reflexivity.
    + cbn [readable flat_map app remove_unreadable]. f_equal.
      destruct (keep cname); [|reflexivity].
      apply (Hc (path_join top cname)).
Qed.

Lemma visited_remove (cwd : node) :
  visited (remove_unreadable cwd) =
  filter (fun v => is_read_ok (snd v)) (visited cwd).
Proof.
  rewrite !visited_with_paths, walk_remove.
  induction (walk keep_dir "." cwd) as [|[[root dirs] fns] l IH];
    [reflexivity|].
  cbn [map flat_map]. rewrite filter_app, IH. f_equal.
  unfold with_paths, keep_readable.
  induction fns as [|[fn r] fns IHf]; [reflexivity|].
  cbn [filter map snd]. destruct (is_read_ok r); cbn [map]; now rewrite IHf.
Qed.

Lemma stored_remove (pats : list string) (cwd : node) :
  stored pats (remove_unreadable cwd) = stored pats cwd.
Proof.
  unfold stored. rewrite visited_remove.
  induction (visited cwd) as [|[fp r] l IH]; [reflexivity|].
  cbn [filter snd flat_map]. destruct r as [c|m]; cbn [is_read_ok flat_map].
  - now rewrite IH.
  - rewrite IH. now destruct (should_ignore fp pats).
Qed.

Lemma collected_remove (pats : list string) (cwd : node) :
  collected pats (remove_unreadable cwd) = collected pats cwd.
Proof. unfold collected. now rewrite stored_remove. Qed.

Lemma visit_lines_in (pats : list string) (cwd : node)
    (v : PathLib.Path * read_result) (line : string) :
  In v (visited cwd) -> In line (visit_lines pats v) ->
  In line (collect_lines pats cwd).
Proof.
  intros Hv Hl. unfold collect_lines. apply in_flat_map. eauto.
Qed.

(** C7. [collect_files] returns a mapping whatever the reads do: no
    exception leaves it.  A file that cannot be read is reported in a
    "Skipped" line and the mapping is the one of the same directory without
    the files that cannot be read; every file that can be read and that no
    rule ignores has its key in the mapping, with its content when no two
    files stored share a key. *)
Theorem unreadable_file_is_skipped :
  forall St (ignore_patterns : list string) (cwd : node) (w : World St),
  exists files w',
    collect_files ignore_patterns cwd w = (Ok files, w')
    /\ collect_files ignore_patterns (remove_unreadable cwd) w
       = (Ok files,
          printing (collect_lines ignore_patterns (remove_unreadable cwd)) w)
    /\ files = collected ignore_patterns cwd
    /\ (forall filepath content,
           In (filepath, content) (stored ignore_patterns cwd) ->
           In (filepath, ReadOk content) (visited cwd))
    /\ (forall filepath message,
           In (filepath, ReadError message) (visited cwd) ->
           should_ignore filepath ignore_patterns = false ->
           In ("  ! Skipped " ++ PathLib.str filepath ++ ": " ++ message)
              (stdout w'))
    /\ (forall filepath content,
           In (filepath, ReadOk content) (visited cwd) ->
           should_ignore filepath ignore_patterns = false ->
           In (github_path_of filepath) (Dict.keys files)
           /\ (distinct_keys ignore_patterns cwd ->
               Dict.get files (github_path_of filepath) = Some content)).
Proof.
  intros St pats cwd w.
  exists (collected pats cwd), (printing (collect_lines pats cwd) w).
  split; [apply collect_files_run|].
  split; [rewrite collect_files_run, collected_remove; reflexivity|].
  split; [reflexivity|].
  split; [|split].
  - intros fp c H. now apply stored_iff in H.
  - intros fp m Hin E. cbn [printing stdout]. apply in_or_app. right.
    eapply visit_lines_in; [exact Hin|].
    cbn [visit_lines]. rewrite E. now left.
  - intros fp c Hin E. split.
    + apply keys_collected. exists fp, c. auto.
    + intros Hnd. apply get_collected_stored; [exact Hnd|].
      apply stored_iff. auto.
Qed.

Lemma unreadable_file_is_skipped_witness :
  exists files w',
    collect_files ["secrets.env"] Mock.project (init tt) = (Ok files, w')
    /\ In "  ! Skipped assets/locked.bin: [Errno 13] Permission denied"
          (stdout w')
    /\ In "assets/logo.png" (Dict.keys files).
Proof.
  destruct (unreadable_file_is_skipped unit ["secrets.env"] Mock.project
              (init tt))
    as (files & w' & Hrun & _ & _ & _ & Hskip & Hkeep).
  exists files, w'. split; [exact Hrun|]. split.
  - apply (Hskip ["assets"; "locked.bin"] "[Errno 13] Permission denied").
    + vm_compute. tauto.
    + vm_compute. reflexivity.
  - apply (Hkeep ["assets"; "logo.png"] [x89; "P"; "N"; "G"; xff]%byte).
    + vm_compute. tauto.
    + vm_compute. reflexivity.
Defined.

End ReadFacts.

(** ** Codecs *)

Module CodecFacts.

Import Codec.

Lemma decode_utf8_ascii_cons (b : byte) (bs : bytes) :
  is_ascii b ->
  decode_utf8 (b :: bs) = option_map (cons (Byte.to_N b)) (decode_utf8 bs).
Proof.
  unfold is_ascii. intros H. apply N.ltb_lt in H.
  cbn [decode_utf8]. now rewrite H.
Qed.

(** ASCII bytes decode to themselves. *)
Lemma decode_utf8_ascii (bs : bytes) :
  Forall is_ascii bs -> decode_utf8 bs = Some (map Byte.to_N bs).
Proof.
  induction 1 as [|b bs Hb _ IH]; [reflexivity|].
  now rewrite decode_utf8_ascii_cons, IH.
Qed.

Lemma get_in (s : string) (k : nat) (c : ascii) :
  String.get k s = Some c -> In c (list_ascii_of_string s).
Proof.
  revert k; induction s as [|d s IH]; intros k; simpl; [discriminate|].
  destruct k as [|k]; [intros [= ->]; now left | right; eauto].
Qed.

Lemma b64_char_ascii (n : N) : is_ascii (b64_char n).
Proof.
  unfold b64_char, is_ascii.
  destruct (String.get (N.to_nat n) b64_alphabet) as [c|] eqn:E;
    [|vm_compute; reflexivity].
  apply get_in in E.
  assert (H : forallb
                (fun c => (Byte.to_N (byte_of_ascii c) <? 0x80)%N)
                (list_ascii_of_string b64_alphabet) = true)
    by (vm_compute; reflexivity).
  rewrite forallb_forall in H. apply N.ltb_lt. now apply H.
Qed.

Lemma pad_ascii : is_ascii "="%byte.
Proof. vm_compute; reflexivity. Qed.

Lemma b64encode_ascii_upto (n : nat) (bs : bytes) :
  List.length bs <= n -> Forall is_ascii (b64encode bs).
Proof.
  revert bs; induction n as [|n IH]; intros bs Hlen.
  - destruct bs; [constructor | simpl in Hlen; lia].
  - destruct bs as [|a [|b [|c rest]]]; cbn [b64encode].
    + constructor.
    + repeat constructor; first [apply b64_char_ascii | apply pad_ascii].
    + repeat constructor; first [apply b64_char_ascii | apply pad_ascii].
    + repeat (constructor; [apply b64_char_ascii|]).
      apply IH. simpl in Hlen. lia.
Qed.

(** The base64 form is ASCII: decoding it cannot fail. *)
Lemma decode_b64encode (bs : bytes) :
  decode_utf8 (b64encode bs) = Some (map Byte.to_N (b64encode bs)).
Proof.
  apply decode_utf8_ascii. apply (b64encode_ascii_upto (List.length bs)).
  apply le_n.
Qed.

End CodecFacts.

(** ** Strategy B: the loop over the files *)

Module PushV2Facts.

Import Codec GitHub Py FileSystem Collector Views Spec PushV2.

Lemma looks_like_conflict_iff (e : exn) :
  looks_like_conflict e = true <-> conflict_message (exn_str e).
Proof.
  unfold looks_like_conflict, conflict_message.
  now rewrite orb_true_iff, PyStrFacts.contains_iff,
    PyStrFacts.contains_lower_iff.
Qed.

Section Runs.

Context {St : Type}.
Variable api : GithubApi St.

(** Preparing the content never fails: the text when the bytes are UTF-8,
    the base64 form and [encoding = "base64"] when they are not. *)
Lemma prepare_content_run (content : bytes) (w : World St) :
  prepare_content content w =
  (Ok (request_content content, encoding_of content), w).
Proof.
  unfold prepare_content, try_any, try_except, bind, decode,
    request_content, encoding_of.
  destruct (decode_utf8 content) as [t|] eqn:E; [reflexivity|].
  cbn. now rewrite CodecFacts.decode_b64encode.
Qed.

(** One turn of the loop, by the answer of the remote. *)
Lemma create_one_run (filepath : string) (content : bytes) (w : World St) :
  create_one api (filepath, content) w =
  match create_file api filepath commit_msg (request_content content) "main"
                    (remote w) with
  | (inr _, s) =>
      (Ok tt,
       {| stdout := (stdout w ++ [outcome_line filepath Created])%list;
          calls := (calls w ++ [(request_of (filepath, content), Done)])%list;
          remote := s |})
  | (inl (GithubException m), s) =>
      (Ok tt,
       {| stdout :=
            (stdout w
             ++ [outcome_line filepath
                   (if looks_like_conflict (GithubException m)
                    then AlreadyExists else Failed (GithubException m))])%list;
          calls := (calls w ++ [(request_of (filepath, content),
                                 Raised (GithubException m))])%list;
          remote := s |})
  | (inl (OtherException m), s) =>
      (Raise (OtherException m),
       {| stdout := stdout w;
          calls := (calls w ++ [(request_of (filepath, content),
                                 Raised (OtherException m))])%list;
          remote := s |})
  end.
Proof.
  unfold create_one, try_github, try_except, bind at 1.
  unfold bind at 1. rewrite prepare_content_run.
  unfold bind, invoke, request_of. cbn [fst snd].
  destruct (create_file api filepath commit_msg (request_content content)
              "main" (remote w)) as [[e|u] s].
  - destruct e as [m|m]; cbn [is_github].
    + destruct (looks_like_conflict (GithubException m)); reflexivity.
    + reflexivity.
  - reflexivity.
Qed.

Lemma classified_github (m : string) :
  classified (Raised (GithubException m))
    (if looks_like_conflict (GithubException m)
     then AlreadyExists else Failed (GithubException m)).
Proof.
  destruct (looks_like_conflict (GithubException m)) eqn:E.
  - constructor. now apply looks_like_conflict_iff.
  - constructor. rewrite <- looks_like_conflict_iff. congruence.
Qed.

(** The loop, over any list of items: either every request was answered
    by GitHub, and then every item was requested and reported, in order; or
    an exception that is not GitHub's ended the loop, after the requests of
    the items before it. *)
Lemma create_loop_run (items : list (string * bytes)) :
  forall w : World St,
  exists t lines,
    calls (snd (for_each items (create_one api) w)) = (calls w ++ t)%list
    /\ stdout (snd (for_each items (create_one api) w))
       = (stdout w ++ lines)%list
    /\ ((fst (for_each items (create_one api) w) = Ok tt
         /\ map fst t = map request_of items
         /\ Forall2 reported t lines
         /\ Forall (fun cr => ~ aborted cr) t)
        \/ (exists e rest,
               fst (for_each items (create_one api) w) = Raise e
               /\ map request_of items = (map fst t ++ rest)%list
               /\ Exists aborted t)).
Proof.
  induction items as [|[filepath content] items IH]; intros w.
  - exists [], []. cbn. rewrite !app_nil_r. split; [reflexivity|].
    split; [reflexivity|]. left. repeat split; constructor.
  - cbn [for_each]. unfold bind. rewrite create_one_run.
    destruct (create_file api filepath commit_msg (request_content content)
                "main" (remote w)) as [[[m|m]|u] s].
    + match goal with
      | |- context [for_each items _ ?w1] =>
          destruct (IH w1) as (t & lines & Hc & Hs & H)
      end.
      cbn [calls stdout] in Hc, Hs.
      eexists (_ :: t), (_ :: lines).
      rewrite Hc, Hs, <- !app_assoc. cbn [app].
      split; [reflexivity|]. split; [reflexivity|].
      destruct H as [(Hr & Hm & Hf & Hn) | (e & rest & Hr & Hm & He)].
      * left. split; [exact Hr|]. split; [cbn; now rewrite Hm|].
        split; constructor; try assumption.
        -- exists filepath, commit_msg, (request_content content), "main".
           eexists. split; [reflexivity|]. split; [|reflexivity].
           apply classified_github.
        -- intros [msg H]. discriminate H.
      * right. exists e, rest. split; [exact Hr|].
        split; [cbn; now rewrite Hm | now constructor 2].
    + eexists [_], []. cbn [snd fst calls stdout].
      rewrite app_nil_r. split; [reflexivity|]. split; [reflexivity|].
      right. exists (OtherException m), (map request_of items).
      split; [reflexivity|]. split; [reflexivity|].
      constructor. now exists m.
    + match goal with
      | |- context [for_each items _ ?w1] =>
          destruct (IH w1) as (t & lines & Hc & Hs & H)
      end.
      cbn [calls stdout] in Hc, Hs.
      eexists (_ :: t), (_ :: lines).
      rewrite Hc, Hs, <- !app_assoc. cbn [app].
      split; [reflexivity|]. split; [reflexivity|].
      destruct H as [(Hr & Hm & Hf & Hn) | (e & rest & Hr & Hm & He)].
      * left. split; [exact Hr|]. split; [cbn; now rewrite Hm|].
        split; constructor; try assumption.
        -- exists filepath, commit_msg, (request_content content), "main".
           exists Created. repeat split. constructor.
        -- intros [msg H]. discriminate H.
      * right. exists e, rest. split; [exact Hr|].
        split; [cbn; now rewrite Hm | now constructor 2].
Qed.

End Runs.

End PushV2Facts.

(** ** Sorting the items *)

Module SortFacts.

Import Codec Spec PushV2.

Lemma ltb_compare (a b : string) :
  String.ltb a b = true <-> String.compare a b = Lt.
Proof.
  unfold String.ltb. destruct (String.compare a b); split; congruence.
Qed.

Lemma ltb_irrefl (a : string) : String.ltb a a = false.
Proof.
  unfold String.ltb.
  assert (H : String.compare a a = Eq)
    by now apply OrderedTypeEx.String_as_OT.cmp_eq.
  now rewrite H.
Qed.

Lemma string_lt_trans (a b c : string) :
  string_lt a b -> string_lt b c -> string_lt a c.
Proof.
  unfold string_lt. rewrite !ltb_compare.
  intros H1 H2.
  apply OrderedTypeEx.String_as_OT.cmp_lt in H1, H2.
  apply OrderedTypeEx.String_as_OT.cmp_lt.
  eapply OrderedTypeEx.String_as_OT.lt_trans; eassumption.
Qed.

(** The order is total: of two different strings one is below the other. *)
Lemma ltb_false_lt (a b : string) :
  String.ltb a b = false -> a <> b -> string_lt b a.
Proof.
  unfold string_lt, String.ltb. intros H Hne.
  rewrite (String.compare_antisym b a).
  destruct (String.compare a b) eqn:E; try discriminate.
  - apply String.compare_eq_iff in E. contradiction.
  - reflexivity.
Qed.

Lemma insert_string_perm (x : string) (l : list string) :
  Permutation (x :: l) (insert_string x l).
Proof.
  induction l as [|y l IH]; simpl; [reflexivity|].
  destruct (String.ltb y x); [|reflexivity].
  rewrite perm_swap. now constructor.
Qed.

Lemma sort_strings_perm (l : list string) : Permutation l (sort_strings l).
Proof.
  induction l as [|x l IH]; simpl; [constructor|].
  rewrite <- insert_string_perm. now constructor.
Qed.

Lemma insert_string_sorted (x : string) (l : list string) :
  ~ In x l -> StronglySorted string_lt l ->
  StronglySorted string_lt (insert_string x l).
Proof.
  intros Hx Hs. induction Hs as [|y l Hs IH Hall]; simpl.
  - repeat constructor.
  - destruct (String.ltb y x) eqn:E.
    + constructor.
      * apply IH. intros H. apply Hx. now right.
      * rewrite Forall_forall. intros z Hz.
        apply (Permutation_in _ (Permutation_sym (insert_string_perm x l)))
          in Hz.
        destruct Hz as [<-|Hz]; [exact E|].
        rewrite Forall_forall in Hall. now apply Hall.
    + assert (Hxy : string_lt x y).
      { apply ltb_false_lt; [exact E|]. intros ->. apply Hx. now left. }
      constructor; [now constructor|].
      constructor; [exact Hxy|].
      rewrite Forall_forall in *. intros z Hz.
      eapply string_lt_trans; [exact Hxy | now apply Hall].
Qed.

(** The sorted list of distinct keys is ascending. *)
Lemma sort_strings_sorted (l : list string) :
  NoDup l -> StronglySorted string_lt (sort_strings l).
Proof.
  induction 1 as [|x l Hx Hnd IH]; simpl; [constructor|].
  apply insert_string_sorted; [|exact IH].
  intros H. apply Hx.
  now apply (Permutation_in _ (Permutation_sym (sort_strings_perm l))).
Qed.

(** An ascending list is determined by its elements. *)
Lemma sorted_unique (l1 l2 : list string) :
  StronglySorted string_lt l1 -> StronglySorted string_lt l2 ->
  (forall x, In x l1 <-> In x l2) -> l1 = l2.
Proof.
  intros H1; revert l2.
  induction H1 as [|a l1 Hs1 IH Ha]; intros l2 H2 Hin.
  - destruct l2 as [|b l2]; [reflexivity|].
    destruct (proj2 (Hin b)); now left.
  - destruct H2 as [|b l2 Hs2 Hb].
    + destruct (proj1 (Hin a)); now left.
    + rewrite Forall_forall in Ha, Hb.
      assert (Hirr : forall z, ~ string_lt z z).
      { intros z H. unfold string_lt in H. now rewrite ltb_irrefl in H. }
      assert (Hab : a = b).
      { destruct (proj1 (Hin a) (or_introl eq_refl)) as [E|Hal2];
          [now symmetry|].
        destruct (proj2 (Hin b) (or_introl eq_refl)) as [E|Hbl1];
          [exact E|].
        exfalso. apply (Hirr a).
        eapply string_lt_trans; [apply Ha, Hbl1 | apply Hb, Hal2]. }
      subst b. f_equal. apply IH; [exact Hs2|].
      intros x. split; intros Hx.
      * destruct (proj1 (Hin x) (or_intror Hx)) as [E|H]; [|exact H].
        subst x. exfalso. apply (Hirr a). now apply Ha.
      * destruct (proj2 (Hin x) (or_intror Hx)) as [E|H]; [|exact H].
        subst x. exfalso. apply (Hirr a). now apply Hb.
Qed.

(** Sorting does not depend on the order the keys come in. *)
Lemma sort_strings_order_free (l1 l2 : list string) :
  NoDup l1 -> Permutation l1 l2 -> sort_strings l1 = sort_strings l2.
Proof.
  intros Hnd Hp. apply sorted_unique.
  - now apply sort_strings_sorted.
  - apply sort_strings_sorted. eapply Permutation_NoDup; eassumption.
  - intros x. split; intros H.
    + eapply Permutation_in; [apply sort_strings_perm|].
      eapply Permutation_in; [exact Hp|].
      eapply Permutation_in; [symmetry; apply sort_strings_perm | exact H].
    + eapply Permutation_in; [apply sort_strings_perm|].
      eapply Permutation_in; [symmetry; exact Hp|].
      eapply Permutation_in; [symmetry; apply sort_strings_perm | exact H].
Qed.

Lemma insert_perm (x : string * bytes) (l : list (string * bytes)) :
  Permutation (x :: l) (insert x l).
Proof.
  induction l as [|y l IH]; simpl; [reflexivity|].
  destruct (item_ltb y x); [|reflexivity].
  rewrite perm_swap. now constructor.
Qed.

Lemma sorted_perm (l : list (string * bytes)) : Permutation l (sorted l).
Proof.
  induction l as [|x l IH]; simpl; [constructor|].
  rewrite <- insert_perm. now constructor.
Qed.

Lemma insert_keys (x : string * bytes) (l : list (string * bytes)) :
  ~ In (fst x) (map fst l) ->
  map fst (insert x l) = insert_string (fst x) (map fst l).
Proof.
  induction l as [|y l IH]; simpl; intros Hx; [reflexivity|].
  unfold item_ltb.
  destruct (String.eqb (fst y) (fst x)) eqn:E.
  - apply String.eqb_eq in E. exfalso. apply Hx. now left.
  - destruct (String.ltb (fst y) (fst x)); [|reflexivity].
    simpl. rewrite IH; [reflexivity|]. intros H. apply Hx. now right.
Qed.

(** The paths of [sorted(files.items())] are the sorted keys of [files]. *)
Lemma sorted_keys (files : Dict.t bytes) :
  NoDup (Dict.keys files) ->
  map fst (sorted files) = sort_strings (Dict.keys files).
Proof.
  unfold Dict.keys.
  induction files as [|x l IH]; simpl; intros Hnd; [reflexivity|].
  inversion Hnd as [|? ? Hx Hl]; subst.
  rewrite insert_keys, IH; [reflexivity | exact Hl |].
  intros H. apply Hx.
  eapply Permutation_in; [|exact H].
  apply Permutation_map. symmetry. apply sorted_perm.
Qed.

End SortFacts.

(** ** Runs of [main] *)

Module MainFacts.

Import Codec GitHub Py FileSystem Collector Views Spec CollectorFacts.

(** Runs the monad: unfolds its operations, not the scripts. *)
Ltac run :=
  cbv beta iota delta
    [bind try_github try_except invoke print ret sys_exit raise init
     is_github printing];
  cbn [stdout calls remote].

(** Settles a case where the run ended early. *)
Ltac early :=
  left; unfold ended_early; cbn [fst snd calls stdout exit_status];
  split; [discriminate|];
  split; [cbn [app]; once (repeat constructor)|];
  first
    [ intros Hfound; cbn in Hfound; discriminate Hfound
    | intros _; split; [reflexivity|]; split; [reflexivity|];
      now rewrite last_last ].

Section Runs.

Context {St : Type}.
Variable api : GithubApi St.

Lemma main_v2_run (env : Env.t) (s : St) :
  let files := collected (Env.ignore_patterns env) (Env.cwd env) in
  ended_early files (PushV2.main api env (init s))
  \/ exists w,
       opened w
       /\ files <> []
       /\ PushV2.main api env (init s)
          = PushV2.publish api "oswin26" "Invoice-AI-" files w.
Proof.
  intros files. subst files. unfold PushV2.main.
  destruct (Env.token env) as [token|]; [|run; early].
  run.
  destruct (get_user api token s) as [[[m|m]|login] s1]; run;
    [early | early |].
  destruct (get_repo api "Invoice-AI-" s1) as [[[m|m]|full_name] s2]; run;
    [early | early |].
  rewrite collect_files_run. run.
  destruct (collected (Env.ignore_patterns env) (Env.cwd env))
    as [|item files] eqn:E; cbn [Dict.is_empty].
  - early.
  - right. eexists. split; [|split; [discriminate | reflexivity]].
    exists token, login, "Invoice-AI-", full_name. reflexivity.
Qed.

Variable decode_replace : bytes -> text.

(** The remote URL of the script names the owner and the repository. *)
Lemma get_repo_url_run (w : World St) :
  PushV1.get_repo_url w = (Ok ("oswin26", "Invoice-AI-"), w).
Proof. reflexivity. Qed.

Lemma main_v1_run (env : Env.t) (s : St) :
  let files := collected (Env.ignore_patterns env) (Env.cwd env) in
  ended_early files (PushV1.main api decode_replace env (init s))
  \/ exists w,
       opened w
       /\ files <> []
       /\ PushV1.main api decode_replace env (init s)
          = PushV1.publish api decode_replace "oswin26" "Invoice-AI-" files w.
Proof.
  intros files. subst files. unfold PushV1.main.
  destruct (Env.token env) as [token|]; [|run; early].
  run. rewrite !get_repo_url_run. run.
  destruct (get_user api token s) as [[[m|m]|login] s1]; run;
    [early | early |].
  destruct (get_repo api "Invoice-AI-" s1) as [[[m|m]|full_name] s2]; run;
    [early | early |].
  rewrite collect_files_run. run.
  destruct (collected (Env.ignore_patterns env) (Env.cwd env))
    as [|item files] eqn:E; cbn [Dict.is_empty].
  - early.
  - right. eexists. split; [|split; [discriminate | reflexivity]].
    exists token, login, "Invoice-AI-", full_name. reflexivity.
Qed.

End Runs.

End MainFacts.

(** ** Reading traces *)

Module TraceFacts.

Import Codec GitHub Py Views.

Lemma pick_app {A} (f : call * reply -> option A) (t1 t2 : trace) :
  pick f (t1 ++ t2)%list = (pick f t1 ++ pick f t2)%list.
Proof.
  induction t1 as [|cr t1 IH]; simpl; [reflexivity|].
  destruct (f cr); simpl; now rewrite IH.
Qed.

Lemma pick_none {A} (f : call * reply -> option A) (t : trace) :
  Forall (fun cr => f cr = None) t -> pick f t = [].
Proof.
  induction 1 as [|cr t H _ IH]; simpl; [reflexivity|]. now rewrite H.
Qed.

Lemma pick_none_app {A} (f : call * reply -> option A) (t1 t2 : trace) :
  Forall (fun cr => f cr = None) t1 -> pick f (t1 ++ t2)%list = pick f t2.
Proof. intros H. now rewrite pick_app, (pick_none f t1 H). Qed.

Lemma pick_app_none {A} (f : call * reply -> option A) (t1 t2 : trace) :
  Forall (fun cr => f cr = None) t2 -> pick f (t1 ++ t2)%list = pick f t1.
Proof. intros H. now rewrite pick_app, (pick_none f t2 H), app_nil_r. Qed.

Lemma blind_none {A} (skip : call -> bool) (f : call * reply -> option A)
    (t : trace) :
  blind skip f -> Forall (fun cr => skip (fst cr) = true) t ->
  Forall (fun cr => f cr = None) t.
Proof.
  intros Hb H. induction H as [|[c r] t H _ IH]; constructor.
  - now apply Hb.
  - exact IH.
Qed.

End TraceFacts.

(** ** Strategy A: the trace of a publication *)

Module PushV1Facts.

Import Codec GitHub Py FileSystem Collector Views Spec TraceFacts MainFacts.

(** Splits a run on the answer of the next call to the remote. *)
Ltac split_call :=
  match goal with
  | |- context [match ?x with _ => _ end] =>
      match x with
      | get_branch _ _ _ => idtac
      | create_git_tree _ _ _ _ => idtac
      | create_git_commit _ _ _ _ _ => idtac
      | get_git_ref _ _ _ => idtac
      | edit_git_ref _ _ _ _ => idtac
      | create_git_ref _ _ _ _ => idtac
      end;
      destruct x as [[[?|?]|?] ?]
  end.

Section Runs.

Context {St : Type}.
Variable api : GithubApi St.
Variable decode_replace : bytes -> text.

(** The ref update only looks up, edits or creates refs. *)
Lemma update_ref_trace (sha : string) (w : World St) :
  exists t,
    calls (snd (PushV1.update_ref api sha w)) = (calls w ++ t)%list
    /\ Forall (fun cr => is_ref_call (fst cr) = true) t.
Proof.
  unfold PushV1.update_ref. run.
  repeat (split_call; run);
    cbn [snd calls];
    (eexists; split;
       [rewrite <- ?app_assoc; cbn [app]; reflexivity
       | repeat constructor]).
Qed.

End Runs.

Lemma ref_not_connect (t : trace) :
  Forall (fun cr => is_ref_call (fst cr) = true) t ->
  Forall (fun cr => is_connect (fst cr) = false) t.
Proof.
  induction 1 as [|[c r] t H _ IH]; constructor; [|exact IH].
  destruct c; try discriminate H; reflexivity.
Qed.

(** Reads the views of a trace that is known but for its end. *)
Ltac views :=
  unfold expected_parents, resolved_branch, branch_lookups, tree_bases,
    trees_created, commit_requests, commits_created in *;
  cbn [pick fst snd head map List.length app];
  repeat match goal with
    | H : pick _ ?tr = [] |- _ => rewrite H
    | H : head (pick _ ?tr) = None |- _ => rewrite H
    end;
  cbn [pick fst snd head map List.length app].

(** Finds which way the resolution went. *)
Ltac resolved :=
  first
    [ solve [eapply primary_found; views; reflexivity]
    | solve [eapply secondary_found; views; reflexivity]
    | solve [eapply empty_repository; views; reflexivity]
    | solve [eapply primary_crashed; views; reflexivity]
    | solve [eapply secondary_crashed; views; reflexivity]
    | solve [eapply not_reached; views; reflexivity] ].

(** Splits a run on how the ref update went. *)
Ltac split_update :=
  match goal with
  | |- context [PushV1.update_ref ?a ?sha ?w1] =>
      let tr := fresh "tr" in
      destruct (update_ref_trace a sha w1) as (tr & ? & ?);
      destruct (PushV1.update_ref a sha w1) as [[?|?|?] ?]
  end.

Section Publish.

Context {St : Type}.
Variable api : GithubApi St.
Variable decode_replace : bytes -> text.

(** Nothing of the resolution, of the tree or of the commit is read in the
    calls that move a branch. *)
Lemma ref_only_views (t : trace) :
  Forall (fun cr => is_ref_call (fst cr) = true) t ->
  branch_lookups t = [] /\ tree_bases t = [] /\ trees_created t = []
  /\ commit_requests t = [] /\ commits_created t = []
  /\ resolved_branch t = None.
Proof.
  intros H. unfold resolved_branch.
  repeat split; try (apply f_equal with (f := @head Branch) (y := []));
    apply pick_none; apply (blind_none is_ref_call); try exact H;
    intros c r Hc; destruct c; try discriminate Hc; try reflexivity;
    destruct r; reflexivity.
Qed.

(** The trace of a publication, from any world: the resolution went one
    of the ways of [resolution], and there is one commit request per tree
    created, with the parents expected; a publication that ends normally
    has created one commit. *)
Lemma publish_trace (owner repo_name : string) (files : Dict.t bytes)
    (w : World St) :
  exists t,
    calls (snd (PushV1.publish api decode_replace owner repo_name files w))
    = (calls w ++ t)%list
    /\ resolution t
    /\ branch_lookups t <> []
    /\ one_commit t
    /\ (fst (PushV1.publish api decode_replace owner repo_name files w)
        = Ok tt ->
        List.length (commits_created t) = 1)
    /\ Forall (fun cr => is_connect (fst cr) = false) t.
Proof.
  unfold PushV1.publish, PushV1.resolve_branch, PushV1.create_tree,
    PushV1.parents_of.
  run.
  repeat (split_call; run).
  all: try split_update; run.
  all: cbn [snd fst calls] in *.
  all: repeat match goal with
         | H : calls _ = _ |- _ => cbn [calls] in H; rewrite H; clear H
         end.
  all: eexists; (split; [rewrite <- ?app_assoc; cbn [app]; reflexivity|]).
  all: repeat match goal with
         | H : Forall _ ?tr |- _ =>
             pose proof (ref_not_connect tr H);
             destruct (ref_only_views tr H)
               as (? & ? & ? & ? & ? & ?); clear H
         end.
  all: split; [resolved|].
  all: split; [views; discriminate|].
  all: split; [unfold one_commit; views; repeat split; auto|].
  all: split;
    [views; intros Hok; first [discriminate Hok | reflexivity]|].
  all: repeat (constructor; [reflexivity|]);
    first [constructor | assumption].
Qed.

(** The calls that open the session show nothing of the resolution, of
    the tree or of the commit. *)
Lemma connect_prefix_views (pre t : trace) :
  Forall (fun cr => is_connect (fst cr) = true) pre ->
  branch_lookups (pre ++ t)%list = branch_lookups t
  /\ tree_bases (pre ++ t)%list = tree_bases t
  /\ trees_created (pre ++ t)%list = trees_created t
  /\ commit_requests (pre ++ t)%list = commit_requests t
  /\ commits_created (pre ++ t)%list = commits_created t
  /\ resolved_branch (pre ++ t)%list = resolved_branch t.
Proof.
  intros H. unfold resolved_branch.
  repeat split; try (apply f_equal with (f := @head Branch));
    apply pick_none_app; apply (blind_none is_connect); try exact H;
    intros c r Hc; destruct c; try discriminate Hc; try reflexivity;
    destruct r; reflexivity.
Qed.

Lemma connect_only_views (t : trace) :
  Forall (fun cr => is_connect (fst cr) = true) t ->
  branch_lookups t = [] /\ tree_bases t = [] /\ trees_created t = []
  /\ commit_requests t = [] /\ commits_created t = []
  /\ resolved_branch t = None.
Proof.
  intros H. destruct (connect_prefix_views t [] H) as (A & B & C & D & E & F).
  rewrite app_nil_r in *. auto 10.
Qed.

Lemma resolution_prefix (pre t : trace) :
  Forall (fun cr => is_connect (fst cr) = true) pre ->
  resolution t -> resolution (pre ++ t)%list.
Proof.
  intros H R. destruct (connect_prefix_views pre t H) as (A & B & C & D & _).
  destruct R;
    [ eapply not_reached | eapply primary_found | eapply secondary_found
    | eapply empty_repository | eapply primary_crashed
    | eapply secondary_crashed ];
    rewrite ?A, ?B, ?C, ?D; eassumption.
Qed.

Lemma one_commit_prefix (pre t : trace) :
  Forall (fun cr => is_connect (fst cr) = true) pre ->
  one_commit t -> one_commit (pre ++ t)%list.
Proof.
  intros H. destruct (connect_prefix_views pre t H) as (_ & _ & C & D & E & F).
  unfold one_commit, expected_parents. now rewrite C, D, E, F.
Qed.

(** Every run of [main]: how the resolution went and what was committed. *)
Lemma main_trace (env : Env.t) (s : St) :
  let run := PushV1.main api decode_replace env (init s) in
  let t := calls (snd run) in
  resolution t
  /\ one_commit t
  /\ (fst run = Ok tt -> List.length (commits_created t) = 1)
  /\ (repository_found t = true ->
      collected (Env.ignore_patterns env) (Env.cwd env) <> [] ->
      branch_lookups t <> []).
Proof.
  intros run t. subst run t.
  destruct (main_v1_run api decode_replace env s)
    as [(Hexit & Hcalls & Hfound) | (w & Hopen & Hfiles & ->)].
  - destruct (connect_only_views _ Hcalls) as (A & B & C & D & E & F).
    split; [now apply not_reached|].
    split; [unfold one_commit, expected_parents;
            rewrite C, D, E; cbn; auto|].
    split.
    + intros Hok. rewrite Hok in Hexit. now contradiction Hexit.
    + intros Hf Hne. now destruct (Hfound Hf) as (Hnil & _).
  - destruct Hopen as (token & login & rn & full_name & Hw).
    destruct (publish_trace "oswin26" "Invoice-AI-"
                (collected (Env.ignore_patterns env) (Env.cwd env)) w)
      as (t & -> & R & Hb & Hc & Hok & _).
    rewrite Hw.
    assert (Hpre : Forall (fun cr => is_connect (fst cr) = true)
                     [(GetUser token, Login login);
                      (GetRepo rn, RepoFound full_name)])
      by (repeat constructor).
    destruct (connect_prefix_views _ t Hpre) as (A & _ & _ & _ & E & _).
    split; [now apply resolution_prefix|].
    split; [now apply one_commit_prefix|].
    split; [now rewrite E|].
    intros _ _. now rewrite A.
Qed.

End Publish.

End PushV1Facts.

(** ** Strategy A: branch resolution and the commit *)

Module StrategyA.

Import Codec GitHub Py FileSystem Collector Views Spec PushV1Facts.

(** C5. In every run of Strategy A the trace has one of the shapes of
    [resolution]: the first branch looked up is ["main"]; ["master"] is
    looked up exactly when the lookup of ["main"] raised a
    [GithubException]; when both did, the tree is requested with no base
    tree and the commit, if the tree was created, with no parent.  A run
    that found the repository and collected files does look up ["main"]. *)
Theorem branch_resolution_main_then_master :
  forall St (api : GithubApi St) (decode_replace : bytes -> text)
         (env : Env.t) (s : St),
    let t := calls (snd (PushV1.main api decode_replace env (init s))) in
    resolution t
    /\ (repository_found t = true ->
        collected (Env.ignore_patterns env) (Env.cwd env) <> [] ->
        exists r rest, branch_lookups t = ("main", r) :: rest).
Proof.
  intros St api decode_replace env s t. subst t.
  pose proof (main_trace api decode_replace env s) as H. cbv zeta in H.
  destruct H as (R & _ & _ & Hb). split; [exact R|].
  intros Hf Hne. specialize (Hb Hf Hne).
  destruct R as [H | b H | m b H | m m' H | m H | m m' H];
    rewrite H in *; [contradiction | eauto ..].
Qed.

Lemma branch_resolution_main_then_master_witness :
  exists r rest,
    branch_lookups
      (calls (snd (PushV1.main Mock.api Mock.decode_replace Mock.env
                     (init Mock.empty_repo))))
    = ("main", r) :: rest.
Proof.
  apply (proj2 (branch_resolution_main_then_master
                  Mock.state Mock.api Mock.decode_replace Mock.env
                  Mock.empty_repo)).
  - vm_compute. reflexivity.
  - vm_compute. discriminate.
Defined.

(** C6. In every run of Strategy A at most one commit is requested; its
    parents are the tip of the branch that was resolved, alone, or none
    when no branch was; it is requested once the tree was created, and a
    run that ends normally has created exactly one commit. *)
Theorem exactly_one_commit_with_resolved_parent :
  forall St (api : GithubApi St) (decode_replace : bytes -> text)
         (env : Env.t) (s : St),
    let run := PushV1.main api decode_replace env (init s) in
    let t := calls (snd run) in
    List.length (commit_requests t) <= 1
    /\ (forall parents,
           In parents (commit_requests t) ->
           parents = match resolved_branch t with
                     | Some b => [branch_commit b]
                     | None => []
                     end)
    /\ (trees_created t <> [] -> List.length (commit_requests t) = 1)
    /\ (fst run = Ok tt ->
        List.length (commits_created t) = 1
        /\ List.length (commit_requests t) = 1).
Proof.
  intros St api decode_replace env s run t. subst t run.
  pose proof (main_trace api decode_replace env s) as H. cbv zeta in H.
  destruct H as (_ & (Hreq & Htrees & Hcreated) & Hok & _).
  unfold expected_parents in Hreq.
  set (t := calls (snd (PushV1.main api decode_replace env (init s)))) in *.
  assert (Hlen : List.length (commit_requests t)
                 = List.length (trees_created t))
    by (rewrite Hreq; apply length_map).
  split; [lia|]. split; [|split].
  - intros parents Hin. rewrite Hreq in Hin.
    apply in_map_iff in Hin. destruct Hin as (_ & <- & _). reflexivity.
  - intros Hne. destruct (trees_created t); [contradiction|].
    simpl in *. lia.
  - intros H. specialize (Hok H). lia.
Qed.

Lemma exactly_one_commit_with_resolved_parent_witness :
  commit_requests
    (calls (snd (PushV1.main Mock.api Mock.decode_replace Mock.env
                   (init Mock.master_repo))))
  = [[Mock.tip]]
  /\ List.length
       (commits_created
          (calls (snd (PushV1.main Mock.api Mock.decode_replace Mock.env
                         (init Mock.master_repo))))) = 1.
Proof.
  destruct (exactly_one_commit_with_resolved_parent
              Mock.state Mock.api Mock.decode_replace Mock.env
              Mock.master_repo) as (_ & Hparents & _ & Hok).
  split.
  - vm_compute. reflexivity.
  - apply Hok. vm_compute. reflexivity.
Defined.

End StrategyA.

(** ** Both scripts: nothing to publish *)

Module BothScripts.

Import Codec GitHub Py FileSystem Collector Views Spec CollectorFacts MainFacts.

Lemma connect_only_writes (t : trace) :
  Forall (fun cr => is_connect (fst cr) = true) t -> writes t = [].
Proof.
  unfold writes. induction 1 as [|[c r] t H _ IH]; [reflexivity|].
  cbn [map fst filter]. cbn [fst] in H.
  destruct c; try discriminate H; exact IH.
Qed.

Lemma ended_early_empty {St} (run : outcome unit * World St) :
  ended_early [] run ->
  exit_status (fst run) <> 0%Z
  /\ writes (calls (snd run)) = []
  /\ (repository_found (calls (snd run)) = true ->
      fst run = Exit 1
      /\ last (stdout (snd run)) EmptyString = "ERROR: No files to commit.").
Proof.
  intros (Hexit & Hcalls & Hfound).
  split; [exact Hexit|]. split; [now apply connect_only_writes|].
  intros Hf. now destruct (Hfound Hf) as (_ & H1 & H2).
Qed.

(** C8. When [collect_files] returns an empty mapping, each script exits
    with a status that is not zero without any call that writes to the
    repository: no tree, commit, ref or file request; once the repository
    was found, it exits through [sys.exit(1)] right after printing
    "ERROR: No files to commit.". *)
Theorem empty_mapping_exits_before_any_write :
  forall St (api : GithubApi St) (decode_replace : bytes -> text)
         (env : Env.t) (s : St),
    fst (collect_files (Env.ignore_patterns env) (Env.cwd env) (init s))
    = Ok [] ->
    let run1 := PushV1.main api decode_replace env (init s) in
    let run2 := PushV2.main api env (init s) in
    (exit_status (fst run1) <> 0%Z
     /\ writes (calls (snd run1)) = []
     /\ (repository_found (calls (snd run1)) = true ->
         fst run1 = Exit 1
         /\ last (stdout (snd run1)) EmptyString
            = "ERROR: No files to commit."))
    /\ (exit_status (fst run2) <> 0%Z
        /\ writes (calls (snd run2)) = []
        /\ (repository_found (calls (snd run2)) = true ->
            fst run2 = Exit 1
            /\ last (stdout (snd run2)) EmptyString
               = "ERROR: No files to commit.")).
Proof.
  intros St api decode_replace env s Hempty run1 run2. subst run1 run2.
  rewrite collect_files_run in Hempty. cbn [fst] in Hempty.
  injection Hempty as Hempty.
  split; apply ended_early_empty.
  - destruct (main_v1_run api decode_replace env s)
      as [H | (w & _ & Hne & _)]; cbv zeta in *.
    + now rewrite Hempty in H.
    + contradiction.
  - destruct (main_v2_run api env s) as [H | (w & _ & Hne & _)];
      cbv zeta in *.
    + now rewrite Hempty in H.
    + contradiction.
Qed.

Lemma empty_mapping_exits_before_any_write_witness :
  fst (PushV1.main Mock.api Mock.decode_replace Mock.env_nothing
         (init Mock.partial_repo)) = Exit 1
  /\ fst (PushV2.main Mock.api Mock.env_nothing (init Mock.partial_repo))
     = Exit 1
  /\ writes (calls (snd (PushV2.main Mock.api Mock.env_nothing
                           (init Mock.partial_repo)))) = [].
Proof.
  destruct (empty_mapping_exits_before_any_write
              Mock.state Mock.api Mock.decode_replace Mock.env_nothing
              Mock.partial_repo)
    as ((_ & _ & H1) & (_ & Hw & H2)).
  - vm_compute. reflexivity.
  - split; [apply H1; vm_compute; reflexivity|].
    split; [apply H2; vm_compute; reflexivity | exact Hw].
Defined.

End BothScripts.

(** ** Strategy B: order, outcomes and content of the requests *)

Module StrategyB.

Import Codec GitHub Py FileSystem Collector Views Spec.
Import CollectorFacts TraceFacts MainFacts PushV2Facts SortFacts.

(** The paths read in a trace of create-file requests are those of the
    items requested. *)
Lemma attempted_paths_prefix (t : trace) :
  forall (items : list (string * bytes)) (rest : list call),
    map request_of items = (map fst t ++ rest)%list ->
    exists rest',
      map fst items = (attempted_paths t ++ rest')%list
      /\ (rest = [] -> rest' = []).
Proof.
  induction t as [|[c r] t IH]; intros items rest H.
  - exists (map fst items). split; [reflexivity|].
    intros ->. destruct items; [reflexivity | discriminate H].
  - destruct items as [|item items]; [discriminate H|].
    cbn [map fst app] in H. injection H as Hc H.
    destruct (IH items rest H) as (rest' & Hp & Hr).
    exists rest'. split; [|exact Hr].
    subst c. unfold attempted_paths in *. cbn [pick fst request_of map].
    now rewrite Hp.
Qed.

Section Runs.

Context {St : Type}.
Variable api : GithubApi St.

(** The loop of [main], for any mapping: its requests are those of the
    sorted items, as far as it went. *)
Lemma create_files_trace (files : Dict.t bytes) (w : World St) :
  exists t lines rest,
    calls (snd (PushV2.create_files api files w)) = (calls w ++ t)%list
    /\ stdout (snd (PushV2.create_files api files w))
       = (stdout w ++ lines)%list
    /\ map fst (PushV2.sorted files) = (attempted_paths t ++ rest)%list
    /\ Forall (fun cr => is_connect (fst cr) = false) t
    /\ (fst (PushV2.create_files api files w) = Ok tt -> rest = [])
    /\ (Forall (fun cr => ~ aborted cr) t ->
        fst (PushV2.create_files api files w) = Ok tt
        /\ Forall2 reported t lines).
Proof.
  unfold PushV2.create_files.
  destruct (create_loop_run api (PushV2.sorted files) w)
    as (t & lines & Hc & Hs & H).
  assert (Hnc : forall items rest,
             map request_of items = (map fst t ++ rest)%list ->
             Forall (fun cr => is_connect (fst cr) = false) t).
  { clear. induction t as [|[c r] t IH]; intros items rest H;
      [constructor|].
    destruct items as [|item items]; [discriminate H|].
    cbn [map fst app] in H. injection H as Hc H.
    constructor; [subst c; reflexivity | eapply IH; eassumption]. }
  destruct H as [(Hr & Hm & Hf & Hn) | (e & rest & Hr & Hm & He)].
  - destruct (attempted_paths_prefix t (PushV2.sorted files) [])
      as (rest' & Hp & Hnil); [now rewrite app_nil_r|].
    exists t, lines, rest'.
    split; [exact Hc|]. split; [exact Hs|]. split; [exact Hp|].
    split; [eapply (Hnc _ []); rewrite app_nil_r; symmetry; exact Hm|].
    split; [intros _; now apply Hnil|].
    intros _. split; assumption.
  - destruct (attempted_paths_prefix t (PushV2.sorted files) rest Hm)
      as (rest' & Hp & _).
    assert (Hfalse : Forall (fun cr => ~ aborted cr) t -> False).
    { intros Hn. apply Exists_exists in He.
      destruct He as (cr & Hin & Hab). rewrite Forall_forall in Hn.
      now apply (Hn cr Hin). }
    exists t, lines, rest'.
    split; [exact Hc|]. split; [exact Hs|]. split; [exact Hp|].
    split; [eapply Hnc; exact Hm|].
    split; [rewrite Hr; discriminate|].
    intros Hn. now destruct (Hfalse Hn).
Qed.

End Runs.

(** C3. Under Strategy B, when every error of a create-file request is a
    [GithubException], the loop runs to its end whatever the errors are:
    a request was made for every file, and each was reported by one line,
    "already exists" when the message of the error holds ["409"] or holds
    ["exists"] in any case, failed for any other error, created when there
    was none. *)
Theorem per_file_errors_are_classified_and_skipped :
  forall St (api : GithubApi St) (files : Dict.t bytes) (w : World St),
    let run := PushV2.create_files api files w in
    exists t lines,
      calls (snd run) = (calls w ++ t)%list
      /\ stdout (snd run) = (stdout w ++ lines)%list
      /\ (Forall (fun cr => ~ aborted cr) t ->
          fst run = Ok tt
          /\ attempted_paths t = map fst (PushV2.sorted files)
          /\ List.length lines = List.length files
          /\ Forall2 reported t lines).
Proof.
  intros St api files w run. subst run.
  destruct (create_files_trace api files w)
    as (t & lines & rest & Hc & Hs & Hp & _ & Hrest & Hok).
  exists t, lines. split; [exact Hc|]. split; [exact Hs|].
  intros Hn. destruct (Hok Hn) as (Hr & Hf).
  rewrite (Hrest Hr), app_nil_r in Hp.
  split; [exact Hr|]. split; [now symmetry|]. split; [|exact Hf].
  rewrite <- (Forall2_length Hf).
  rewrite (Permutation_length (sorted_perm files)).
  rewrite <- (length_map fst (PushV2.sorted files)), Hp.
  unfold attempted_paths. clear -Hf.
  induction Hf as [|[c r] line t lines Hrep _ IH]; [reflexivity|].
  destruct Hrep as (p & m & ct & b & o & Hcall & _). cbn [fst] in Hcall.
  subst c. cbn [pick fst List.length]. now rewrite IH.
Qed.

Lemma per_file_errors_are_classified_and_skipped_witness :
  fst (PushV2.create_files Mock.api
         (collected ["secrets.env"] Mock.project) (init Mock.partial_repo))
  = Ok tt
  /\ List.length
       (stdout (snd (PushV2.create_files Mock.api
                       (collected ["secrets.env"] Mock.project)
                       (init Mock.partial_repo)))) = 4.
Proof.
  destruct (per_file_errors_are_classified_and_skipped
              Mock.state Mock.api (collected ["secrets.env"] Mock.project)
              (init Mock.partial_repo))
    as (t & lines & Hc & Hs & H).
  vm_compute in Hc. subst t.
  destruct H as (Hr & _ & Hl & _).
  - repeat constructor; intros [m Hm]; discriminate Hm.
  - split; [exact Hr|]. rewrite Hs. exact Hl.
Defined.

Section Main.

Context {St : Type}.
Variable api : GithubApi St.

(** What [main] does with a mapping that is not empty: the loop, between
    lines that are printed. *)
Lemma publish_loop (owner repo_name : string) (files : Dict.t bytes)
    (w : World St) :
  exists w',
    calls w' = calls w
    /\ calls (snd (PushV2.publish api owner repo_name files w))
       = calls (snd (PushV2.create_files api files w'))
    /\ (fst (PushV2.publish api owner repo_name files w) = Ok tt ->
        fst (PushV2.create_files api files w') = Ok tt).
Proof.
  unfold PushV2.publish. run.
  match goal with
  | |- context [PushV2.create_files api files ?w0] => exists w0
  end.
  split; [reflexivity|].
  destruct (PushV2.create_files api files _) as [[[]|c|e] w2]; run;
    cbn [fst snd calls];
    (split; [reflexivity|]);
    intros H; first [reflexivity | discriminate H].
Qed.

(** Every run of [main]: the paths requested are the sorted keys of the
    mapping collected, as far as the run went. *)
Lemma main_paths (env : Env.t) (s : St) :
  let run := PushV2.main api env (init s) in
  let keys :=
    Dict.keys (collected (Env.ignore_patterns env) (Env.cwd env)) in
  (exists rest,
      sort_strings keys = (attempted_paths (calls (snd run)) ++ rest)%list)
  /\ (fst run = Ok tt ->
      attempted_paths (calls (snd run)) = sort_strings keys).
Proof.
  intros run keys. subst run keys.
  rewrite <- (sorted_keys _ (NoDup_keys_collected _ _)).
  destruct (main_v2_run api env s)
    as [(Hexit & Hcalls & _) | (w & Hopen & _ & ->)]; cbv zeta in *.
  - assert (Hnone : attempted_paths
                      (calls (snd (PushV2.main api env (init s)))) = []).
    { apply pick_none. apply (blind_none is_connect); [|exact Hcalls].
      intros c r Hc. destruct c; try discriminate Hc; reflexivity. }
    rewrite Hnone. split; [eexists; reflexivity|].
    intros Hok. rewrite Hok in Hexit. now contradiction Hexit.
  - set (files := collected (Env.ignore_patterns env) (Env.cwd env)).
    destruct (publish_loop "oswin26" "Invoice-AI-" files w)
      as (w' & Hw' & -> & Hok).
    destruct (create_files_trace api files w')
      as (t & lines & rest & -> & _ & Hp & _ & Hrest & _).
    rewrite Hw'. destruct Hopen as (token & login & rn & full & ->).
    assert (Hpre : attempted_paths
                     ([(GetUser token, Login login);
                       (GetRepo rn, RepoFound full)] ++ t)%list
                   = attempted_paths t) by reflexivity.
    rewrite Hpre, Hp. split; [eexists; reflexivity|].
    intros H. rewrite (Hrest (Hok H)). now rewrite app_nil_r.
Qed.

End Main.

(** C9. Under Strategy B the create-file requests follow the keys of the
    mapping sorted ascending.  For every mapping, the paths requested by
    the loop are the sorted list of its keys, as far as the loop went, and
    the whole of it when the loop ends normally; so are the paths
    requested by a run of [main] for the mapping it collected.  The sorted
    list is ascending, holds the keys, and does not depend on the order the
    mapping lists them in. *)
Theorem create_file_requests_follow_sorted_paths :
  (forall St (api : GithubApi St) (files : Dict.t bytes) (w : World St),
      NoDup (Dict.keys files) ->
      let run := PushV2.create_files api files w in
      exists t rest,
        calls (snd run) = (calls w ++ t)%list
        /\ sort_strings (Dict.keys files)
           = (attempted_paths t ++ rest)%list
        /\ (fst run = Ok tt ->
            attempted_paths t = sort_strings (Dict.keys files)))
  /\ (forall St (api : GithubApi St) (env : Env.t) (s : St),
         let run := PushV2.main api env (init s) in
         let keys :=
           Dict.keys (collected (Env.ignore_patterns env) (Env.cwd env)) in
         (exists rest,
             sort_strings keys
             = (attempted_paths (calls (snd run)) ++ rest)%list)
         /\ (fst run = Ok tt ->
             attempted_paths (calls (snd run)) = sort_strings keys))
  /\ (forall keys keys' : list string,
         NoDup keys ->
         StronglySorted string_lt (sort_strings keys)
         /\ Permutation keys (sort_strings keys)
         /\ (Permutation keys keys' ->
             sort_strings keys' = sort_strings keys)).
Proof.
  split; [|split].
  - intros St api files w Hnd run. subst run.
    destruct (create_files_trace api files w)
      as (t & lines & rest & Hc & _ & Hp & _ & Hrest & _).
    rewrite (sorted_keys files Hnd) in Hp.
    exists t, rest. split; [exact Hc|]. split; [exact Hp|].
    intros H. rewrite Hp, (Hrest H). now rewrite app_nil_r.
  - intros St api env s. apply main_paths.
  - intros keys keys' Hnd.
    split; [now apply sort_strings_sorted|].
    split; [apply sort_strings_perm|].
    intros Hp. symmetry. now apply sort_strings_order_free.
Qed.

Lemma create_file_requests_follow_sorted_paths_witness :
  attempted_paths
    (calls (snd (PushV2.main Mock.api Mock.env (init Mock.partial_repo))))
  = ["Dockerfile"; "assets/logo.png"; "gitignore"; "vision.py"].
Proof.
  destruct create_file_requests_follow_sorted_paths as (_ & Hmain & _).
  destruct (Hmain Mock.state Mock.api Mock.env Mock.partial_repo)
    as (_ & Hok).
  rewrite Hok; vm_compute; reflexivity.
Defined.

(** C4, as the code has it.  For a content that is not UTF-8 the base64
    form of the bytes is what is sent, and the local variable [encoding] is
    set; but the request carries the path, the message, the content and
    the branch, and nothing of [encoding]: the turn of the loop is, call for
    call and line for line, the one of a text file that holds the base64
    form.  A content that is UTF-8 is sent as its decoded text. *)
Theorem binary_content_is_sent_without_encoding_mark :
  forall St (api : GithubApi St) (filepath : string) (content : bytes)
         (w : World St),
    decode_utf8 content = None ->
    PushV2.prepare_content content w
    = (Ok (map Byte.to_N (b64encode content), Some "base64"), w)
    /\ PushV2.prepare_content (b64encode content) w
       = (Ok (map Byte.to_N (b64encode content), None), w)
    /\ request_of (filepath, content)
       = CreateFile filepath PushV2.commit_msg
           (map Byte.to_N (b64encode content)) "main"
    /\ PushV2.create_one api (filepath, content) w
       = PushV2.create_one api (filepath, b64encode content) w.
Proof.
  intros St api filepath content w Hbin.
  assert (H1 : request_content content = map Byte.to_N (b64encode content))
    by (unfold request_content; now rewrite Hbin).
  assert (H2 : request_content (b64encode content)
               = map Byte.to_N (b64encode content))
    by (unfold request_content;
        now rewrite CodecFacts.decode_b64encode).
  split; [|split; [|split]].
  - rewrite prepare_content_run. unfold encoding_of.
    now rewrite H1, Hbin.
  - rewrite prepare_content_run. unfold encoding_of.
    now rewrite H2, CodecFacts.decode_b64encode.
  - unfold request_of. cbn [fst snd]. now rewrite H1.
  - rewrite !create_one_run. unfold request_of. cbn [fst snd].
    now rewrite H1, H2.
Qed.

Lemma binary_content_is_sent_without_encoding_mark_witness :
  request_of ("assets/logo.png", [xff]%byte)
  = CreateFile "assets/logo.png" PushV2.commit_msg
      (text_of_string "/w==") "main"
  /\ PushV2.create_one Mock.api ("assets/logo.png", [xff]%byte)
       (init Mock.empty_repo)
     = PushV2.create_one Mock.api
         ("assets/logo.png", bytes_of_string "/w==") (init Mock.empty_repo).
Proof.
  destruct (binary_content_is_sent_without_encoding_mark
              Mock.state Mock.api "assets/logo.png" [xff]%byte
              (init Mock.empty_repo))
    as (_ & _ & Hreq & Hsame).
  - vm_compute. reflexivity.
  - split; [exact Hreq | exact Hsame].
Defined.

(** A content that is UTF-8 is sent as its decoded text, with no mark. *)
Lemma text_content_is_sent_decoded {St} (content : bytes) (t : text)
    (w : World St) :
  decode_utf8 content = Some t ->
  PushV2.prepare_content content w = (Ok (t, None), w).
Proof.
  intros H. rewrite prepare_content_run.
  unfold request_content, encoding_of. now rewrite H.
Qed.

End StrategyB.

(** ** The keys of the mapping *)

Module KeyFacts.

Import Codec GitHub Py FileSystem Collector Views Spec CollectorFacts.

(** No key starts with a dot or a slash. *)
Lemma key_has_no_leading_dot (filepath : PathLib.Path) (c : ascii)
    (rest : string) :
  github_path_of filepath = String c rest -> PyStr.char_in c "./" = false.
Proof. apply PyStrFacts.lstrip_no_leading. Qed.

(** A path whose string form starts with neither is its own key, up to
    the separators. *)
Lemma key_of_plain_path (filepath : PathLib.Path) (c : ascii)
    (rest : string) :
  PyStr.replace "\" "/" (PathLib.str filepath) = String c rest ->
  PyStr.char_in c "./" = false ->
  github_path_of filepath = PyStr.replace "\" "/" (PathLib.str filepath).
Proof.
  intros H Hc. unfold github_path_of. rewrite H.
  now apply PyStrFacts.lstrip_id.
Qed.

(** C2, as the code has it.  [lstrip("./")] drops every leading dot and
    slash, not only a leading ["./"]: no key starts with a dot.  A file
    [.gitignore] of the root, whose relative path is [.gitignore], is
    stored under the key [gitignore]; and two files [env] and [.env] of one
    directory share the key [env], so that one of them is lost. *)
Theorem leading_dots_are_stripped_from_keys :
  (forall (filepath : PathLib.Path) (rest : string),
      github_path_of filepath <> String "." rest)
  /\ github_path_of (PathLib.truediv (PathLib.of_string ".") ".gitignore")
     = "gitignore"
  /\ relative_key "." ".gitignore" = ".gitignore"
  /\ (forall St (w : World St) (content : bytes),
         fst (collect_files []
                (Dir "." [File ".gitignore" (ReadOk content)]) w)
         = Ok [("gitignore", content)])
  /\ (forall St (w : World St) (a b : bytes),
         fst (collect_files []
                (Dir "." [File "env" (ReadOk a); File ".env" (ReadOk b)]) w)
         = Ok [("env", b)]).
Proof.
  split.
  { intros fp rest H. apply key_has_no_leading_dot in H. discriminate H. }
  split; [reflexivity|]. split; [reflexivity|].
  split; intros; rewrite collect_files_run; reflexivity.
Qed.

End KeyFacts.

(** ** The scripts on small inputs *)

Module Examples.

Import Codec GitHub Py FileSystem Collector Views Spec.

Example decode_text :
  decode_utf8 (bytes_of_string "né €") = Some [110; 233; 32; 8364]%N.
Proof. reflexivity. Qed.

Example decode_refuses_surrogates : decode_utf8 [xed; xa0; x80]%byte = None.
Proof. reflexivity. Qed.

Example decode_refuses_overlong : decode_utf8 [xc0; x80]%byte = None.
Proof. reflexivity. Qed.

Example b64encode_padding :
  map (fun s => string_of_list_byte (b64encode (bytes_of_string s)))
      ["Man"; "Ma"; "M"]
  = ["TWFu"; "TWE="; "TQ=="].
Proof. reflexivity. Qed.

Example repo_url_parts :
  PyStr.split "/"
    (PyStr.replace ".git" EmptyString
       (PyStr.replace "https://github.com/" EmptyString PushV1.url))
  = ["oswin26"; "Invoice-AI-"].
Proof. reflexivity. Qed.

Example nested_file_key :
  github_path_of (PathLib.truediv (PathLib.of_string "./assets/img") "a.png")
  = "assets/img/a.png".
Proof. reflexivity. Qed.

(** The scenario of the specification: [secrets.env] with the rule
    [secrets.env]. *)
Example secrets_env_is_ignored :
  should_ignore (PathLib.truediv (PathLib.of_string ".") "secrets.env")
                ["secrets.env"] = true
  /\ Dict.get (collected ["secrets.env"] Mock.project) "secrets.env" = None.
Proof. split; reflexivity. Qed.

(** A rule is a substring: [.env] also ignores [secrets.env]. *)
Example rule_is_a_substring :
  should_ignore ["config"; "secrets.env"] [".env"] = true.
Proof. reflexivity. Qed.

Example hidden_and_cache_directories_are_not_walked :
  map fst (visited Mock.project)
  = [["vision.py"]; [".gitignore"]; ["secrets.env"]; ["Dockerfile"];
     ["assets"; "logo.png"]; ["assets"; "locked.bin"]].
Proof. reflexivity. Qed.

Example collected_project :
  Dict.keys (collected ["secrets.env"] Mock.project)
  = ["vision.py"; "gitignore"; "Dockerfile"; "assets/logo.png"].
Proof. reflexivity. Qed.

Example sorted_is_by_code_point :
  sort_strings ["vision.py"; "gitignore"; "Dockerfile"; "assets/logo.png"]
  = ["Dockerfile"; "assets/logo.png"; "gitignore"; "vision.py"].
Proof. reflexivity. Qed.

Example strategy_b_lines :
  stdout (snd (PushV2.create_files Mock.api
                 (collected ["secrets.env"] Mock.project)
                 (init Mock.partial_repo)))
  = ["  ❌ Dockerfile: 403 Resource not accessible";
     "  ✅ assets/logo.png";
     "  ✅ gitignore";
     "  ~ vision.py (already exists)"]
  /\ map snd
       (calls (snd (PushV2.create_files Mock.api
                      (collected ["secrets.env"] Mock.project)
                      (init Mock.partial_repo))))
     = [Raised (GithubException "403 Resource not accessible");
        Done; Done;
        Raised (GithubException "422 path already Exists")].
Proof. split; reflexivity. Qed.

Example strategy_a_on_an_empty_repository :
  map fst
    (calls (snd (PushV1.main Mock.api Mock.decode_replace Mock.env
                   (init Mock.empty_repo))))
  = [GetUser "ghp_valid"; GetRepo "Invoice-AI-";
     GetBranch "main"; GetBranch "master";
     CreateGitTree
       (PushV1.tree_elements_of Mock.decode_replace
          (collected ["secrets.env"] Mock.project)) None;
     CreateGitCommit PushV1.commit_msg {| tree_sha := "tree0" |} [];
     GetGitRef "heads/main"; GetGitRef "heads/master";
     CreateGitRef "refs/heads/main" "commit1"].
Proof. reflexivity. Qed.

(** Two files of one directory that share a key: the mapping keeps the
    content of the last one, so that ignoring it changes the content kept
    under the key. *)
Example shared_key_keeps_the_last_content :
  let cwd := Dir "." [File "env" (ReadOk (bytes_of_string "A"));
                      File ".env" (ReadOk (bytes_of_string "B"))] in
  collected [] cwd = [("env", bytes_of_string "B")]
  /\ collected [".env"] cwd = [("env", bytes_of_string "A")]
  /\ ~ distinct_keys [] cwd.
Proof.
  cbv zeta. split; [reflexivity|]. split; [reflexivity|].
  unfold distinct_keys. vm_compute. intros H.
  inversion H as [|? ? Hn _]. apply Hn. now left.
Qed.

End Examples.

(** ** White space and lines *)

Module TextFacts.

Import PyText TextViews.

Lemma string_strong_ind (P : string -> Prop) :
  (forall s, (forall t, String.length t < String.length s -> P t) -> P s) ->
  forall s, P s.
Proof.
  intros H s.
  assert (Hn : forall n t, String.length t < n -> P t).
  { induction n as [|n IH]; intros t Ht; [lia|].
    apply H. intros u Hu. apply IH. lia. }
  apply (Hn (S (String.length s))). lia.
Qed.

Lemma lstrip_unfold (s : string) :
  lstrip s =
  match s with
  | EmptyString => EmptyString
  | String a r1 =>
      if ws1 a then lstrip r1
      else
        match r1 with
        | EmptyString => s
        | String b r2 =>
            if ws2 a b then lstrip r2
            else
              match r2 with
              | EmptyString => s
              | String c r3 => if ws3 a b c then lstrip r3 else s
              end
        end
  end.
Proof. destruct s; reflexivity. Qed.

Lemma rstrip_rev_unfold (s : string) :
  rstrip_rev s =
  match s with
  | EmptyString => EmptyString
  | String c r1 =>
      if ws1 c then rstrip_rev r1
      else
        match r1 with
        | EmptyString => s
        | String b r2 =>
            if ws2 b c then rstrip_rev r2
            else
              match r2 with
              | EmptyString => s
              | String a r3 => if ws3 a b c then rstrip_rev r3 else s
              end
        end
  end.
Proof. destruct s; reflexivity. Qed.

(** What [lstrip] leaves does not start with a white space. *)
Lemma lstrip_clean (s : string) : starts_ws (lstrip s) = false.
Proof.
  induction s as [s IH] using string_strong_ind.
  rewrite lstrip_unfold.
  destruct s as [|a [|b [|c r3]]]; cbn [starts_ws]; try reflexivity.
  - destruct (ws1 a) eqn:E1; [apply IH; simpl; lia|].
    cbn [starts_ws]. now rewrite E1.
  - destruct (ws1 a) eqn:E1; [apply IH; simpl; lia|].
    destruct (ws2 a b) eqn:E2; [apply IH; simpl; lia|].
    cbn [starts_ws]. now rewrite E1, E2.
  - destruct (ws1 a) eqn:E1; [apply IH; simpl; lia|].
    destruct (ws2 a b) eqn:E2; [apply IH; simpl; lia|].
    destruct (ws3 a b c) eqn:E3; [apply IH; simpl; lia|].
    cbn [starts_ws]. now rewrite E1, E2, E3.
Qed.

Lemma rstrip_rev_clean (s : string) : starts_ws_rev (rstrip_rev s) = false.
Proof.
  induction s as [s IH] using string_strong_ind.
  rewrite rstrip_rev_unfold.
  destruct s as [|c [|b [|a r3]]]; cbn [starts_ws_rev]; try reflexivity.
  - destruct (ws1 c) eqn:E1; [apply IH; simpl; lia|].
    cbn [starts_ws_rev]. now rewrite E1.
  - destruct (ws1 c) eqn:E1; [apply IH; simpl; lia|].
    destruct (ws2 b c) eqn:E2; [apply IH; simpl; lia|].
    cbn [starts_ws_rev]. now rewrite E1, E2.
  - destruct (ws1 c) eqn:E1; [apply IH; simpl; lia|].
    destruct (ws2 b c) eqn:E2; [apply IH; simpl; lia|].
    destruct (ws3 a b c) eqn:E3; [apply IH; simpl; lia|].
    cbn [starts_ws_rev]. now rewrite E1, E2, E3.
Qed.

(** A string that does not start with a white space is left as it is. *)
Lemma lstrip_fixed (s : string) : starts_ws s = false -> lstrip s = s.
Proof.
  rewrite lstrip_unfold.
  destruct s as [|a [|b [|c r3]]]; cbn [starts_ws]; intros H;
    try reflexivity;
    (destruct (ws1 a); [discriminate H|]); cbn [orb] in H;
    try reflexivity;
    (destruct (ws2 a b); [discriminate H|]); cbn [orb] in H;
    try reflexivity;
    now rewrite H.
Qed.

Lemma rstrip_rev_fixed (s : string) :
  starts_ws_rev s = false -> rstrip_rev s = s.
Proof.
  rewrite rstrip_rev_unfold.
  destruct s as [|c [|b [|a r3]]]; cbn [starts_ws_rev]; intros H;
    try reflexivity;
    (destruct (ws1 c); [discriminate H|]); cbn [orb] in H;
    try reflexivity;
    (destruct (ws2 b c); [discriminate H|]); cbn [orb] in H;
    try reflexivity;
    now rewrite H.
Qed.

(** [lstrip] and [rstrip_rev] drop a prefix. *)
Lemma lstrip_suffix (s : string) : exists pre, s = pre ++ lstrip s.
Proof.
  induction s as [s IH] using string_strong_ind.
  rewrite lstrip_unfold.
  destruct s as [|a [|b [|c r3]]].
  - now exists EmptyString.
  - destruct (ws1 a); [|now exists EmptyString].
    now exists (String a EmptyString).
  - destruct (ws1 a).
    { destruct (IH (String b EmptyString)) as [pre H]; [simpl; lia|].
      exists (String a pre). cbn [append]. now rewrite <- H. }
    destruct (ws2 a b); [|now exists EmptyString].
    now exists (String a (String b EmptyString)).
  - destruct (ws1 a).
    { destruct (IH (String b (String c r3))) as [pre H]; [simpl; lia|].
      exists (String a pre). cbn [append]. now rewrite <- H. }
    destruct (ws2 a b).
    { destruct (IH (String c r3)) as [pre H]; [simpl; lia|].
      exists (String a (String b pre)). cbn [append]. now rewrite <- H. }
    destruct (ws3 a b c); [|now exists EmptyString].
    destruct (IH r3) as [pre H]; [simpl; lia|].
    exists (String a (String b (String c pre))). cbn [append]. now rewrite <- H.
Qed.

Lemma rstrip_rev_suffix (s : string) : exists pre, s = pre ++ rstrip_rev s.
Proof.
  induction s as [s IH] using string_strong_ind.
  rewrite rstrip_rev_unfold.
  destruct s as [|c [|b [|a r3]]].
  - now exists EmptyString.
  - destruct (ws1 c); [|now exists EmptyString].
    now exists (String c EmptyString).
  - destruct (ws1 c).
    { destruct (IH (String b EmptyString)) as [pre H]; [simpl; lia|].
      exists (String c pre). cbn [append]. now rewrite <- H. }
    destruct (ws2 b c); [|now exists EmptyString].
    now exists (String c (String b EmptyString)).
  - destruct (ws1 c).
    { destruct (IH (String b (String a r3))) as [pre H]; [simpl; lia|].
      exists (String c pre). cbn [append]. now rewrite <- H. }
    destruct (ws2 b c).
    { destruct (IH (String a r3)) as [pre H]; [simpl; lia|].
      exists (String c (String b pre)). cbn [append]. now rewrite <- H. }
    destruct (ws3 a b c); [|now exists EmptyString].
    destruct (IH r3) as [pre H]; [simpl; lia|].
    exists (String c (String b (String a pre))). cbn [append]. now rewrite <- H.
Qed.

Lemma rev_app (a b : string) : rev (a ++ b) = rev b ++ rev a.
Proof.
  induction a as [|x a IH]; simpl.
  - now rewrite PyStrFacts.append_nil_r.
  - now rewrite IH, PyStrFacts.append_assoc.
Qed.

Lemma rev_involutive (s : string) : rev (rev s) = s.
Proof.
  induction s as [|x s IH]; simpl; [reflexivity|].
  now rewrite rev_app, IH.
Qed.

(** A white space at the start of a string is at the start of every string
    it starts. *)
Lemma starts_ws_app (u v : string) :
  starts_ws u = true -> starts_ws (u ++ v) = true.
Proof.
  destruct u as [|a [|b [|c r3]]]; cbn [starts_ws append]; intros H.
  - discriminate H.
  - rewrite orb_false_r in H. now rewrite H.
  - destruct (ws1 a); [reflexivity|]. cbn [orb] in *.
    rewrite orb_false_r in H. now rewrite H.
  - exact H.
Qed.

(** [rstrip] keeps a prefix. *)
Lemma rstrip_prefix (s : string) : exists post, s = rstrip s ++ post.
Proof.
  unfold rstrip. destruct (rstrip_rev_suffix (rev s)) as [pre H].
  exists (rev pre). rewrite <- rev_app, <- H. now rewrite rev_involutive.
Qed.

(** What [strip] gives has no white space at either end. *)
Lemma strip_clean (s : string) :
  starts_ws (strip s) = false /\ ends_ws (strip s) = false.
Proof.
  unfold strip. split.
  - destruct (starts_ws (rstrip (lstrip s))) eqn:E; [|reflexivity].
    destruct (rstrip_prefix (lstrip s)) as [post H].
    apply (starts_ws_app _ post) in E. rewrite <- H in E.
    now rewrite lstrip_clean in E.
  - unfold ends_ws, rstrip. rewrite rev_involutive. apply rstrip_rev_clean.
Qed.

(** A string with no white space at either end is left as it is. *)
Lemma strip_fixed (s : string) :
  starts_ws s = false -> ends_ws s = false -> strip s = s.
Proof.
  intros H1 H2. unfold strip, rstrip. rewrite (lstrip_fixed s H1).
  unfold ends_ws in H2. rewrite (rstrip_rev_fixed _ H2).
  apply rev_involutive.
Qed.

End TextFacts.

(** ** The rules read from the ignore file *)

Module GitIgnoreFacts.

Import Codec GitHub Py FileSystem Collector Views PyText TextViews GitIgnore.
Import TextFacts CollectorFacts.

Lemma set_add_in (x p : string) (set : list string) :
  In p (set_add x set) <-> p = x \/ In p set.
Proof.
  unfold set_add. destruct (existsb (String.eqb x) set) eqn:E.
  - split; [now right|]. intros [-> | H]; [|exact H].
    apply existsb_exists in E. destruct E as (y & Hy & Hxy).
    apply String.eqb_eq in Hxy. now subst y.
  - rewrite in_app_iff. cbn [In]. intuition.
Qed.

Lemma set_add_nodup (x : string) (set : list string) :
  NoDup set -> NoDup (set_add x set).
Proof.
  intros H. unfold set_add.
  destruct (existsb (String.eqb x) set) eqn:E; [exact H|].
  apply NoDup_app; [exact H | repeat constructor; intros [] |].
  intros y Hy [Heq | []]. subst y.
  assert (Hex : existsb (String.eqb x) set = true).
  { apply existsb_exists. exists x. split; [exact Hy|].
    apply String.eqb_refl. }
  congruence.
Qed.

Lemma add_line_in (set : list string) (line p : string) :
  In p (add_line set line) <-> In p set \/ gives_rule line p.
Proof.
  unfold add_line, gives_rule.
  destruct (String.eqb (strip line) EmptyString) eqn:E1; cbn [negb andb].
  - apply String.eqb_eq in E1. split; [now left|].
    intros [H | (H1 & H2 & _)]; [exact H | congruence].
  - apply String.eqb_neq in E1.
    destruct (PyStr.startswith (strip line) "#") eqn:E2; cbn [negb].
    + split; [now left|].
      intros [H | (H1 & _ & H3)]; [exact H | congruence].
    + rewrite set_add_in. split.
      * intros [-> | H]; [right | now left]. auto.
      * intros [H | (H1 & _)]; [now right | now left].
Qed.

Lemma fold_add_line_in (lines set : list string) (p : string) :
  In p (fold_left add_line lines set) <->
  In p set \/ exists line, In line lines /\ gives_rule line p.
Proof.
  revert set; induction lines as [|l lines IH]; intros set; cbn [fold_left].
  - split; [now left | intros [H | (? & [] & _)]; exact H].
  - rewrite IH, add_line_in. split.
    + intros [[H | H] | (line & Hin & H)].
      * now left.
      * right. exists l. split; [now left | exact H].
      * right. exists line. split; [now right | exact H].
    + intros [H | (line & [<- | Hin] & H)].
      * left. now left.
      * left. now right.
      * right. exists line. auto.
Qed.

Lemma fold_add_line_nodup (lines set : list string) :
  NoDup set -> NoDup (fold_left add_line lines set).
Proof.
  revert set; induction lines as [|l lines IH]; intros set H;
    cbn [fold_left]; [exact H|].
  apply IH. unfold add_line.
  destruct (negb _ && negb _); [now apply set_add_nodup | exact H].
Qed.

Lemma gives_rule_trimmed (line p : string) :
  gives_rule line p -> trimmed_rule p.
Proof.
  intros (<- & H1 & H2). destruct (strip_clean line) as [H3 H4].
  repeat split; assumption.
Qed.

End GitIgnoreFacts.

(** ** [read_gitignore] and the collection it feeds *)

Module IgnoreFile.

Import Codec GitHub Py FileSystem Collector Views PyText TextViews GitIgnore.
Import TextFacts CollectorFacts GitIgnoreFacts.

(** X1. For a [.gitignore] that can be read and is UTF-8, [read_gitignore]
    returns, without printing or calling anything, a set that holds each
    rule once; its rules are the stripped forms of the lines of the file
    that are neither empty nor comments, and none of them is empty, starts
    with [#], or starts or ends with a white space. *)
Theorem read_gitignore_rules_are_trimmed :
  forall St (cwd : node) (w : World St) (name : string) (content : bytes)
         (t : text),
    gitignore_entry cwd = Some (File name (ReadOk content)) ->
    decode_utf8 content = Some t ->
    exists patterns,
      read_gitignore cwd w = (Ok patterns, w)
      /\ NoDup patterns
      /\ (forall p,
             In p patterns <->
             exists line,
               In line (readlines (string_of_list_byte content))
               /\ gives_rule line p)
      /\ (forall p, In p patterns -> trimmed_rule p).
Proof.
  intros St cwd w name content t Hentry Hdec.
  exists (patterns_of (readlines (string_of_list_byte content))).
  split; [unfold read_gitignore; now rewrite Hentry, Hdec|].
  split; [apply fold_add_line_nodup; constructor|].
  assert (Hin : forall p,
             In p (patterns_of (readlines (string_of_list_byte content)))
             <-> exists line,
                 In line (readlines (string_of_list_byte content))
                 /\ gives_rule line p).
  { intros p. unfold patterns_of. rewrite fold_add_line_in. cbn [In].
    tauto. }
  split; [exact Hin|].
  intros p Hp. apply Hin in Hp. destruct Hp as (line & _ & H).
  eapply gives_rule_trimmed. exact H.
Qed.

Lemma read_gitignore_rules_are_trimmed_witness :
  exists patterns,
    read_gitignore Mock.project (init tt) = (Ok patterns, init tt)
    /\ (forall p, In p patterns -> trimmed_rule p).
Proof.
  destruct (read_gitignore_rules_are_trimmed unit Mock.project (init tt)
              ".gitignore" (bytes_of_string "secrets.env")
              (text_of_string "secrets.env"))
    as (patterns & Hrun & _ & _ & Htrim).
  - reflexivity.
  - reflexivity.
  - exists patterns. split; [exact Hrun | exact Htrim].
Defined.

(** X2. Without a [.gitignore] in the directory, nothing is ignored:
    [collect_files()] returns a mapping that has the key of every file that
    the walk reaches and that can be read. *)
Theorem no_ignore_file_collects_every_readable_file :
  forall St (cwd : node) (w : World St),
    gitignore_entry cwd = None ->
    exists files w',
      collect_files_here cwd w = (Ok files, w')
      /\ calls w' = calls w
      /\ (forall filepath content,
             In (filepath, ReadOk content) (visited cwd) ->
             In (github_path_of filepath) (Dict.keys files)).
Proof.
  intros St cwd w Hentry.
  exists (collected [] cwd), (printing (collect_lines [] cwd) w).
  split.
  - unfold collect_files_here, read_gitignore, bind. rewrite Hentry.
    cbn [ret]. apply collect_files_run.
  - split; [reflexivity|]. intros fp c Hin.
    apply keys_collected. exists fp, c. auto.
Qed.

Lemma no_ignore_file_collects_every_readable_file_witness :
  exists files w',
    collect_files_here (Env.cwd Mock.env_nothing) (init tt) = (Ok files, w')
    /\ In "secrets.env" (Dict.keys files).
Proof.
  destruct (no_ignore_file_collects_every_readable_file
              unit (Env.cwd Mock.env_nothing) (init tt))
    as (files & w' & Hrun & _ & Hall).
  - reflexivity.
  - exists files, w'. split; [exact Hrun|].
    apply (Hall ["secrets.env"] []). vm_compute. tauto.
Defined.

(** X3. No guard surrounds the reading of the rules: when [.gitignore] is
    a directory, cannot be read or is not UTF-8, [collect_files()] ends in
    the exception, with nothing printed, nothing called and no mapping,
    where an unreadable file of the walk is only skipped. *)
Theorem unreadable_ignore_file_aborts_collection :
  forall St (cwd : node) (w : World St),
    match gitignore_entry cwd with
    | Some (Dir _ _) => True
    | Some (File _ (ReadError _)) => True
    | Some (File _ (ReadOk content)) => decode_utf8 content = None
    | None => False
    end ->
    exists e,
      collect_files_here cwd w = (Raise e, w) /\ is_github e = false.
Proof.
  intros St cwd w H.
  unfold collect_files_here, read_gitignore, bind.
  destruct (gitignore_entry cwd) as [[name [content | message] | name es]|];
    [| | |destruct H].
  - rewrite H. eexists. split; reflexivity.
  - eexists. split; reflexivity.
  - eexists. split; reflexivity.
Qed.

Lemma unreadable_ignore_file_aborts_collection_witness :
  exists e,
    collect_files_here
      (Dir "." [File "app.py" (ReadOk []);
                File ".gitignore" (ReadError "[Errno 13] Permission denied")])
      (init tt)
    = (Raise e, init tt)
    /\ is_github e = false.
Proof.
  apply (unreadable_ignore_file_aborts_collection unit). exact I.
Defined.

End IgnoreFile.

(** ** More on the ignore rules *)

Module IgnoreMore.

Import Codec GitHub Py FileSystem Collector Views Spec IgnoreFacts.

Lemma substring_refl (s : string) : PyStr.Substring s s.
Proof.
  exists EmptyString, EmptyString. cbn [append].
  now rewrite PyStrFacts.append_nil_r.
Qed.

(** A segment of a path is a substring of its string form. *)
Lemma segment_substring (path : PathLib.Path) (seg : string) :
  In seg path -> PyStr.Substring seg (PathLib.str path).
Proof.
  assert (Hjoin : forall p, In seg p -> PyStr.Substring seg (PyStr.join "/" p)).
  { induction p as [|x p IH]; [intros []|].
    destruct p as [|y p].
    - intros [<- | []]. apply substring_refl.
    - change (PyStr.join "/" (x :: y :: p))
        with (x ++ "/" ++ PyStr.join "/" (y :: p)).
      intros [<- | Hin].
      + exists EmptyString, ("/" ++ PyStr.join "/" (y :: p)). reflexivity.
      + destruct (IH Hin) as (pre & post & H).
        exists (x ++ "/" ++ pre), post. rewrite H.
        now rewrite !PyStrFacts.append_assoc. }
  destruct path as [|x p]; [intros []|]. apply Hjoin.
Qed.

Lemma last_in {A} (l : list A) (d : A) : l <> [] -> In (last l d) l.
Proof.
  induction l as [|x l IH]; [congruence|]. intros _.
  destruct l as [|y l]; [now left|]. right. apply IH. discriminate.
Qed.

(** The final segment of a path is a substring of its string form. *)
Lemma name_substring (path : PathLib.Path) :
  PyStr.Substring (PathLib.name path) (PathLib.str path).
Proof.
  destruct path as [|x p].
  - exists EmptyString, ".". reflexivity.
  - apply segment_substring. apply last_in. discriminate.
Qed.

(** X4. The test [path.name == pattern] never decides: a rule that is the
    final segment is a substring of the string form, so that
    [should_ignore] is the substring test alone. *)
Theorem should_ignore_is_the_substring_test :
  forall (path : PathLib.Path) (ignore_patterns : list string),
    should_ignore path ignore_patterns
    = existsb (fun pattern => PyStr.contains pattern (PathLib.str path))
              ignore_patterns.
Proof.
  intros path pats. induction pats as [|p pats IH]; [reflexivity|].
  cbn [should_ignore existsb]. rewrite IH.
  destruct (PyStr.contains p (PathLib.str path)) eqn:E; [reflexivity|].
  destruct (String.eqb (PathLib.name path) p) eqn:En; [|reflexivity].
  apply String.eqb_eq in En. subst p.
  pose proof (name_substring path) as H.
  apply PyStrFacts.contains_iff in H. congruence.
Qed.

(** X5. [should_ignore] reads its rules as a set: two lists with the same
    elements give the same answer, whatever their order and repetitions,
    and the answer for a union is the disjunction of the answers. *)
Theorem should_ignore_reads_a_set :
  (forall (path : PathLib.Path) (P Q : list string),
      (forall p, In p P <-> In p Q) ->
      should_ignore path P = should_ignore path Q)
  /\ (forall (path : PathLib.Path) (P Q : list string),
         should_ignore path (P ++ Q)
         = should_ignore path P || should_ignore path Q).
Proof.
  split.
  - intros path P Q H.
    destruct (should_ignore path P) eqn:EP; symmetry.
    + apply should_ignore_iff in EP. destruct EP as (r & Hin & Hm).
      apply should_ignore_iff. exists r. split; [now apply H | exact Hm].
    + destruct (should_ignore path Q) eqn:EQ; [|reflexivity].
      apply should_ignore_iff in EQ. destruct EQ as (r & Hin & Hm).
      assert (HP : should_ignore path P = true).
      { apply should_ignore_iff. exists r. split; [now apply H | exact Hm]. }
      congruence.
  - intros path P Q. induction P as [|p P IH]; [reflexivity|].
    cbn [app should_ignore]. rewrite IH.
    now destruct (PyStr.contains p (PathLib.str path)
                  || String.eqb (PathLib.name path) p).
Qed.

Lemma should_ignore_reads_a_set_witness :
  should_ignore ["assets"; "logo.png"] ["venv"; "logo"; "venv"]
  = should_ignore ["assets"; "logo.png"] ["logo"; "venv"].
Proof.
  apply (proj1 should_ignore_reads_a_set).
  intros p. cbn [In]. tauto.
Defined.

(** X6. A rule that is a whole segment of the path, the name of a
    directory above the file or the name of the file, ignores the file,
    however deep the segment is. *)
Theorem segment_rule_ignores_the_path :
  forall (path : PathLib.Path) (ignore_patterns : list string)
         (rule : string),
    In rule ignore_patterns -> In rule path ->
    should_ignore path ignore_patterns = true.
Proof.
  intros path pats rule Hr Hseg. apply should_ignore_iff.
  exists rule. split; [exact Hr|]. left. now apply segment_substring.
Qed.

Lemma segment_rule_ignores_the_path_witness :
  should_ignore ["src"; "node_modules"; "pkg"; "index.js"]
                ["dist"; "node_modules"] = true.
Proof.
  apply (segment_rule_ignores_the_path _ _ "node_modules").
  - right. now left.
  - right. now left.
Defined.

(** X7. An empty rule ignores every path: the empty string is a substring
    of every string.  [read_gitignore] drops the empty lines, so that the
    set it returns never holds one. *)
Theorem empty_rule_ignores_every_path :
  forall (path : PathLib.Path) (ignore_patterns : list string),
    In EmptyString ignore_patterns ->
    should_ignore path ignore_patterns = true.
Proof.
  intros path pats H. apply should_ignore_iff.
  exists EmptyString. split; [exact H|]. left.
  exists EmptyString, (PathLib.str path). reflexivity.
Qed.

Lemma empty_rule_ignores_every_path_witness :
  should_ignore ["vision.py"] ["venv"; EmptyString] = true.
Proof.
  apply empty_rule_ignores_every_path. right. now left.
Defined.

End IgnoreMore.

(** ** The walk *)

Module WalkFacts.

Import Codec GitHub Py FileSystem Collector Views WalkViews CollectorFacts.

Lemma split_not_nil (sep : ascii) (s : string) : PyStr.split sep s <> [].
Proof.
  destruct s as [|c s]; cbn [PyStr.split]; [discriminate|].
  destruct (Ascii.eqb c sep); [discriminate|].
  destruct (PyStr.split sep s); discriminate.
Qed.

(** Splitting around a separator splits each side. *)
Lemma split_app_sep (sep : ascii) (a b : string) :
  PyStr.split sep (a ++ String sep b)
  = (PyStr.split sep a ++ PyStr.split sep b)%list.
Proof.
  induction a as [|c a IH].
  - cbn [append PyStr.split app]. now rewrite Ascii.eqb_refl.
  - cbn [append PyStr.split]. rewrite IH.
    destruct (Ascii.eqb c sep); [reflexivity|].
    destruct (PyStr.split sep a) as [|h t] eqn:E;
      [now destruct (split_not_nil sep a)|].
    reflexivity.
Qed.

Lemma split_no_sep (sep : ascii) (s : string) :
  PyStr.char_in sep s = false -> PyStr.split sep s = [s].
Proof.
  induction s as [|c s IH]; [reflexivity|].
  cbn [PyStr.char_in PyStr.split]. intros H.
  apply orb_false_iff in H. destruct H as [Hc Hs].
  rewrite Ascii.eqb_sym, Hc, (IH Hs). reflexivity.
Qed.

Lemma of_string_good (name : string) :
  good_name name = true -> PathLib.of_string name = [name].
Proof.
  unfold good_name, PathLib.of_string. intros H.
  apply andb_true_iff in H. destruct H as [H H3].
  apply andb_true_iff in H. destruct H as [H1 H2].
  apply negb_true_iff in H1, H2, H3.
  rewrite (split_no_sep "/" name H3). cbn [filter].
  now rewrite H1, H2.
Qed.

(** The path of a directory one level down has one more segment. *)
Lemma of_string_join (top name : string) :
  good_name name = true ->
  PathLib.of_string (path_join top name)
  = (PathLib.of_string top ++ [name])%list.
Proof.
  intros H. unfold path_join.
  change ("/" ++ name) with (String "/" name).
  unfold PathLib.of_string at 1. rewrite split_app_sep, filter_app.
  change (filter _ (PyStr.split "/" name)) with (PathLib.of_string name).
  rewrite (of_string_good name H). reflexivity.
Qed.

Lemma of_string_root (dirs : list string) :
  forall top,
    Forall (fun d => good_name d = true) dirs ->
    PathLib.of_string (root_of top dirs)
    = (PathLib.of_string top ++ dirs)%list.
Proof.
  unfold root_of. induction dirs as [|d dirs IH]; intros top H.
  - cbn. now rewrite app_nil_r.
  - inversion H as [|? ? Hd Hds]; subst. cbn [fold_left].
    rewrite IH by exact Hds. rewrite of_string_join by exact Hd.
    now rewrite <- app_assoc.
Qed.

Lemma filenames_in (entries : list node) (filename : string)
    (r : read_result) :
  In (filename, r) (filenames entries) <-> In (File filename r) entries.
Proof.
  induction entries as [|[n r0 | n es] entries IH]; cbn [filenames In].
  - tauto.
  - rewrite IH. split; intros [H | H]; auto.
    + left. now injection H as -> ->.
    + left. now injection H as -> ->.
  - rewrite IH. split; [auto | intros [H | H]; [discriminate H | exact H]].
Qed.

(** What the walk yields: the directories reached through directories that
    are all kept, each once for each way down to it. *)
Lemma walk_in (keep : string -> bool) (n : node) :
  forall (top root : string) (dn : list string)
         (fns : list (string * read_result)),
    In (root, dn, fns) (walk keep top n) <->
    exists dirs entries,
      dir_at n dirs entries
      /\ Forall (fun d => keep d = true) dirs
      /\ root = root_of top dirs
      /\ dn = dirnames entries
      /\ fns = filenames entries.
Proof.
  induction n as [name r | name entries IH] using ReadFacts.node_tree_ind;
    intros top root dn fns.
  - cbn [walk In]. split; [intros [] | intros (dirs & es & H & _)].
    inversion H.
  - cbn [walk In]. rewrite in_flat_map. split.
    + intros [Heq | (child & Hin & Hw)].
      * injection Heq as <- <- <-. exists [], entries.
        repeat split; constructor.
      * destruct child as [cn cr | d below]; [destruct Hw|].
        destruct (keep d) eqn:Ek; [|destruct Hw].
        rewrite Forall_forall in IH.
        apply (IH _ Hin) in Hw.
        destruct Hw as (dirs & es & Hat & Hk & -> & -> & ->).
        exists (d :: dirs), es. split; [|split; [|repeat split]].
        -- eapply dir_below; eassumption.
        -- now constructor.
    + intros (dirs & es & Hat & Hk & -> & -> & ->).
      inversion Hat as [? ? | ? ? d below dirs' found Hin Hsub]; subst.
      * now left.
      * right. exists (Dir d below). split; [exact Hin|].
        inversion Hk as [|? ? Hd Hds]; subst. rewrite Hd.
        rewrite Forall_forall in IH. apply (IH _ Hin).
        exists dirs', es. repeat split; assumption.
Qed.

Lemma well_named_at (n : node) (dirs : list string) (entries : list node) :
  dir_at n dirs entries -> well_named n = true ->
  Forall (fun d => good_name d = true) dirs
  /\ (forall e, In e entries ->
                good_name (node_name e) = true /\ well_named e = true).
Proof.
  induction 1 as [name entries | name entries d below dirs found Hin Hat IH];
    cbn [well_named]; intros Hw; rewrite forallb_forall in Hw.
  - split; [constructor|]. intros e He.
    apply andb_true_iff. now apply Hw.
  - specialize (Hw _ Hin). apply andb_true_iff in Hw.
    destruct Hw as [Hd Hb]. cbn [node_name] in Hd.
    destruct (IH Hb) as [Hds He]. split; [now constructor | exact He].
Qed.

End WalkFacts.

(** ** Which files the walk comes to *)

Module WalkScope.

Import Codec GitHub Py FileSystem Collector Views WalkViews WalkFacts.

(** X8. In a directory whose entries have proper names, the loop of
    [collect_files] comes to a file exactly when every directory between
    the working directory and the file is kept, that is when none of them
    starts with a dot or is called [venv] or [__pycache__]; the [filepath]
    of the file is then the names of these directories followed by the file
    name. *)
Theorem walk_visits_the_files_under_kept_directories (cwd : node) :
  well_named cwd = true ->
  forall (filepath : PathLib.Path) (r : read_result),
    In (filepath, r) (visited cwd) <->
    exists dirs filename,
      filepath = (dirs ++ [filename])%list
      /\ file_at cwd dirs filename r
      /\ Forall (fun d => keep_dir d = true) dirs.
Proof.
  intros Hw filepath r. unfold visited. rewrite in_flat_map. split.
  - intros ([[root dn] fns] & Hin & Hmap).
    apply walk_in in Hin.
    destruct Hin as (dirs & entries & Hat & Hk & -> & -> & ->).
    apply in_map_iff in Hmap. destruct Hmap as ([filename r'] & Heq & Hf).
    injection Heq as <- <-. apply filenames_in in Hf.
    destruct (well_named_at _ _ _ Hat Hw) as [Hds He].
    destruct (He _ Hf) as [Hn _]. cbn [node_name] in Hn.
    exists dirs, filename. split; [|split; [|exact Hk]].
    + unfold PathLib.truediv.
      rewrite (of_string_root dirs "." Hds), (of_string_good _ Hn).
      reflexivity.
    + exists entries. now split.
  - intros (dirs & filename & -> & (entries & Hat & Hf) & Hk).
    destruct (well_named_at _ _ _ Hat Hw) as [Hds He].
    destruct (He _ Hf) as [Hn _]. cbn [node_name] in Hn.
    exists (root_of "." dirs, dirnames entries, filenames entries). split.
    + apply walk_in. exists dirs, entries. repeat split; assumption.
    + apply in_map_iff. exists (filename, r). split.
      * unfold PathLib.truediv.
        rewrite (of_string_root dirs "." Hds), (of_string_good _ Hn).
        reflexivity.
      * now apply filenames_in.
Qed.

Lemma walk_visits_the_files_under_kept_directories_witness :
  In (["assets"; "locked.bin"],
      ReadError "[Errno 13] Permission denied") (visited Mock.project) <->
  exists dirs filename,
    ["assets"; "locked.bin"] = (dirs ++ [filename])%list
    /\ file_at Mock.project dirs filename
         (ReadError "[Errno 13] Permission denied")
    /\ Forall (fun d => keep_dir d = true) dirs.
Proof.
  apply (walk_visits_the_files_under_kept_directories Mock.project).
  vm_compute. reflexivity.
Defined.

End WalkScope.

(** ** Strategy A: every run of [main] *)

Module StrategyARuns.
Import Codec GitHub Py FileSystem Collector Views Spec RunViews.
Import CollectorFacts MainFacts PushV1Facts.

Section Runs.
Context {St : Type}.
Variable api : GithubApi St.
Variable decode_replace : bytes -> text.

(** Every run of [main], answer by answer: the first call, how the run
    exits, which exception leaves it, what the tree request carries, how
    the ref is updated and whether a ref was moved. *)
Lemma main_v1_facts (env : Env.t) (s : St) :
  let files := collected (Env.ignore_patterns env) (Env.cwd env) in
  let run := PushV1.main api decode_replace env (init s) in
  let t := calls (snd run) in
  match Env.token env with
  | None => t = []
  | Some token => exists answer rest, t = (GetUser token, answer) :: rest
  end
  /\ (forall code, fst run = Exit code -> code = 1%Z /\ exited env files t)
  /\ (exited env files t -> fst run = Exit 1)
  /\ (forall e,
         fst run = Raise e <->
         exists c,
           last_call t = Some (c, Raised e)
           /\ (is_github e = true -> uncaught_v1 c = true))
  /\ (tree_requests t = []
      \/ tree_requests t = [PushV1.tree_elements_of decode_replace files])
  /\ ((commits_created t = [] /\ ref_calls t = [])
      \/ exists c, commits_created t = [c]
                   /\ ref_update (git_commit_sha c) (ref_calls t))
  /\ (exists pre, t = (pre ++ ref_calls t)%list)
  /\ ((refs_moved t = [] /\ fst run <> Ok tt)
      \/ exists ref c,
           commits_created t = [c]
           /\ refs_moved t = [(ref, git_commit_sha c)]
           /\ fst run = Ok tt).
Proof.
  intros files run t. subst t files.
  remember run as x eqn:Ex. subst run. revert Ex.
  unfold PushV1.main.
  destruct (Env.token env) as [token|] eqn:Etok.
  2:{ run. intros ->. cbn [fst snd calls].
      split; [reflexivity|].
      split; [intros code H; injection H as <-; split;
              [reflexivity | now constructor]|].
      split; [reflexivity|].
      split; [split; [intros H; discriminate H
                     | intros (c & H & _); discriminate H]|].
      split; [now left|]. split; [now left|].
      split; [now exists []|]. left. split; [reflexivity | discriminate]. }
  run. rewrite !get_repo_url_run. run.
  destruct (get_user api token s) as [[[m|m]|login] s1]; run.
  3: destruct (get_repo api "Invoice-AI-" s1) as [[[m|m]|full_name] s2]; run.
  5: rewrite collect_files_run; run;
     destruct (collected (Env.ignore_patterns env) (Env.cwd env))
       as [|item files] eqn:E; cbn [Dict.is_empty]; run.
  6: unfold PushV1.publish, PushV1.resolve_branch, PushV1.create_tree,
       PushV1.parents_of, PushV1.update_ref; run;
     repeat (split_call; run).
  all: intros ->; cbn [fst snd calls app].
  all: (split; [eexists; eexists; reflexivity|]).
  all: (split;
        [intros code H;
         first [discriminate H
               | injection H as <-; split;
                 [reflexivity
                 | first [eapply bad_credentials | eapply no_repository
                         | eapply nothing_to_publish];
                   solve [eauto]]]|]).
  all: (split; [intros H; first [reflexivity | solve [inversion H]]|]).
  all: (split;
        [intros e; split;
         [intros H;
          first [discriminate H
                | injection H as <-; eexists;
                  split; [reflexivity
                         | intros Hg; first [reflexivity | discriminate Hg]]]
         | intros (c & Hl & Hu); cbn [last_call] in Hl;
           first [discriminate Hl
                 | injection Hl as Hc He; subst c e;
                   first [reflexivity
                         | specialize (Hu eq_refl); discriminate Hu]]]|]).
  all: (split; [first [left; reflexivity | right; reflexivity]|]).
  all: (split;
        [first [left; split; reflexivity
               | right; eexists; split; [reflexivity|];
                 unfold ref_update, attempt;
                 cbn [ref_calls filter is_ref_call fst];
                 repeat split; eexists; reflexivity]|]).
  all: (split;
        [match goal with
         | |- exists pre, ?t = (pre ++ ?rc)%list =>
             exists (firstn (List.length t - List.length rc) t); reflexivity
         end|]).
  all: first [left; split; [reflexivity | discriminate]
             | right; eexists; eexists; split; [reflexivity|];
               split; reflexivity].
Qed.
End Runs.
End StrategyARuns.

(** ** Strategy B: every run of [main] *)

Module StrategyBRuns.
Import Codec GitHub Py FileSystem Collector Views Spec RunViews.
Import CollectorFacts MainFacts PushV2Facts SortFacts.

(** Runs the monad where many lines are printed in a row: the worlds are
    projected as they are built. *)
Ltac go :=
  cbv beta delta [bind try_github try_except invoke];
  cbn [print ret sys_exit raise init is_github printing
       stdout calls remote fst snd].

Lemma last_call_cons (cr x : call * reply) (t : trace) :
  last_call t = Some x -> last_call (cr :: t) = Some x.
Proof. destruct t; [discriminate | intros H; exact H]. Qed.

Lemma last_call_app (pre t : trace) (x : call * reply) :
  last_call t = Some x -> last_call (pre ++ t)%list = Some x.
Proof.
  intros H. induction pre as [|cr pre IH]; [exact H|].
  cbn [app]. now apply last_call_cons.
Qed.

Lemma last_call_in (t : trace) (x : call * reply) :
  last_call t = Some x -> In x t.
Proof.
  induction t as [|cr t IH]; [discriminate|].
  destruct t as [|cr' t]; cbn [last_call].
  - intros H. injection H as ->. now left.
  - intros H. right. now apply IH.
Qed.


Section Runs.
Context {St : Type}.
Variable api : GithubApi St.

(** How the loop ends: normally, after a request for every item, or in the
    exception, not GitHub's, that its last request raised. *)
Lemma create_loop_end (items : list (string * bytes)) :
  forall w : World St,
    let run := for_each items (PushV2.create_one api) w in
    exists t lines,
      calls (snd run) = (calls w ++ t)%list
      /\ stdout (snd run) = (stdout w ++ lines)%list
      /\ ((fst run = Ok tt
           /\ map fst t = map request_of items
           /\ Forall (fun cr => ~ aborted cr) t)
          \/ (exists m c rest,
                 fst run = Raise (OtherException m)
                 /\ last_call t = Some (c, Raised (OtherException m))
                 /\ map request_of items = (map fst t ++ rest)%list)).
Proof.
  induction items as [|[filepath content] items IH]; intros w run; subst run.
  - exists [], []. cbn. rewrite !app_nil_r. split; [reflexivity|].
    split; [reflexivity|]. left. repeat split; constructor.
  - cbn [for_each]. unfold bind. rewrite create_one_run.
    destruct (create_file api filepath PushV2.commit_msg
                (request_content content) "main" (remote w))
      as [[[m|m]|u] s].
    2:{ eexists [_], []. cbn [snd fst calls stdout].
        rewrite app_nil_r. split; [reflexivity|]. split; [reflexivity|].
        right. exists m. eexists. exists (map request_of items).
        split; [reflexivity|]. split; reflexivity. }
    all: match goal with
         | |- context [for_each _ _ ?w1] =>
             destruct (IH w1) as (t & lines & Hc & Hs & H)
         end;
      cbn [calls stdout] in Hc, Hs;
      eexists (_ :: t), (_ :: lines);
      rewrite Hc, Hs, <- !app_assoc; cbn [app];
      (split; [reflexivity|]); (split; [reflexivity|]);
      destruct H as [(Hr & Hm & Hn) | (m' & c & rest & Hr & Hl & Hm)];
      [ left; split; [exact Hr|]; split; [cbn; now rewrite Hm|];
        constructor; [intros [msg H]; discriminate H | exact Hn]
      | right; exists m', c, rest; split; [exact Hr|];
        split; [now apply last_call_cons | cbn; now rewrite Hm] ].
Qed.

Lemma sorted_not_nil (files : Dict.t bytes) :
  files <> [] -> PushV2.sorted files <> [].
Proof.
  intros Hne Hs. pose proof (Permutation_length (sorted_perm files)) as H.
  rewrite Hs in H. destruct files; [now apply Hne | discriminate H].
Qed.

(** What [main] does with a mapping that is not empty. *)
Lemma publish_end (owner repo_name : string) (files : Dict.t bytes)
    (w : World St) :
  files <> [] ->
  let run := PushV2.publish api owner repo_name files w in
  exists cr t lines,
    calls (snd run) = (calls w ++ cr :: t)%list
    /\ stdout (snd run) = (stdout w ++ lines)%list
    /\ ((fst run = Ok tt
         /\ map fst (cr :: t) = map request_of (PushV2.sorted files)
         /\ Forall (fun cr => ~ aborted cr) (cr :: t)
         /\ In success_line lines)
        \/ (exists m c rest,
               fst run = Raise (OtherException m)
               /\ last_call (cr :: t) = Some (c, Raised (OtherException m))
               /\ map request_of (PushV2.sorted files)
                  = (map fst (cr :: t) ++ rest)%list)).
Proof.
  intros Hne run. subst run.
  unfold PushV2.publish, PushV2.create_files. go.
  match goal with
  | |- context [for_each _ _ ?w0] =>
      destruct (create_loop_end (PushV2.sorted files) w0)
        as (t & lines & Hc & Hs & H)
  end.
  cbv zeta in *. cbn [calls stdout] in Hc, Hs.
  assert (Ht : t <> []).
  { intros ->. apply (sorted_not_nil files Hne).
    destruct H as [(_ & Hm & _) | (m & c & rest & _ & Hl & _)].
    - destruct (PushV2.sorted files); [reflexivity | discriminate Hm].
    - discriminate Hl. }
  destruct t as [|cr t]; [now contradiction Ht|]. clear Ht.
  exists cr, t.
  destruct (for_each (PushV2.sorted files) (PushV2.create_one api) _)
    as [[[]|code|e] w2]; go; cbn [fst snd calls stdout] in *.
  - eexists. split; [exact Hc|].
    split; [rewrite Hs, <- !app_assoc; reflexivity|].
    destruct H as [(_ & Hm & Hn) | (m & c & rest & Hr & _)];
      [|discriminate Hr].
    left. split; [reflexivity|]. split; [exact Hm|]. split; [exact Hn|].
    do 3 (apply in_or_app; right). left. reflexivity.
  - destruct H as [(Hr & _) | (m & c & rest & Hr & _)]; discriminate Hr.
  - eexists. split; [exact Hc|].
    split; [rewrite Hs, <- !app_assoc; reflexivity|].
    destruct H as [(Hr & _) | (m & c & rest & Hr & Hl & Hm)];
      [discriminate Hr|].
    right. exists m, c, rest. split; [exact Hr|]. split; assumption.
Qed.

(** A list of create-file requests holds no call that opens the session. *)
Lemma requests_of_items (l rest : list call) (items : list (string * bytes)) :
  map request_of items = (l ++ rest)%list ->
  filter (fun c => negb (is_connect c)) l = l.
Proof.
  revert items. induction l as [|c l IH]; intros items H; [reflexivity|].
  destruct items as [|item items]; [discriminate H|].
  cbn [map app] in H. injection H as Hc H. subst c.
  cbn [filter request_of is_connect negb]. now rewrite (IH items).
Qed.

(** Every run of [main]: the first call, how the run exits, which
    exception leaves it, the requests made, and when it ends normally. *)
Lemma main_v2_facts (env : Env.t) (s : St) :
  let files := collected (Env.ignore_patterns env) (Env.cwd env) in
  let run := PushV2.main api env (init s) in
  let t := calls (snd run) in
  match Env.token env with
  | None => t = []
  | Some token => exists answer rest, t = (GetUser token, answer) :: rest
  end
  /\ (forall code, fst run = Exit code -> code = 1%Z /\ exited env files t)
  /\ (exited env files t -> fst run = Exit 1)
  /\ (forall e,
         fst run = Raise e <->
         exists c, last_call t = Some (c, Raised e) /\ is_github e = false)
  /\ (exists rest,
         map request_of (PushV2.sorted files) = (requests t ++ rest)%list
         /\ (fst run = Ok tt -> rest = []))
  /\ (fst run = Ok tt <->
      repository_found t = true
      /\ files <> []
      /\ Forall (fun cr => ~ aborted cr) t)
  /\ (fst run = Ok tt -> In success_line (stdout (snd run))).
Proof.
  intros files run t. subst t files.
  remember run as x eqn:Ex. subst run. revert Ex.
  unfold PushV2.main.
  destruct (Env.token env) as [token|] eqn:Etok; run.
  1: destruct (get_user api token s) as [[[m|m]|login] s1]; run.
  3: destruct (get_repo api "Invoice-AI-" s1) as [[[m|m]|full_name] s2]; run.
  5: rewrite collect_files_run; run;
     destruct (collected (Env.ignore_patterns env) (Env.cwd env))
       as [|item files] eqn:E; cbn [Dict.is_empty]; run.
  6:{ match goal with
      | |- context [PushV2.publish api ?o ?r ?f ?w0] =>
          assert (Hne : f <> []) by discriminate;
          destruct (publish_end o r f w0 Hne)
            as (cr & t & lines & Hc & Hs & H);
          cbv zeta in Hc, Hs, H;
          revert Hc Hs H;
          destruct (PushV2.publish api o r f w0) as [r0 w1];
          intros Hc Hs H
      end.
      intros ->. cbn [fst snd calls stdout app] in *.
      rewrite Hc, Hs. clear Hc Hs.
      split; [eexists; eexists; reflexivity|].
      assert (Hreq : forall rest,
                 map request_of (PushV2.sorted (item :: files))
                 = (map fst (cr :: t) ++ rest)%list ->
                 requests ((GetUser token, Login login)
                           :: (GetRepo "Invoice-AI-", RepoFound full_name)
                           :: cr :: t) = map fst (cr :: t)).
      { intros rest Hm. unfold requests.
        cbn [map fst filter is_connect negb].
        exact (requests_of_items _ _ _ Hm). }
      destruct H as [(-> & Hm & Hn & Hin) | (m & c & rest & -> & Hl & Hm)].
      - split; [intros code H; discriminate H|].
        split; [intros H; inversion H|].
        split.
        { intros e. split; [intros H; discriminate H|].
          intros (c & Hl & Hg). exfalso.
          change (last_call (_ :: _ :: cr :: t))
            with (last_call (cr :: t)) in Hl.
          apply last_call_in in Hl. rewrite Forall_forall in Hn.
          apply (Hn _ Hl). destruct e as [m|m]; [discriminate Hg|].
          now exists m. }
        split.
        { exists []. rewrite app_nil_r. split; [|reflexivity].
          rewrite (Hreq []); [now symmetry | now rewrite app_nil_r]. }
        split.
        { split; [|reflexivity]. intros _. split; [reflexivity|].
          split; [discriminate|].
          constructor; [intros [msg H]; discriminate H|].
          constructor; [intros [msg H]; discriminate H | exact Hn]. }
        intros _. do 4 right. apply in_or_app. right. exact Hin.
      - split; [intros code H; discriminate H|].
        split; [intros H; inversion H|].
        split.
        { intros e.
          change (last_call (_ :: _ :: cr :: t)) with (last_call (cr :: t)).
          rewrite Hl. split.
          - intros H. injection H as <-. exists c. now split.
          - intros (c' & H & _). now injection H as _ <-. }
        split.
        { exists rest. split; [|intros H; discriminate H].
          now rewrite (Hreq rest Hm). }
        split; [|intros H; discriminate H].
        split; [intros H; discriminate H|].
        intros (_ & _ & Hn). exfalso.
        apply last_call_in in Hl. rewrite Forall_forall in Hn.
        apply (Hn (c, Raised (OtherException m))); [now do 2 right|].
        now exists m. }
  all: intros ->; cbn [fst snd calls stdout app].
  all: (split; [first [reflexivity | eexists; eexists; reflexivity]|]).
  all: (split;
        [intros code H;
         first [discriminate H
               | injection H as <-; split;
                 [reflexivity
                 | first [eapply no_token | eapply bad_credentials
                         | eapply no_repository | eapply nothing_to_publish];
                   solve [eauto]]]|]).
  all: (split; [intros H; first [reflexivity | solve [inversion H]]|]).
  all: (split;
        [intros e; split;
         [intros H;
          first [discriminate H
                | injection H as <-; eexists; split; reflexivity]
         | intros (c & Hl & Hu); cbn [last_call] in Hl;
           first [discriminate Hl
                 | injection Hl as Hc He; subst c e;
                   first [reflexivity | discriminate Hu]]]|]).
  all: (split;
        [eexists; split; [unfold requests; cbn; reflexivity
                         | intros H; discriminate H]|]).
  all: (split;
        [split; [intros H; discriminate H
                | intros (Hf & Hne & _);
                  first [discriminate Hf | now contradiction Hne]]|]).
  all: intros H; discriminate H.
Qed.

End Runs.
End StrategyBRuns.

(** ** Both scripts: the token and the exits *)

Module Session.
Import Codec GitHub Py FileSystem Collector Views Spec RunViews.
Import StrategyARuns StrategyBRuns.

(** X9. Neither script calls GitHub without a token: when [GITHUB_TOKEN]
    is not set, or is the empty string, both exit through [sys.exit(1)]
    and their traces are empty; with any other value, the first call of
    both is the one that asks who this very token belongs to. *)
Theorem no_call_without_a_token :
  forall St (api : GithubApi St) (decode_replace : bytes -> text)
         (env : Env.t) (s : St),
    let run1 := PushV1.main api decode_replace env (init s) in
    let run2 := PushV2.main api env (init s) in
    match Env.GITHUB_TOKEN env with
    | None | Some EmptyString =>
        fst run1 = Exit 1 /\ calls (snd run1) = []
        /\ fst run2 = Exit 1 /\ calls (snd run2) = []
    | Some token =>
        (exists answer rest,
            calls (snd run1) = (GetUser token, answer) :: rest)
        /\ (exists answer rest,
               calls (snd run2) = (GetUser token, answer) :: rest)
    end.
Proof.
  intros St api decode_replace env s run1 run2. subst run1 run2.
  pose proof (main_v1_facts api decode_replace env s) as H1.
  pose proof (main_v2_facts api env s) as H2. cbv zeta in H1, H2.
  destruct H1 as (T1 & _ & X1 & _). destruct H2 as (T2 & _ & X2 & _).
  unfold Env.token in *.
  destruct (Env.GITHUB_TOKEN env) as [[|a token]|] eqn:E.
  - rewrite T1 in *. rewrite T2 in *.
    assert (Hex : forall files, exited env files []).
    { intros files. apply no_token. unfold Env.token. now rewrite E. }
    repeat split; [apply X1 | apply X2]; apply Hex.
  - split; assumption.
  - rewrite T1 in *. rewrite T2 in *.
    assert (Hex : forall files, exited env files []).
    { intros files. apply no_token. unfold Env.token. now rewrite E. }
    repeat split; [apply X1 | apply X2]; apply Hex.
Qed.

Lemma no_call_without_a_token_witness :
  fst (PushV1.main Mock.api Mock.decode_replace Scenes.env_empty_token
         (init Mock.partial_repo)) = Exit 1
  /\ calls (snd (PushV2.main Mock.api Scenes.env_empty_token
                   (init Mock.partial_repo))) = [].
Proof.
  pose proof (no_call_without_a_token Mock.state Mock.api
                Mock.decode_replace Scenes.env_empty_token
                Mock.partial_repo) as H.
  cbv zeta in H. cbn [Env.GITHUB_TOKEN Scenes.env_empty_token] in H.
  destruct H as (H1 & _ & _ & H2). split; assumption.
Defined.

(** X10. [sys.exit] is only reached before the first request on the
    repository, and always with status 1.  A run of either script ends in
    [sys.exit(1)] exactly when its trace is one of the four of [exited]:
    no call at all, for want of a token; the user refused by a
    [GithubException]; the repository refused by a [GithubException]; or
    user and repository found, and an empty mapping. *)
Theorem sys_exit_only_before_the_first_request :
  forall St (api : GithubApi St) (decode_replace : bytes -> text)
         (env : Env.t) (s : St),
    let files := collected (Env.ignore_patterns env) (Env.cwd env) in
    let run1 := PushV1.main api decode_replace env (init s) in
    let run2 := PushV2.main api env (init s) in
    (forall code, fst run1 = Exit code \/ fst run2 = Exit code -> code = 1%Z)
    /\ (fst run1 = Exit 1 <-> exited env files (calls (snd run1)))
    /\ (fst run2 = Exit 1 <-> exited env files (calls (snd run2))).
Proof.
  intros St api decode_replace env s files run1 run2.
  subst files run1 run2.
  pose proof (main_v1_facts api decode_replace env s) as H1.
  pose proof (main_v2_facts api env s) as H2. cbv zeta in H1, H2.
  destruct H1 as (_ & E1 & X1 & _). destruct H2 as (_ & E2 & X2 & _).
  split; [|split].
  - intros code [H | H]; [exact (proj1 (E1 _ H)) | exact (proj1 (E2 _ H))].
  - split; [intros H; exact (proj2 (E1 _ H)) | exact X1].
  - split; [intros H; exact (proj2 (E2 _ H)) | exact X2].
Qed.

Lemma sys_exit_only_before_the_first_request_witness :
  exited Scenes.env_bad_token
    (collected ["secrets.env"] Mock.project)
    (calls (snd (PushV2.main Mock.api Scenes.env_bad_token
                   (init Mock.partial_repo)))).
Proof.
  apply (sys_exit_only_before_the_first_request Mock.state Mock.api
           Mock.decode_replace Scenes.env_bad_token Mock.partial_repo).
  vm_compute. reflexivity.
Defined.

End Session.

(** ** The exceptions that leave a run *)

Module Crashes.
Import Codec GitHub Py FileSystem Collector Views Spec RunViews.
Import StrategyARuns StrategyBRuns.





End Crashes.

(** ** Strategy A: the tree request *)

Module TreeRequest.
Import Codec GitHub Py FileSystem Collector Views Spec RunViews.
Import CollectorFacts StrategyARuns StrategyBRuns.

(** In a mapping whose keys are distinct, an entry is what [get] finds. *)
Lemma get_of_in {V} (d : Dict.t V) (k : string) (v : V) :
  NoDup (Dict.keys d) -> In (k, v) d -> Dict.get d k = Some v.
Proof.
  induction d as [|[k0 v0] d IH]; cbn [Dict.keys map fst Dict.get In];
    intros Hnd Hin; [contradiction|].
  inversion Hnd as [|? ? Hn Hd]; subst.
  destruct Hin as [Heq | Hin].
  - injection Heq as -> ->. now rewrite String.eqb_refl.
  - destruct (String.eqb k0 k) eqn:E; [|now apply IH].
    apply String.eqb_eq in E. subst k0. exfalso. apply Hn.
    change (In (fst (k, v)) (map fst d)). now apply in_map.
Qed.

(** X13. A run of Strategy A requests at most one tree, and the request
    lists the mapping collected: one element per entry, in the order of
    the mapping, whose path is the key, whose mode is [100644], whose type
    is [blob], and whose content is the content of the entry decoded with
    replacement. *)
Theorem tree_request_lists_the_mapping :
  forall St (api : GithubApi St) (decode_replace : bytes -> text)
         (env : Env.t) (s : St),
    let files := collected (Env.ignore_patterns env) (Env.cwd env) in
    let t := calls (snd (PushV1.main api decode_replace env (init s))) in
    List.length (tree_requests t) <= 1
    /\ forall tree_elements,
         In tree_elements (tree_requests t) ->
         map element_path tree_elements = Dict.keys files
         /\ forall element,
              In element tree_elements ->
              element_mode element = "100644"
              /\ element_type element = "blob"
              /\ exists content,
                   Dict.get files (element_path element) = Some content
                   /\ element_content element = decode_replace content.
Proof.
  intros St api decode_replace env s files t. subst t.
  pose proof (main_v1_facts api decode_replace env s) as H. cbv zeta in H.
  destruct H as (_ & _ & _ & _ & H & _). fold files in H.
  assert (Hnd : NoDup (Dict.keys files)) by apply NoDup_keys_collected.
  destruct H as [-> | ->]; cbn [List.length In]; (split; [lia|]).
  - intros els [].
  - intros els [<- | []]. unfold PushV1.tree_elements_of. split.
    + unfold Dict.keys. rewrite map_map. apply map_ext. now intros [k v].
    + intros el Hel. apply in_map_iff in Hel.
      destruct Hel as ([k v] & <- & Hin). cbn.
      repeat split. exists v. split; [now apply get_of_in | reflexivity].
Qed.

Lemma tree_request_lists_the_mapping_witness :
  map (map element_path)
    (tree_requests
       (calls (snd (PushV1.main Mock.api Mock.decode_replace Mock.env
                      (init Mock.master_repo)))))
  = [["vision.py"; "gitignore"; "Dockerfile"; "assets/logo.png"]].
Proof.
  destruct (tree_request_lists_the_mapping Mock.state Mock.api
              Mock.decode_replace Mock.env Mock.master_repo) as (_ & H).
  cbv zeta in H.
  destruct (tree_requests _) as [|els [|els' rest]] eqn:E;
    [vm_compute in E; discriminate E | | vm_compute in E; discriminate E].
  cbn [map]. destruct (H els (or_introl eq_refl)) as (-> & _).
  vm_compute. reflexivity.
Defined.

End TreeRequest.

(** ** Strategy A: moving the branch *)

Module RefUpdate.
Import Codec GitHub Py FileSystem Collector Views Spec RunViews.
Import StrategyARuns StrategyBRuns.

(** X14. In a run of Strategy A no ref is looked up, edited or created
    unless the commit was created, and then the ref calls are the last
    calls of the run and read as [ref_update] says, all with the sha of
    that commit: [heads/main] is looked up and, if found, edited;
    [heads/master] is tried the same way exactly when GitHub refused the
    lookup or the edit of [heads/main]; [refs/heads/main] is created
    exactly when GitHub refused [heads/master] as well. *)
Theorem ref_update_tries_main_then_master_then_creates :
  forall St (api : GithubApi St) (decode_replace : bytes -> text)
         (env : Env.t) (s : St),
    let t := calls (snd (PushV1.main api decode_replace env (init s))) in
    ((commits_created t = [] /\ ref_calls t = [])
     \/ exists c,
          commits_created t = [c]
          /\ ref_update (git_commit_sha c) (ref_calls t))
    /\ exists before, t = (before ++ ref_calls t)%list.
Proof.
  intros St api decode_replace env s t. subst t.
  pose proof (main_v1_facts api decode_replace env s) as H. cbv zeta in H.
  destruct H as (_ & _ & _ & _ & _ & H1 & H2 & _). now split.
Qed.

Lemma ref_update_tries_main_then_master_then_creates_witness :
  ref_update "commit2"
    (ref_calls
       (calls (snd (PushV1.main Scenes.protected_api Mock.decode_replace
                      Mock.env (init Scenes.two_branches))))).
Proof.
  destruct (ref_update_tries_main_then_master_then_creates Mock.state
              Scenes.protected_api Mock.decode_replace Mock.env
              Scenes.two_branches) as ([(Hc & _) | (c & Hc & Hu)] & _).
  - vm_compute in Hc. discriminate Hc.
  - vm_compute in Hc. injection Hc as <-. exact Hu.
Defined.

(** X15. A run of Strategy A ends normally exactly when it moved a ref;
    it moves at most one, and only to the commit it created. *)
Theorem run_ends_normally_iff_a_ref_was_moved :
  forall St (api : GithubApi St) (decode_replace : bytes -> text)
         (env : Env.t) (s : St),
    let run := PushV1.main api decode_replace env (init s) in
    let t := calls (snd run) in
    (fst run = Ok tt <-> refs_moved t <> [])
    /\ List.length (refs_moved t) <= 1
    /\ forall ref sha,
         In (ref, sha) (refs_moved t) ->
         exists c, commits_created t = [c] /\ sha = git_commit_sha c.
Proof.
  intros St api decode_replace env s run t. subst t run.
  pose proof (main_v1_facts api decode_replace env s) as H. cbv zeta in H.
  destruct H as (_ & _ & _ & _ & _ & _ & _ & H).
  destruct H as [(-> & Hno) | (ref & c & Hc & -> & ->)].
  - split; [split; [intros H; now contradiction Hno
                   | intros H; now contradiction H]|].
    split; [cbn; lia | intros ref sha []].
  - split; [split; [discriminate | reflexivity]|].
    split; [cbn; lia|].
    intros ref' sha [H | []]. injection H as <- <-. now exists c.
Qed.

Lemma run_ends_normally_iff_a_ref_was_moved_witness :
  refs_moved
    (calls (snd (PushV1.main Scenes.protected_api Mock.decode_replace
                   Mock.env (init Scenes.two_branches)))) <> [].
Proof.
  apply (run_ends_normally_iff_a_ref_was_moved Mock.state
           Scenes.protected_api Mock.decode_replace Mock.env
           Scenes.two_branches).
  vm_compute. reflexivity.
Defined.

End RefUpdate.

(** ** Strategy B: the requests and the verdict *)

Module FileRequests.
Import Codec GitHub Py FileSystem Collector Views Spec RunViews.
Import CollectorFacts SortFacts StrategyARuns StrategyBRuns.

(** X16. Once the session is opened, the calls of a run of Strategy B
    are, in order, the create-file requests of the sorted items of the
    mapping collected, as far as the run went and all of them when it ends
    normally.  Each one is for the branch [main], with the commit message
    of the script, the key of an entry as its path and the content of that
    entry, decoded or in base64, as its content; and none is made twice. *)
Theorem strategy_b_requests_are_the_sorted_items :
  forall St (api : GithubApi St) (env : Env.t) (s : St),
    let files := collected (Env.ignore_patterns env) (Env.cwd env) in
    let run := PushV2.main api env (init s) in
    let t := calls (snd run) in
    (exists rest,
        map request_of (PushV2.sorted files) = (requests t ++ rest)%list
        /\ (fst run = Ok tt -> rest = []))
    /\ (forall c,
           In c (requests t) ->
           exists path content,
             Dict.get files path = Some content
             /\ c = CreateFile path PushV2.commit_msg
                      (request_content content) "main")
    /\ NoDup (requests t).
Proof.
  intros St api env s files run t. subst t run.
  pose proof (main_v2_facts api env s) as H. cbv zeta in H.
  destruct H as (_ & _ & _ & _ & (rest & Hreq & Hok) & _). fold files in Hreq.
  assert (Hnd : NoDup (Dict.keys files)) by apply NoDup_keys_collected.
  split; [now exists rest|]. split.
  - intros c Hc.
    assert (Hin : In c (map request_of (PushV2.sorted files)))
      by (rewrite Hreq; apply in_or_app; now left).
    apply in_map_iff in Hin. destruct Hin as ([k v] & <- & Hin).
    apply (Permutation_in _ (Permutation_sym (sorted_perm files))) in Hin.
    exists k, v. split; [now apply TreeRequest.get_of_in | reflexivity].
  - assert (Hall : NoDup (map request_of (PushV2.sorted files))).
    { assert (Hk : NoDup (map fst (PushV2.sorted files))).
      { rewrite (sorted_keys files Hnd).
        apply (Permutation_NoDup (sort_strings_perm _) Hnd). }
      revert Hk. generalize (PushV2.sorted files). clear.
      induction l as [|[k v] l IH]; cbn [map fst]; intros H;
        [constructor|].
      inversion H as [|? ? Hn Hl]; subst. constructor; [|now apply IH].
      intros Hin. apply Hn. apply in_map_iff in Hin.
      destruct Hin as ([k' v'] & Heq & Hin). injection Heq as -> _.
      change (In (fst (k, v')) (map fst l)). now apply in_map. }
    rewrite Hreq in Hall. now apply NoDup_app_remove_r in Hall.
Qed.

Lemma strategy_b_requests_are_the_sorted_items_witness :
  requests
    (calls (snd (PushV2.main Mock.api Mock.env (init Mock.empty_repo))))
  = map request_of
      (PushV2.sorted (collected ["secrets.env"] Mock.project)).
Proof.
  destruct (strategy_b_requests_are_the_sorted_items Mock.state Mock.api
              Mock.env Mock.empty_repo) as ((rest & Hreq & Hok) & _).
  cbv zeta in Hreq, Hok. rewrite Hok in Hreq by (vm_compute; reflexivity).
  rewrite app_nil_r in Hreq. symmetry. exact Hreq.
Defined.

(** X17. A run of Strategy B ends normally exactly when the repository
    was found, the mapping is not empty and no call raised an exception
    that is not GitHub's; and it then prints the line that announces
    success.  Whether any file was created plays no part. *)
Theorem strategy_b_reports_success_whatever_the_answers :
  forall St (api : GithubApi St) (env : Env.t) (s : St),
    let files := collected (Env.ignore_patterns env) (Env.cwd env) in
    let run := PushV2.main api env (init s) in
    let t := calls (snd run) in
    (fst run = Ok tt <->
     repository_found t = true
     /\ files <> []
     /\ Forall (fun cr => ~ aborted cr) t)
    /\ (fst run = Ok tt -> In success_line (stdout (snd run))).
Proof.
  intros St api env s files run t. subst t run files.
  pose proof (main_v2_facts api env s) as H. cbv zeta in H.
  destruct H as (_ & _ & _ & _ & _ & H1 & H2). now split.
Qed.

Lemma strategy_b_reports_success_whatever_the_answers_witness :
  In success_line
    (stdout (snd (PushV2.main Mock.api Mock.env (init Scenes.locked_repo))))
  /\ Forall (fun cr => snd cr <> Done)
       (calls (snd (PushV2.main Mock.api Mock.env
                      (init Scenes.locked_repo)))).
Proof.
  destruct (strategy_b_reports_success_whatever_the_answers Mock.state
              Mock.api Mock.env Scenes.locked_repo) as (_ & H).
  split.
  - apply H. vm_compute. reflexivity.
  - vm_compute. repeat constructor; discriminate.
Defined.

End FileRequests.


(** ** What [collect_files] does besides returning the mapping *)

Module CollectEffects.

Import Codec GitHub Py FileSystem Collector Views Spec CollectorFacts.

Lemma collect_lines_length (pats : list string)
    (l : list (PathLib.Path * read_result)) :
  List.length (flat_map (visit_lines pats) l)
  = List.length
      (filter (fun v => negb (should_ignore (fst v) pats)) l).
Proof.
  induction l as [|[fp r] l IH]; [reflexivity|].
  cbn [flat_map filter fst visit_lines]. rewrite length_app, IH.
  destruct (should_ignore fp pats); [reflexivity|].
  now destruct r.
Qed.

(** X18. [collect_files] only reads and prints: it calls nothing on GitHub
    and leaves the remote as it was.  It prints one line for each file it
    comes to that no rule ignores, and nothing for the others; and the
    lines that start with ["  + "] name exactly the keys of the mapping it
    returns. *)
Theorem collect_files_only_reads_and_prints :
  forall St (ignore_patterns : list string) (cwd : node) (w : World St),
  exists files lines,
    fst (collect_files ignore_patterns cwd w) = Ok files
    /\ calls (snd (collect_files ignore_patterns cwd w)) = calls w
    /\ remote (snd (collect_files ignore_patterns cwd w)) = remote w
    /\ stdout (snd (collect_files ignore_patterns cwd w))
       = (stdout w ++ lines)%list
    /\ List.length lines
       = List.length
           (filter (fun v => negb (should_ignore (fst v) ignore_patterns))
                   (visited cwd))
    /\ forall k, In k (Dict.keys files) <-> In ("  + " ++ k) lines.
Proof.
  intros St pats cwd w.
  exists (collected pats cwd), (collect_lines pats cwd).
  rewrite collect_files_run. cbn [fst snd printing calls remote stdout].
  repeat (split; [reflexivity|]).
  split; [apply collect_lines_length|].
  intros k. rewrite keys_collected. unfold collect_lines.
  rewrite in_flat_map. split.
  - intros (fp & c & Hin & Hi & <-). exists (fp, ReadOk c).
    split; [exact Hin|]. cbn [visit_lines]. rewrite Hi. now left.
  - intros ([fp r] & Hin & Hl). cbn [visit_lines] in Hl.
    destruct (should_ignore fp pats) eqn:Hi; [destruct Hl|].
    destruct r as [c|m]; (destruct Hl as [Hl | []]).
    + cbn [append] in Hl. injection Hl as Hl. exists fp, c. auto.
    + cbn [append] in Hl. discriminate Hl.
Qed.

Lemma collect_files_only_reads_and_prints_witness :
  exists files lines,
    fst (collect_files ["secrets.env"] Mock.project (init Mock.empty_repo))
    = Ok files
    /\ List.length lines = 5
    /\ (In "assets/logo.png" (Dict.keys files)
        <-> In "  + assets/logo.png" lines).
Proof.
  destruct (collect_files_only_reads_and_prints Mock.state ["secrets.env"]
              Mock.project (init Mock.empty_repo))
    as (files & lines & Hf & _ & _ & _ & Hl & Hk).
  exists files, lines. split; [exact Hf|]. split; [|apply Hk].
  rewrite Hl. vm_compute. reflexivity.
Defined.

End CollectEffects.

(** ** The characters of a key *)

Module KeyChars.

Import Codec GitHub Py FileSystem Collector Views Spec CollectorFacts.

Lemma char_in_app (c : ascii) (a b : string) :
  PyStr.char_in c (a ++ b) = PyStr.char_in c a || PyStr.char_in c b.
Proof.
  induction a as [|d a IH]; [reflexivity|].
  cbn [append PyStr.char_in]. now rewrite IH, orb_assoc.
Qed.

(** Replacing a character leaves none of it, when the replacement does not
    hold it. *)
Lemma replace_char_gone (c : ascii) (new s : string) :
  PyStr.char_in c new = false ->
  PyStr.char_in c (PyStr.replace (String c EmptyString) new s) = false.
Proof.
  intros Hnew. unfold PyStr.replace.
  induction s as [|d s IH]; [reflexivity|].
  cbn [PyStr.replace_from String.prefix String.length Nat.sub].
  destruct (ascii_dec c d) as [<- | Hcd].
  - destruct s; cbn [String.prefix];
      now rewrite char_in_app, Hnew, IH.
  - cbn [PyStr.char_in]. rewrite IH, orb_false_r.
    now apply Ascii.eqb_neq.
Qed.

Lemma lstrip_keeps_out (c : ascii) (chars s : string) :
  PyStr.char_in c s = false -> PyStr.char_in c (PyStr.lstrip chars s) = false.
Proof.
  induction s as [|d s IH]; [reflexivity|].
  cbn [PyStr.lstrip]. intros H.
  destruct (PyStr.char_in d chars); [|exact H].
  apply IH. cbn [PyStr.char_in] in H. now apply orb_false_iff in H.
Qed.

(** X19. No key of the mapping holds a backslash, and none starts with a
    dot or a slash, whatever the names of the files are. *)
Theorem keys_hold_no_backslash :
  forall (ignore_patterns : list string) (cwd : node) (k : string),
    In k (Dict.keys (collected ignore_patterns cwd)) ->
    PyStr.char_in "\" k = false
    /\ PyStr.startswith k "." = false
    /\ PyStr.startswith k "/" = false.
Proof.
  intros pats cwd k Hk. apply keys_collected in Hk.
  destruct Hk as (fp & c & _ & _ & <-). split.
  - unfold github_path_of. apply lstrip_keeps_out.
    now apply replace_char_gone.
  - destruct (github_path_of fp) as [|a rest] eqn:E; [now split|].
    pose proof (PyStrFacts.lstrip_no_leading _ _ _ _ E) as H.
    cbn [PyStr.char_in] in H. apply orb_false_iff in H.
    destruct H as [Hdot H]. apply orb_false_iff in H.
    destruct H as [Hslash _]. apply Ascii.eqb_neq in Hdot, Hslash.
    unfold PyStr.startswith. cbn [String.prefix].
    split.
    + destruct (ascii_dec "." a) as [<- | _]; [now contradiction Hdot|].
      reflexivity.
    + destruct (ascii_dec "/" a) as [<- | _]; [now contradiction Hslash|].
      reflexivity.
Qed.

Lemma keys_hold_no_backslash_witness :
  PyStr.char_in "\" "assets/logo.png" = false
  /\ PyStr.startswith "assets/logo.png" "." = false
  /\ PyStr.startswith "assets/logo.png" "/" = false.
Proof.
  apply (keys_hold_no_backslash ["secrets.env"] Mock.project).
  vm_compute. tauto.
Defined.

End KeyChars.
